(** * ADV7604 / ADV7611 video decoder driver: timing detection, register
      routing and EDID programming

    Shallow embedding of [drivers/media/i2c/adv7604.c].  Integers are [Z]
    with the C conversions written out, the I2C bus is an adapter that
    answers every transfer as a function of the transfers seen so far,
    and driver functions are state transformers over the driver state
    and the history of externally visible events. *)

From Stdlib Require Import ZArith List Bool Lia Ascii.
Import ListNotations.
Local Open Scope Z_scope.

(** ** C integer conversions *)

Definition u8 (x : Z) : Z := x mod 2 ^ 8.
Definition u16 (x : Z) : Z := x mod 2 ^ 16.
Definition u32 (x : Z) : Z := x mod 2 ^ 32.
Definition u64 (x : Z) : Z := x mod 2 ^ 64.

(** A C condition: non-zero is true. *)
Definition nonzero (x : Z) : bool := negb (x =? 0).

(** ** Constants from the kernel headers the driver includes *)

(** errno values (asm-generic/errno-base.h, asm-generic/errno.h). *)
Definition EIO : Z := 5.
Definition E2BIG : Z := 7.
Definition EINVAL : Z := 22.
Definition ERANGE : Z := 34.
Definition ENOLINK : Z := 67.

(** linux/i2c.h *)
Definition I2C_SMBUS_BLOCK_MAX : Z := 32.

(** ADV7604 system clock frequency *)
Definition ADV7604_fsc : Z := 28636360.

(** linux/videodev2.h *)
Definition V4L2_DV_PROGRESSIVE : Z := 0.
Definition V4L2_DV_INTERLACED : Z := 1.
Definition V4L2_DV_VSYNC_POS_POL : Z := 1.
Definition V4L2_DV_HSYNC_POS_POL : Z := 2.
Definition V4L2_DV_BT_STD_CEA861 : Z := 1.
Definition V4L2_DV_BT_STD_DMT : Z := 2.
Definition V4L2_DV_BT_STD_CVT : Z := 4.
Definition V4L2_DV_BT_STD_GTF : Z := 8.
Definition V4L2_DV_FL_REDUCED_BLANKING : Z := 1.
Definition V4L2_DV_FL_CAN_REDUCE_FPS : Z := 2.
Definition V4L2_DV_FL_REDUCED_FPS : Z := 4.
Definition V4L2_DV_FL_HALF_LINE : Z := 8.
Definition V4L2_DV_FL_IS_CE_VIDEO : Z := 16.
Definition V4L2_DV_FL_HAS_PICTURE_ASPECT : Z := 64.
Definition V4L2_DV_FL_HAS_CEA861_VIC : Z := 128.
Definition V4L2_DV_BT_656_1120 : Z := 0.
Definition V4L2_DV_RGB_RANGE_AUTO : Z := 0.
Definition V4L2_DV_RGB_RANGE_LIMITED : Z := 1.
Definition V4L2_DV_RGB_RANGE_FULL : Z := 2.

(** media/adv7604.h: [enum adv7604_mode] and the notifications sent to
    the bridge driver.  The header is outside the driver file; the
    enumerators are numbered in declaration order. *)
Definition ADV7604_MODE_COMP : Z := 0.
Definition ADV7604_MODE_GR : Z := 1.
Definition ADV7604_MODE_HDMI : Z := 2.

Inductive notification := ADV7604_HOTPLUG | ADV7604_FMT_CHANGE.

(** ** Timings *)

(** [struct v4l2_bt_timings]; [pixelclock] is a 64-bit field, the others
    are 32-bit. *)
Record v4l2_bt_timings := {
  width : Z;
  height : Z;
  interlaced : Z;
  polarities : Z;
  pixelclock : Z;
  hfrontporch : Z;
  hsync : Z;
  hbackporch : Z;
  vfrontporch : Z;
  vsync : Z;
  vbackporch : Z;
  il_vfrontporch : Z;
  il_vsync : Z;
  il_vbackporch : Z;
  standards : Z;
  flags : Z
}.

(** [struct v4l2_dv_timings] *)
Record v4l2_dv_timings := {
  type : Z;
  bt : v4l2_bt_timings
}.

(** [memset(timings, 0, sizeof(struct v4l2_dv_timings))], and the
    terminating [{ }] entry of the tables. *)
Definition zero_bt_timings : v4l2_bt_timings :=
  {| width := 0; height := 0; interlaced := 0; polarities := 0;
     pixelclock := 0; hfrontporch := 0; hsync := 0; hbackporch := 0;
     vfrontporch := 0; vsync := 0; vbackporch := 0;
     il_vfrontporch := 0; il_vsync := 0; il_vbackporch := 0;
     standards := 0; flags := 0 |}.

Definition zero_dv_timings : v4l2_dv_timings :=
  {| type := 0; bt := zero_bt_timings |}.

(** The preset initialiser of linux/v4l2-dv-timings.h; every preset is
    of type [V4L2_DV_BT_656_1120]. *)
Definition V4L2_INIT_BT_TIMINGS
    (_width _height _interlaced _polarities _pixelclock
     _hfrontporch _hsync _hbackporch _vfrontporch _vsync _vbackporch
     _il_vfrontporch _il_vsync _il_vbackporch _standards _flags : Z)
  : v4l2_dv_timings :=
  {| type := V4L2_DV_BT_656_1120;
     bt := {| width := _width; height := _height;
              interlaced := _interlaced; polarities := _polarities;
              pixelclock := _pixelclock;
              hfrontporch := _hfrontporch; hsync := _hsync;
              hbackporch := _hbackporch;
              vfrontporch := _vfrontporch; vsync := _vsync;
              vbackporch := _vbackporch;
              il_vfrontporch := _il_vfrontporch; il_vsync := _il_vsync;
              il_vbackporch := _il_vbackporch;
              standards := _standards; flags := _flags |} |}.

(** *** The CEA-861 and VESA DMT presets named by the driver's tables

    The preset macros live in include/uapi/linux/v4l2-dv-timings.h, which
    is outside the driver file.  The values are those of the
    CEA-861 and VESA DMT standards as that header lists them: width,
    height, interlaced, polarities, pixel clock, horizontal front porch /
    sync / back porch, vertical front porch / sync / back porch, the
    three second-field values, standards and flags. *)

Definition V4L2_DV_BT_CEA_640X480P59_94 : v4l2_dv_timings :=
  V4L2_INIT_BT_TIMINGS 640 480 0 0
    25175000 16 96 48 10 2
    33 0 0 0
    (Z.lor V4L2_DV_BT_STD_DMT V4L2_DV_BT_STD_CEA861) V4L2_DV_FL_HAS_CEA861_VIC.

Definition V4L2_DV_BT_CEA_720X480P59_94 : v4l2_dv_timings :=
  V4L2_INIT_BT_TIMINGS 720 480 0 0
    27000000 16 62 60 9 6
    30 0 0 0
    V4L2_DV_BT_STD_CEA861 (Z.lor (Z.lor V4L2_DV_FL_IS_CE_VIDEO V4L2_DV_FL_HAS_PICTURE_ASPECT) V4L2_DV_FL_HAS_CEA861_VIC).

Definition V4L2_DV_BT_CEA_720X576P50 : v4l2_dv_timings :=
  V4L2_INIT_BT_TIMINGS 720 576 0 0
    27000000 12 64 68 5 5
    39 0 0 0
    V4L2_DV_BT_STD_CEA861 (Z.lor (Z.lor V4L2_DV_FL_IS_CE_VIDEO V4L2_DV_FL_HAS_PICTURE_ASPECT) V4L2_DV_FL_HAS_CEA861_VIC).

Definition V4L2_DV_BT_CEA_1280X720P24 : v4l2_dv_timings :=
  V4L2_INIT_BT_TIMINGS 1280 720 0 (Z.lor V4L2_DV_HSYNC_POS_POL V4L2_DV_VSYNC_POS_POL)
    59400000 1760 40 220 5 5
    20 0 0 0
    (Z.lor V4L2_DV_BT_STD_DMT V4L2_DV_BT_STD_CEA861) (Z.lor V4L2_DV_FL_CAN_REDUCE_FPS V4L2_DV_FL_HAS_CEA861_VIC).

Definition V4L2_DV_BT_CEA_1280X720P25 : v4l2_dv_timings :=
  V4L2_INIT_BT_TIMINGS 1280 720 0 (Z.lor V4L2_DV_HSYNC_POS_POL V4L2_DV_VSYNC_POS_POL)
    74250000 2420 40 220 5 5
    20 0 0 0
    V4L2_DV_BT_STD_CEA861 (Z.lor V4L2_DV_FL_IS_CE_VIDEO V4L2_DV_FL_HAS_CEA861_VIC).

Definition V4L2_DV_BT_CEA_1280X720P50 : v4l2_dv_timings :=
  V4L2_INIT_BT_TIMINGS 1280 720 0 (Z.lor V4L2_DV_HSYNC_POS_POL V4L2_DV_VSYNC_POS_POL)
    74250000 440 40 220 5 5
    20 0 0 0
    V4L2_DV_BT_STD_CEA861 (Z.lor V4L2_DV_FL_IS_CE_VIDEO V4L2_DV_FL_HAS_CEA861_VIC).

Definition V4L2_DV_BT_CEA_1280X720P60 : v4l2_dv_timings :=
  V4L2_INIT_BT_TIMINGS 1280 720 0 (Z.lor V4L2_DV_HSYNC_POS_POL V4L2_DV_VSYNC_POS_POL)
    74250000 110 40 220 5 5
    20 0 0 0
    V4L2_DV_BT_STD_CEA861 (Z.lor (Z.lor V4L2_DV_FL_CAN_REDUCE_FPS V4L2_DV_FL_IS_CE_VIDEO) V4L2_DV_FL_HAS_CEA861_VIC).

Definition V4L2_DV_BT_CEA_1920X1080P24 : v4l2_dv_timings :=
  V4L2_INIT_BT_TIMINGS 1920 1080 0 (Z.lor V4L2_DV_HSYNC_POS_POL V4L2_DV_VSYNC_POS_POL)
    74250000 638 44 148 4 5
    36 0 0 0
    V4L2_DV_BT_STD_CEA861 (Z.lor (Z.lor V4L2_DV_FL_CAN_REDUCE_FPS V4L2_DV_FL_IS_CE_VIDEO) V4L2_DV_FL_HAS_CEA861_VIC).

Definition V4L2_DV_BT_CEA_1920X1080P25 : v4l2_dv_timings :=
  V4L2_INIT_BT_TIMINGS 1920 1080 0 (Z.lor V4L2_DV_HSYNC_POS_POL V4L2_DV_VSYNC_POS_POL)
    74250000 528 44 148 4 5
    36 0 0 0
    V4L2_DV_BT_STD_CEA861 (Z.lor V4L2_DV_FL_IS_CE_VIDEO V4L2_DV_FL_HAS_CEA861_VIC).

Definition V4L2_DV_BT_CEA_1920X1080P30 : v4l2_dv_timings :=
  V4L2_INIT_BT_TIMINGS 1920 1080 0 (Z.lor V4L2_DV_HSYNC_POS_POL V4L2_DV_VSYNC_POS_POL)
    74250000 88 44 148 4 5
    36 0 0 0
    V4L2_DV_BT_STD_CEA861 (Z.lor (Z.lor V4L2_DV_FL_CAN_REDUCE_FPS V4L2_DV_FL_IS_CE_VIDEO) V4L2_DV_FL_HAS_CEA861_VIC).

Definition V4L2_DV_BT_CEA_1920X1080P50 : v4l2_dv_timings :=
  V4L2_INIT_BT_TIMINGS 1920 1080 0 (Z.lor V4L2_DV_HSYNC_POS_POL V4L2_DV_VSYNC_POS_POL)
    148500000 528 44 148 4 5
    36 0 0 0
    V4L2_DV_BT_STD_CEA861 (Z.lor V4L2_DV_FL_IS_CE_VIDEO V4L2_DV_FL_HAS_CEA861_VIC).

Definition V4L2_DV_BT_CEA_1920X1080P60 : v4l2_dv_timings :=
  V4L2_INIT_BT_TIMINGS 1920 1080 0 (Z.lor V4L2_DV_HSYNC_POS_POL V4L2_DV_VSYNC_POS_POL)
    148500000 88 44 148 4 5
    36 0 0 0
    (Z.lor V4L2_DV_BT_STD_DMT V4L2_DV_BT_STD_CEA861) (Z.lor (Z.lor V4L2_DV_FL_CAN_REDUCE_FPS V4L2_DV_FL_IS_CE_VIDEO) V4L2_DV_FL_HAS_CEA861_VIC).

Definition V4L2_DV_BT_DMT_640X350P85 : v4l2_dv_timings :=
  V4L2_INIT_BT_TIMINGS 640 350 0 V4L2_DV_HSYNC_POS_POL
    31500000 32 64 96 32 3
    60 0 0 0
    V4L2_DV_BT_STD_DMT 0.

Definition V4L2_DV_BT_DMT_640X400P85 : v4l2_dv_timings :=
  V4L2_INIT_BT_TIMINGS 640 400 0 V4L2_DV_VSYNC_POS_POL
    31500000 32 64 96 1 3
    41 0 0 0
    V4L2_DV_BT_STD_DMT 0.

Definition V4L2_DV_BT_DMT_720X400P85 : v4l2_dv_timings :=
  V4L2_INIT_BT_TIMINGS 720 400 0 V4L2_DV_VSYNC_POS_POL
    35500000 36 72 108 1 3
    42 0 0 0
    V4L2_DV_BT_STD_DMT 0.

Definition V4L2_DV_BT_DMT_640X480P60 : v4l2_dv_timings := V4L2_DV_BT_CEA_640X480P59_94.

Definition V4L2_DV_BT_DMT_640X480P72 : v4l2_dv_timings :=
  V4L2_INIT_BT_TIMINGS 640 480 0 0
    31500000 24 40 128 9 3
    28 0 0 0
    V4L2_DV_BT_STD_DMT 0.

Definition V4L2_DV_BT_DMT_640X480P75 : v4l2_dv_timings :=
  V4L2_INIT_BT_TIMINGS 640 480 0 0
    31500000 16 64 120 1 3
    16 0 0 0
    V4L2_DV_BT_STD_DMT 0.

Definition V4L2_DV_BT_DMT_640X480P85 : v4l2_dv_timings :=
  V4L2_INIT_BT_TIMINGS 640 480 0 0
    36000000 56 56 80 1 3
    25 0 0 0
    V4L2_DV_BT_STD_DMT 0.

Definition V4L2_DV_BT_DMT_800X600P56 : v4l2_dv_timings :=
  V4L2_INIT_BT_TIMINGS 800 600 0 (Z.lor V4L2_DV_HSYNC_POS_POL V4L2_DV_VSYNC_POS_POL)
    36000000 24 72 128 1 2
    22 0 0 0
    V4L2_DV_BT_STD_DMT 0.

Definition V4L2_DV_BT_DMT_800X600P60 : v4l2_dv_timings :=
  V4L2_INIT_BT_TIMINGS 800 600 0 (Z.lor V4L2_DV_HSYNC_POS_POL V4L2_DV_VSYNC_POS_POL)
    40000000 40 128 88 1 4
    23 0 0 0
    V4L2_DV_BT_STD_DMT 0.

Definition V4L2_DV_BT_DMT_800X600P72 : v4l2_dv_timings :=
  V4L2_INIT_BT_TIMINGS 800 600 0 (Z.lor V4L2_DV_HSYNC_POS_POL V4L2_DV_VSYNC_POS_POL)
    50000000 56 120 64 37 6
    23 0 0 0
    V4L2_DV_BT_STD_DMT 0.

Definition V4L2_DV_BT_DMT_800X600P75 : v4l2_dv_timings :=
  V4L2_INIT_BT_TIMINGS 800 600 0 (Z.lor V4L2_DV_HSYNC_POS_POL V4L2_DV_VSYNC_POS_POL)
    49500000 16 80 160 1 3
    21 0 0 0
    V4L2_DV_BT_STD_DMT 0.

Definition V4L2_DV_BT_DMT_800X600P85 : v4l2_dv_timings :=
  V4L2_INIT_BT_TIMINGS 800 600 0 (Z.lor V4L2_DV_HSYNC_POS_POL V4L2_DV_VSYNC_POS_POL)
    56250000 32 64 152 1 3
    27 0 0 0
    V4L2_DV_BT_STD_DMT 0.

Definition V4L2_DV_BT_DMT_848X480P60 : v4l2_dv_timings :=
  V4L2_INIT_BT_TIMINGS 848 480 0 (Z.lor V4L2_DV_HSYNC_POS_POL V4L2_DV_VSYNC_POS_POL)
    33750000 16 112 112 6 8
    23 0 0 0
    V4L2_DV_BT_STD_DMT 0.

Definition V4L2_DV_BT_DMT_1024X768P60 : v4l2_dv_timings :=
  V4L2_INIT_BT_TIMINGS 1024 768 0 0
    65000000 24 136 160 3 6
    29 0 0 0
    V4L2_DV_BT_STD_DMT 0.

Definition V4L2_DV_BT_DMT_1024X768P70 : v4l2_dv_timings :=
  V4L2_INIT_BT_TIMINGS 1024 768 0 0
    75000000 24 136 144 3 6
    29 0 0 0
    V4L2_DV_BT_STD_DMT 0.

Definition V4L2_DV_BT_DMT_1024X768P75 : v4l2_dv_timings :=
  V4L2_INIT_BT_TIMINGS 1024 768 0 (Z.lor V4L2_DV_HSYNC_POS_POL V4L2_DV_VSYNC_POS_POL)
    78750000 16 96 176 1 3
    28 0 0 0
    V4L2_DV_BT_STD_DMT 0.

Definition V4L2_DV_BT_DMT_1024X768P85 : v4l2_dv_timings :=
  V4L2_INIT_BT_TIMINGS 1024 768 0 (Z.lor V4L2_DV_HSYNC_POS_POL V4L2_DV_VSYNC_POS_POL)
    94500000 48 96 208 1 3
    36 0 0 0
    V4L2_DV_BT_STD_DMT 0.

Definition V4L2_DV_BT_DMT_1152X864P75 : v4l2_dv_timings :=
  V4L2_INIT_BT_TIMINGS 1152 864 0 (Z.lor V4L2_DV_HSYNC_POS_POL V4L2_DV_VSYNC_POS_POL)
    108000000 64 128 256 1 3
    32 0 0 0
    V4L2_DV_BT_STD_DMT 0.

Definition V4L2_DV_BT_DMT_1280X768P60_RB : v4l2_dv_timings :=
  V4L2_INIT_BT_TIMINGS 1280 768 0 V4L2_DV_HSYNC_POS_POL
    68250000 48 32 80 3 7
    12 0 0 0
    (Z.lor V4L2_DV_BT_STD_DMT V4L2_DV_BT_STD_CVT) V4L2_DV_FL_REDUCED_BLANKING.

Definition V4L2_DV_BT_DMT_1280X768P60 : v4l2_dv_timings :=
  V4L2_INIT_BT_TIMINGS 1280 768 0 V4L2_DV_VSYNC_POS_POL
    79500000 64 128 192 3 7
    20 0 0 0
    (Z.lor V4L2_DV_BT_STD_DMT V4L2_DV_BT_STD_CVT) 0.

Definition V4L2_DV_BT_DMT_1280X768P75 : v4l2_dv_timings :=
  V4L2_INIT_BT_TIMINGS 1280 768 0 V4L2_DV_VSYNC_POS_POL
    102250000 80 128 208 3 7
    27 0 0 0
    (Z.lor V4L2_DV_BT_STD_DMT V4L2_DV_BT_STD_CVT) 0.

Definition V4L2_DV_BT_DMT_1280X768P85 : v4l2_dv_timings :=
  V4L2_INIT_BT_TIMINGS 1280 768 0 V4L2_DV_VSYNC_POS_POL
    117500000 80 136 216 3 7
    31 0 0 0
    (Z.lor V4L2_DV_BT_STD_DMT V4L2_DV_BT_STD_CVT) 0.

Definition V4L2_DV_BT_DMT_1280X800P60_RB : v4l2_dv_timings :=
  V4L2_INIT_BT_TIMINGS 1280 800 0 V4L2_DV_HSYNC_POS_POL
    71000000 48 32 80 3 6
    14 0 0 0
    (Z.lor V4L2_DV_BT_STD_DMT V4L2_DV_BT_STD_CVT) V4L2_DV_FL_REDUCED_BLANKING.

Definition V4L2_DV_BT_DMT_1280X800P60 : v4l2_dv_timings :=
  V4L2_INIT_BT_TIMINGS 1280 800 0 V4L2_DV_VSYNC_POS_POL
    83500000 72 128 200 3 6
    22 0 0 0
    (Z.lor V4L2_DV_BT_STD_DMT V4L2_DV_BT_STD_CVT) 0.

Definition V4L2_DV_BT_DMT_1280X800P75 : v4l2_dv_timings :=
  V4L2_INIT_BT_TIMINGS 1280 800 0 V4L2_DV_VSYNC_POS_POL
    106500000 80 128 208 3 6
    29 0 0 0
    (Z.lor V4L2_DV_BT_STD_DMT V4L2_DV_BT_STD_CVT) 0.

Definition V4L2_DV_BT_DMT_1280X800P85 : v4l2_dv_timings :=
  V4L2_INIT_BT_TIMINGS 1280 800 0 V4L2_DV_VSYNC_POS_POL
    122500000 80 136 216 3 6
    34 0 0 0
    (Z.lor V4L2_DV_BT_STD_DMT V4L2_DV_BT_STD_CVT) 0.

Definition V4L2_DV_BT_DMT_1280X960P60 : v4l2_dv_timings :=
  V4L2_INIT_BT_TIMINGS 1280 960 0 (Z.lor V4L2_DV_HSYNC_POS_POL V4L2_DV_VSYNC_POS_POL)
    108000000 96 112 312 1 3
    36 0 0 0
    V4L2_DV_BT_STD_DMT 0.

Definition V4L2_DV_BT_DMT_1280X960P85 : v4l2_dv_timings :=
  V4L2_INIT_BT_TIMINGS 1280 960 0 (Z.lor V4L2_DV_HSYNC_POS_POL V4L2_DV_VSYNC_POS_POL)
    148500000 64 160 224 1 3
    47 0 0 0
    V4L2_DV_BT_STD_DMT 0.

Definition V4L2_DV_BT_DMT_1280X1024P60 : v4l2_dv_timings :=
  V4L2_INIT_BT_TIMINGS 1280 1024 0 (Z.lor V4L2_DV_HSYNC_POS_POL V4L2_DV_VSYNC_POS_POL)
    108000000 48 112 248 1 3
    38 0 0 0
    V4L2_DV_BT_STD_DMT 0.

Definition V4L2_DV_BT_DMT_1280X1024P75 : v4l2_dv_timings :=
  V4L2_INIT_BT_TIMINGS 1280 1024 0 (Z.lor V4L2_DV_HSYNC_POS_POL V4L2_DV_VSYNC_POS_POL)
    135000000 16 144 248 1 3
    38 0 0 0
    V4L2_DV_BT_STD_DMT 0.

Definition V4L2_DV_BT_DMT_1280X1024P85 : v4l2_dv_timings :=
  V4L2_INIT_BT_TIMINGS 1280 1024 0 (Z.lor V4L2_DV_HSYNC_POS_POL V4L2_DV_VSYNC_POS_POL)
    157500000 64 160 224 1 3
    44 0 0 0
    V4L2_DV_BT_STD_DMT 0.

Definition V4L2_DV_BT_DMT_1360X768P60 : v4l2_dv_timings :=
  V4L2_INIT_BT_TIMINGS 1360 768 0 (Z.lor V4L2_DV_HSYNC_POS_POL V4L2_DV_VSYNC_POS_POL)
    85500000 64 112 256 3 6
    18 0 0 0
    V4L2_DV_BT_STD_DMT 0.

Definition V4L2_DV_BT_DMT_1400X1050P60_RB : v4l2_dv_timings :=
  V4L2_INIT_BT_TIMINGS 1400 1050 0 V4L2_DV_HSYNC_POS_POL
    101000000 48 32 80 3 4
    23 0 0 0
    (Z.lor V4L2_DV_BT_STD_DMT V4L2_DV_BT_STD_CVT) V4L2_DV_FL_REDUCED_BLANKING.

Definition V4L2_DV_BT_DMT_1400X1050P60 : v4l2_dv_timings :=
  V4L2_INIT_BT_TIMINGS 1400 1050 0 V4L2_DV_VSYNC_POS_POL
    121750000 88 144 232 3 4
    32 0 0 0
    (Z.lor V4L2_DV_BT_STD_DMT V4L2_DV_BT_STD_CVT) 0.

Definition V4L2_DV_BT_DMT_1400X1050P75 : v4l2_dv_timings :=
  V4L2_INIT_BT_TIMINGS 1400 1050 0 V4L2_DV_VSYNC_POS_POL
    156000000 104 144 248 3 4
    42 0 0 0
    (Z.lor V4L2_DV_BT_STD_DMT V4L2_DV_BT_STD_CVT) 0.

Definition V4L2_DV_BT_DMT_1400X1050P85 : v4l2_dv_timings :=
  V4L2_INIT_BT_TIMINGS 1400 1050 0 V4L2_DV_VSYNC_POS_POL
    179500000 104 152 256 3 4
    48 0 0 0
    (Z.lor V4L2_DV_BT_STD_DMT V4L2_DV_BT_STD_CVT) 0.

Definition V4L2_DV_BT_DMT_1440X900P60_RB : v4l2_dv_timings :=
  V4L2_INIT_BT_TIMINGS 1440 900 0 V4L2_DV_HSYNC_POS_POL
    88750000 48 32 80 3 6
    17 0 0 0
    (Z.lor V4L2_DV_BT_STD_DMT V4L2_DV_BT_STD_CVT) V4L2_DV_FL_REDUCED_BLANKING.

Definition V4L2_DV_BT_DMT_1440X900P60 : v4l2_dv_timings :=
  V4L2_INIT_BT_TIMINGS 1440 900 0 V4L2_DV_VSYNC_POS_POL
    106500000 80 152 232 3 6
    25 0 0 0
    (Z.lor V4L2_DV_BT_STD_DMT V4L2_DV_BT_STD_CVT) 0.

Definition V4L2_DV_BT_DMT_1600X1200P60 : v4l2_dv_timings :=
  V4L2_INIT_BT_TIMINGS 1600 1200 0 (Z.lor V4L2_DV_HSYNC_POS_POL V4L2_DV_VSYNC_POS_POL)
    162000000 64 192 304 1 3
    46 0 0 0
    V4L2_DV_BT_STD_DMT 0.

Definition V4L2_DV_BT_DMT_1680X1050P60_RB : v4l2_dv_timings :=
  V4L2_INIT_BT_TIMINGS 1680 1050 0 V4L2_DV_HSYNC_POS_POL
    119000000 48 32 80 3 6
    21 0 0 0
    (Z.lor V4L2_DV_BT_STD_DMT V4L2_DV_BT_STD_CVT) V4L2_DV_FL_REDUCED_BLANKING.

Definition V4L2_DV_BT_DMT_1680X1050P60 : v4l2_dv_timings :=
  V4L2_INIT_BT_TIMINGS 1680 1050 0 V4L2_DV_VSYNC_POS_POL
    146250000 104 176 280 3 6
    30 0 0 0
    (Z.lor V4L2_DV_BT_STD_DMT V4L2_DV_BT_STD_CVT) 0.

Definition V4L2_DV_BT_DMT_1792X1344P60 : v4l2_dv_timings :=
  V4L2_INIT_BT_TIMINGS 1792 1344 0 V4L2_DV_VSYNC_POS_POL
    204750000 128 200 328 1 3
    46 0 0 0
    V4L2_DV_BT_STD_DMT 0.

Definition V4L2_DV_BT_DMT_1856X1392P60 : v4l2_dv_timings :=
  V4L2_INIT_BT_TIMINGS 1856 1392 0 V4L2_DV_VSYNC_POS_POL
    218250000 96 224 352 1 3
    43 0 0 0
    V4L2_DV_BT_STD_DMT 0.

Definition V4L2_DV_BT_DMT_1920X1200P60_RB : v4l2_dv_timings :=
  V4L2_INIT_BT_TIMINGS 1920 1200 0 V4L2_DV_HSYNC_POS_POL
    154000000 48 32 80 3 6
    26 0 0 0
    (Z.lor V4L2_DV_BT_STD_DMT V4L2_DV_BT_STD_CVT) V4L2_DV_FL_REDUCED_BLANKING.

Definition V4L2_DV_BT_DMT_1366X768P60 : v4l2_dv_timings :=
  V4L2_INIT_BT_TIMINGS 1366 768 0 (Z.lor V4L2_DV_HSYNC_POS_POL V4L2_DV_VSYNC_POS_POL)
    85500000 70 143 213 3 3
    24 0 0 0
    V4L2_DV_BT_STD_DMT 0.

Definition V4L2_DV_BT_DMT_1920X1080P60 : v4l2_dv_timings := V4L2_DV_BT_CEA_1920X1080P60.

(** Supported CEA and DMT timings, terminated by an empty entry. *)
Definition adv7604_timings : list v4l2_dv_timings := [
  V4L2_DV_BT_CEA_720X480P59_94;
  V4L2_DV_BT_CEA_720X576P50;
  V4L2_DV_BT_CEA_1280X720P24;
  V4L2_DV_BT_CEA_1280X720P25;
  V4L2_DV_BT_CEA_1280X720P50;
  V4L2_DV_BT_CEA_1280X720P60;
  V4L2_DV_BT_CEA_1920X1080P24;
  V4L2_DV_BT_CEA_1920X1080P25;
  V4L2_DV_BT_CEA_1920X1080P30;
  V4L2_DV_BT_CEA_1920X1080P50;
  V4L2_DV_BT_CEA_1920X1080P60;
  V4L2_DV_BT_DMT_640X350P85;
  V4L2_DV_BT_DMT_640X400P85;
  V4L2_DV_BT_DMT_720X400P85;
  V4L2_DV_BT_DMT_640X480P60;
  V4L2_DV_BT_DMT_640X480P72;
  V4L2_DV_BT_DMT_640X480P75;
  V4L2_DV_BT_DMT_640X480P85;
  V4L2_DV_BT_DMT_800X600P56;
  V4L2_DV_BT_DMT_800X600P60;
  V4L2_DV_BT_DMT_800X600P72;
  V4L2_DV_BT_DMT_800X600P75;
  V4L2_DV_BT_DMT_800X600P85;
  V4L2_DV_BT_DMT_848X480P60;
  V4L2_DV_BT_DMT_1024X768P60;
  V4L2_DV_BT_DMT_1024X768P70;
  V4L2_DV_BT_DMT_1024X768P75;
  V4L2_DV_BT_DMT_1024X768P85;
  V4L2_DV_BT_DMT_1152X864P75;
  V4L2_DV_BT_DMT_1280X768P60_RB;
  V4L2_DV_BT_DMT_1280X768P60;
  V4L2_DV_BT_DMT_1280X768P75;
  V4L2_DV_BT_DMT_1280X768P85;
  V4L2_DV_BT_DMT_1280X800P60_RB;
  V4L2_DV_BT_DMT_1280X800P60;
  V4L2_DV_BT_DMT_1280X800P75;
  V4L2_DV_BT_DMT_1280X800P85;
  V4L2_DV_BT_DMT_1280X960P60;
  V4L2_DV_BT_DMT_1280X960P85;
  V4L2_DV_BT_DMT_1280X1024P60;
  V4L2_DV_BT_DMT_1280X1024P75;
  V4L2_DV_BT_DMT_1280X1024P85;
  V4L2_DV_BT_DMT_1360X768P60;
  V4L2_DV_BT_DMT_1400X1050P60_RB;
  V4L2_DV_BT_DMT_1400X1050P60;
  V4L2_DV_BT_DMT_1400X1050P75;
  V4L2_DV_BT_DMT_1400X1050P85;
  V4L2_DV_BT_DMT_1440X900P60_RB;
  V4L2_DV_BT_DMT_1440X900P60;
  V4L2_DV_BT_DMT_1600X1200P60;
  V4L2_DV_BT_DMT_1680X1050P60_RB;
  V4L2_DV_BT_DMT_1680X1050P60;
  V4L2_DV_BT_DMT_1792X1344P60;
  V4L2_DV_BT_DMT_1856X1392P60;
  V4L2_DV_BT_DMT_1920X1200P60_RB;
  V4L2_DV_BT_DMT_1366X768P60;
  V4L2_DV_BT_DMT_1920X1080P60;
  zero_dv_timings
].

(** [struct adv7604_video_standards] *)
Record adv7604_video_standards := {
  vs_timings : v4l2_dv_timings;
  vid_std : Z;
  v_freq : Z
}.

Definition end_of_standards : adv7604_video_standards :=
  {| vs_timings := zero_dv_timings; vid_std := 0; v_freq := 0 |}.

Definition video_standard (t : v4l2_dv_timings) (std freq : Z)
  : adv7604_video_standards :=
  {| vs_timings := t; vid_std := std; v_freq := freq |}.

(** sorted by number of lines *)
Definition adv7604_prim_mode_comp : list adv7604_video_standards := [
  video_standard V4L2_DV_BT_CEA_720X576P50 0x0b 0x00;
  video_standard V4L2_DV_BT_CEA_1280X720P50 0x19 0x01;
  video_standard V4L2_DV_BT_CEA_1280X720P60 0x19 0x00;
  video_standard V4L2_DV_BT_CEA_1920X1080P24 0x1e 0x04;
  video_standard V4L2_DV_BT_CEA_1920X1080P25 0x1e 0x03;
  video_standard V4L2_DV_BT_CEA_1920X1080P30 0x1e 0x02;
  video_standard V4L2_DV_BT_CEA_1920X1080P50 0x1e 0x01;
  video_standard V4L2_DV_BT_CEA_1920X1080P60 0x1e 0x00;
  end_of_standards
].

(** sorted by number of lines *)
Definition adv7604_prim_mode_gr : list adv7604_video_standards := [
  video_standard V4L2_DV_BT_DMT_640X480P60 0x08 0x00;
  video_standard V4L2_DV_BT_DMT_640X480P72 0x09 0x00;
  video_standard V4L2_DV_BT_DMT_640X480P75 0x0a 0x00;
  video_standard V4L2_DV_BT_DMT_640X480P85 0x0b 0x00;
  video_standard V4L2_DV_BT_DMT_800X600P56 0x00 0x00;
  video_standard V4L2_DV_BT_DMT_800X600P60 0x01 0x00;
  video_standard V4L2_DV_BT_DMT_800X600P72 0x02 0x00;
  video_standard V4L2_DV_BT_DMT_800X600P75 0x03 0x00;
  video_standard V4L2_DV_BT_DMT_800X600P85 0x04 0x00;
  video_standard V4L2_DV_BT_DMT_1024X768P60 0x0c 0x00;
  video_standard V4L2_DV_BT_DMT_1024X768P70 0x0d 0x00;
  video_standard V4L2_DV_BT_DMT_1024X768P75 0x0e 0x00;
  video_standard V4L2_DV_BT_DMT_1024X768P85 0x0f 0x00;
  video_standard V4L2_DV_BT_DMT_1280X1024P60 0x05 0x00;
  video_standard V4L2_DV_BT_DMT_1280X1024P75 0x06 0x00;
  video_standard V4L2_DV_BT_DMT_1360X768P60 0x12 0x00;
  video_standard V4L2_DV_BT_DMT_1366X768P60 0x13 0x00;
  video_standard V4L2_DV_BT_DMT_1400X1050P60 0x14 0x00;
  video_standard V4L2_DV_BT_DMT_1400X1050P75 0x15 0x00;
  video_standard V4L2_DV_BT_DMT_1600X1200P60 0x16 0x00;
  video_standard V4L2_DV_BT_DMT_1680X1050P60 0x18 0x00;
  video_standard V4L2_DV_BT_DMT_1920X1200P60_RB 0x19 0x00;
  end_of_standards
].

(** sorted by number of lines *)
Definition adv7604_prim_mode_hdmi_comp : list adv7604_video_standards := [
  video_standard V4L2_DV_BT_CEA_720X480P59_94 0x0a 0x00;
  video_standard V4L2_DV_BT_CEA_720X576P50 0x0b 0x00;
  video_standard V4L2_DV_BT_CEA_1280X720P50 0x13 0x01;
  video_standard V4L2_DV_BT_CEA_1280X720P60 0x13 0x00;
  video_standard V4L2_DV_BT_CEA_1920X1080P24 0x1e 0x04;
  video_standard V4L2_DV_BT_CEA_1920X1080P25 0x1e 0x03;
  video_standard V4L2_DV_BT_CEA_1920X1080P30 0x1e 0x02;
  video_standard V4L2_DV_BT_CEA_1920X1080P50 0x1e 0x01;
  video_standard V4L2_DV_BT_CEA_1920X1080P60 0x1e 0x00;
  end_of_standards
].

(** sorted by number of lines *)
Definition adv7604_prim_mode_hdmi_gr : list adv7604_video_standards := [
  video_standard V4L2_DV_BT_DMT_640X480P60 0x08 0x00;
  video_standard V4L2_DV_BT_DMT_640X480P72 0x09 0x00;
  video_standard V4L2_DV_BT_DMT_640X480P75 0x0a 0x00;
  video_standard V4L2_DV_BT_DMT_640X480P85 0x0b 0x00;
  video_standard V4L2_DV_BT_DMT_800X600P56 0x00 0x00;
  video_standard V4L2_DV_BT_DMT_800X600P60 0x01 0x00;
  video_standard V4L2_DV_BT_DMT_800X600P72 0x02 0x00;
  video_standard V4L2_DV_BT_DMT_800X600P75 0x03 0x00;
  video_standard V4L2_DV_BT_DMT_800X600P85 0x04 0x00;
  video_standard V4L2_DV_BT_DMT_1024X768P60 0x0c 0x00;
  video_standard V4L2_DV_BT_DMT_1024X768P70 0x0d 0x00;
  video_standard V4L2_DV_BT_DMT_1024X768P75 0x0e 0x00;
  video_standard V4L2_DV_BT_DMT_1024X768P85 0x0f 0x00;
  video_standard V4L2_DV_BT_DMT_1280X1024P60 0x05 0x00;
  video_standard V4L2_DV_BT_DMT_1280X1024P75 0x06 0x00;
  end_of_standards
].

(** 32-bit [unsigned] sums of the blanking and total sizes. *)
Definition hblanking (t : v4l2_bt_timings) : Z :=
  u32 (hfrontporch t + hsync t + hbackporch t).

Definition htotal (t : v4l2_bt_timings) : Z :=
  u32 (width t + hfrontporch t + hsync t + hbackporch t).

Definition vblanking (t : v4l2_bt_timings) : Z :=
  u32 (vfrontporch t + vsync t + vbackporch t).

Definition vtotal (t : v4l2_bt_timings) : Z :=
  u32 (height t + vfrontporch t + vsync t + vbackporch t).

(** ** Register pages and chip variants *)

(** The anonymous page enumeration, numbered from 0. *)
Definition ADV7604_PAGE_IO : Z := 0.
Definition ADV7604_PAGE_AVLINK : Z := 1.
Definition ADV7604_PAGE_CEC : Z := 2.
Definition ADV7604_PAGE_INFOFRAME : Z := 3.
Definition ADV7604_PAGE_ESDP : Z := 4.
Definition ADV7604_PAGE_DPP : Z := 5.
Definition ADV7604_PAGE_AFE : Z := 6.
Definition ADV7604_PAGE_REP : Z := 7.
Definition ADV7604_PAGE_EDID : Z := 8.
Definition ADV7604_PAGE_HDMI : Z := 9.
Definition ADV7604_PAGE_TEST : Z := 10.
Definition ADV7604_PAGE_CP : Z := 11.
Definition ADV7604_PAGE_VDP : Z := 12.

Definition ADV7604_REG (page offset : Z) : Z :=
  Z.lor (Z.shiftl page 8) offset.

(** [BIT(nr)] is [1UL << nr] on a 32-bit [unsigned long] (the driver's
    platform is 32-bit ARM); a count of 32 or more, undefined in C, yields
    no bit here. *)
Definition BITS_PER_LONG : Z := 32.

Definition BIT (nr : Z) : Z :=
  if nr <? BITS_PER_LONG then Z.shiftl 1 nr else 0.

(** The I2C clients of the chip: the main client (IO map) registered with
    the sub-device, and the dummy clients of the other maps. *)
Inductive i2c_client :=
| client
| i2c_avlink
| i2c_cec
| i2c_infoframe
| i2c_esdp
| i2c_dpp
| i2c_afe
| i2c_repeater
| i2c_edid
| i2c_hdmi
| i2c_test
| i2c_cp
| i2c_vdp.

Inductive adv7604_type := ADV7604 | ADV7611.

(** [struct adv7604_reg_seq] *)
Record adv7604_reg_seq := {
  reg : Z;
  val : Z
}.

Definition reg_seq (r v : Z) : adv7604_reg_seq := {| reg := r; val := v |}.

(** [struct adv7604_chip_info].  A function-pointer member holds the
    variant whose implementation is installed; the two recommended-setting
    arrays carry their own lengths. *)
Record adv7604_chip_info := {
  edid_ctrl_reg : Z;
  edid_status_reg : Z;
  lcf_reg : Z;
  cable_det_mask : Z;
  tdms_lock_mask : Z;
  fmt_change_digital_mask : Z;
  has_afe : bool;
  set_termination : adv7604_type;
  setup_irqs : adv7604_type;
  read_hdmi_pixelclock : adv7604_type;
  recommended_settings_0 : list adv7604_reg_seq;
  recommended_settings_1 : list adv7604_reg_seq;
  page_mask : Z
}.

Definition adv7604_recommended_settings_afe : list adv7604_reg_seq := [
  (* reset ADI recommended settings for HDMI *)
  reg_seq (ADV7604_REG ADV7604_PAGE_HDMI 0x0d) 0x04;
  reg_seq (ADV7604_REG ADV7604_PAGE_HDMI 0x0d) 0x04;
  reg_seq (ADV7604_REG ADV7604_PAGE_HDMI 0x3d) 0x00;
  reg_seq (ADV7604_REG ADV7604_PAGE_HDMI 0x3e) 0x74;
  reg_seq (ADV7604_REG ADV7604_PAGE_HDMI 0x4e) 0x3b;
  reg_seq (ADV7604_REG ADV7604_PAGE_HDMI 0x57) 0x74;
  reg_seq (ADV7604_REG ADV7604_PAGE_HDMI 0x58) 0x63;
  reg_seq (ADV7604_REG ADV7604_PAGE_HDMI 0x8d) 0x18;
  reg_seq (ADV7604_REG ADV7604_PAGE_HDMI 0x8e) 0x34;
  reg_seq (ADV7604_REG ADV7604_PAGE_HDMI 0x93) 0x88;
  reg_seq (ADV7604_REG ADV7604_PAGE_HDMI 0x94) 0x2e;
  reg_seq (ADV7604_REG ADV7604_PAGE_HDMI 0x96) 0x00;
  (* set ADI recommended settings for digitizer *)
  reg_seq (ADV7604_REG ADV7604_PAGE_AFE 0x12) 0x7b;
  reg_seq (ADV7604_REG ADV7604_PAGE_AFE 0x0c) 0x1f;
  reg_seq (ADV7604_REG ADV7604_PAGE_CP 0x3e) 0x04;
  reg_seq (ADV7604_REG ADV7604_PAGE_CP 0xc3) 0x39;
  reg_seq (ADV7604_REG ADV7604_PAGE_CP 0x40) 0x5c
].

Definition adv7604_recommended_settings_hdmi : list adv7604_reg_seq := [
  (* set ADI recommended settings for HDMI *)
  reg_seq (ADV7604_REG ADV7604_PAGE_HDMI 0x0d) 0x84;
  reg_seq (ADV7604_REG ADV7604_PAGE_HDMI 0x3d) 0x10;
  reg_seq (ADV7604_REG ADV7604_PAGE_HDMI 0x3e) 0x39;
  reg_seq (ADV7604_REG ADV7604_PAGE_HDMI 0x4e) 0x3b;
  reg_seq (ADV7604_REG ADV7604_PAGE_HDMI 0x57) 0xb6;
  reg_seq (ADV7604_REG ADV7604_PAGE_HDMI 0x58) 0x03;
  reg_seq (ADV7604_REG ADV7604_PAGE_HDMI 0x8d) 0x18;
  reg_seq (ADV7604_REG ADV7604_PAGE_HDMI 0x8e) 0x34;
  reg_seq (ADV7604_REG ADV7604_PAGE_HDMI 0x93) 0x8b;
  reg_seq (ADV7604_REG ADV7604_PAGE_HDMI 0x94) 0x2d;
  reg_seq (ADV7604_REG ADV7604_PAGE_HDMI 0x96) 0x01;
  (* reset ADI recommended settings for digitizer *)
  reg_seq (ADV7604_REG ADV7604_PAGE_AFE 0x12) 0xfb;
  reg_seq (ADV7604_REG ADV7604_PAGE_AFE 0x0c) 0x0d
].

Definition adv7611_recommended_settings_hdmi : list adv7604_reg_seq := [
  reg_seq (ADV7604_REG ADV7604_PAGE_CP 0x6c) 0x00;
  reg_seq (ADV7604_REG ADV7604_PAGE_HDMI 0x6f) 0x0c;
  reg_seq (ADV7604_REG ADV7604_PAGE_HDMI 0x87) 0x70;
  reg_seq (ADV7604_REG ADV7604_PAGE_HDMI 0x57) 0xda;
  reg_seq (ADV7604_REG ADV7604_PAGE_HDMI 0x58) 0x01;
  reg_seq (ADV7604_REG ADV7604_PAGE_HDMI 0x03) 0x98;
  reg_seq (ADV7604_REG ADV7604_PAGE_HDMI 0x4c) 0x44;
  reg_seq (ADV7604_REG ADV7604_PAGE_HDMI 0x8d) 0x04;
  reg_seq (ADV7604_REG ADV7604_PAGE_HDMI 0x8e) 0x1e
].

Definition page_bits (pages : list Z) : Z :=
  fold_right (fun p acc => Z.lor (BIT p) acc) 0 pages.

(** [adv7604_chip_info[]]; members the initialiser leaves out are zero. *)
Definition adv7604_chip_info_tbl (t : adv7604_type) : adv7604_chip_info :=
  match t with
  | ADV7604 =>
      {| edid_ctrl_reg := 0;
         edid_status_reg := 0;
         lcf_reg := 0;
         cable_det_mask := 0;
         tdms_lock_mask := 0xe0;
         fmt_change_digital_mask := 0xc0;
         has_afe := true;
         set_termination := ADV7604;
         setup_irqs := ADV7604;
         read_hdmi_pixelclock := ADV7604;
         recommended_settings_0 := adv7604_recommended_settings_afe;
         recommended_settings_1 := adv7604_recommended_settings_hdmi;
         page_mask :=
           page_bits [ADV7604_PAGE_IO; ADV7604_PAGE_AVLINK;
                      ADV7604_PAGE_CEC; ADV7604_PAGE_INFOFRAME;
                      ADV7604_PAGE_ESDP; ADV7604_PAGE_DPP;
                      ADV7604_PAGE_AFE; ADV7604_PAGE_REP;
                      ADV7604_PAGE_EDID; ADV7604_PAGE_HDMI;
                      ADV7604_PAGE_TEST; ADV7604_PAGE_CP;
                      ADV7604_PAGE_VDP] |}
  | ADV7611 =>
      {| edid_ctrl_reg := 0x74;
         edid_status_reg := 0x76;
         lcf_reg := 0xa3;
         cable_det_mask := 0x01;
         tdms_lock_mask := 0x43;
         fmt_change_digital_mask := 0x03;
         has_afe := false;
         set_termination := ADV7611;
         setup_irqs := ADV7611;
         read_hdmi_pixelclock := ADV7611;
         recommended_settings_0 := [];
         recommended_settings_1 := adv7611_recommended_settings_hdmi;
         page_mask :=
           page_bits [ADV7604_PAGE_IO; ADV7604_PAGE_CEC;
                      ADV7604_PAGE_INFOFRAME; ADV7604_PAGE_AFE;
                      ADV7604_PAGE_REP; ADV7604_PAGE_EDID;
                      ADV7604_PAGE_HDMI; ADV7604_PAGE_CP] |}
  end.

(** ** Driver state *)

Record v4l2_fract := {
  numerator : Z;
  denominator : Z
}.

(** [struct adv7604_state], the members the modelled functions use. *)
Record adv7604_state := {
  info : adv7604_chip_info;
  mode : Z;
  timings : v4l2_dv_timings;
  edid : list Z;
  edid_blocks : Z;
  aspect_ratio : v4l2_fract;
  rgb_quantization_range : Z;
  restart_stdi_once : bool
}.

Definition set_mode (m : Z) (s : adv7604_state) : adv7604_state :=
  {| info := info s; mode := m; timings := timings s; edid := edid s;
     edid_blocks := edid_blocks s; aspect_ratio := aspect_ratio s;
     rgb_quantization_range := rgb_quantization_range s;
     restart_stdi_once := restart_stdi_once s |}.

Definition set_timings (t : v4l2_dv_timings) (s : adv7604_state)
  : adv7604_state :=
  {| info := info s; mode := mode s; timings := t; edid := edid s;
     edid_blocks := edid_blocks s; aspect_ratio := aspect_ratio s;
     rgb_quantization_range := rgb_quantization_range s;
     restart_stdi_once := restart_stdi_once s |}.

Definition set_edid_bytes (e : list Z) (s : adv7604_state) : adv7604_state :=
  {| info := info s; mode := mode s; timings := timings s; edid := e;
     edid_blocks := edid_blocks s; aspect_ratio := aspect_ratio s;
     rgb_quantization_range := rgb_quantization_range s;
     restart_stdi_once := restart_stdi_once s |}.

Definition set_edid_blocks (n : Z) (s : adv7604_state) : adv7604_state :=
  {| info := info s; mode := mode s; timings := timings s; edid := edid s;
     edid_blocks := n; aspect_ratio := aspect_ratio s;
     rgb_quantization_range := rgb_quantization_range s;
     restart_stdi_once := restart_stdi_once s |}.

Definition set_aspect_ratio (a : v4l2_fract) (s : adv7604_state)
  : adv7604_state :=
  {| info := info s; mode := mode s; timings := timings s; edid := edid s;
     edid_blocks := edid_blocks s; aspect_ratio := a;
     rgb_quantization_range := rgb_quantization_range s;
     restart_stdi_once := restart_stdi_once s |}.

Definition set_restart_stdi_once (b : bool) (s : adv7604_state)
  : adv7604_state :=
  {| info := info s; mode := mode s; timings := timings s; edid := edid s;
     edid_blocks := edid_blocks s; aspect_ratio := aspect_ratio s;
     rgb_quantization_range := rgb_quantization_range s;
     restart_stdi_once := b |}.

(** The state [adv7604_probe] builds: [kzalloc]ed, the chip description
    selected by the device id, and the STDI restart armed.  (The register
    programming of [adv7604_core_init] that follows touches none of these
    members.) *)
Definition adv7604_probe_state (id : adv7604_type) : adv7604_state :=
  {| info := adv7604_chip_info_tbl id;
     mode := 0;
     timings := zero_dv_timings;
     edid := repeat 0 256;
     edid_blocks := 0;
     aspect_ratio := {| numerator := 0; denominator := 0 |};
     rgb_quantization_range := 0;
     restart_stdi_once := true |}.

(** ** The outside world: bus transfers and notifications *)

(** The three kinds of [i2c_smbus_xfer] the driver issues. *)
Inductive smbus_xfer :=
| SMBUS_READ_BYTE_DATA (c : i2c_client) (command : Z)
| SMBUS_WRITE_BYTE_DATA (c : i2c_client) (command value : Z)
| SMBUS_WRITE_I2C_BLOCK_DATA (c : i2c_client) (command : Z) (block : list Z).

(** What the driver does to its environment, in order of occurrence. *)
Inductive event :=
| Xfer (x : smbus_xfer)
| Notify (n : notification) (arg : Z)
| Mdelay (ms : Z)
| QueueDelayedWork (delay : Z).

(** The adapter and the chip behind it: the status [i2c_smbus_xfer]
    returns (0 on success) and the byte a read delivers, both as a function
    of everything that happened before (most recent event first). *)
Record i2c_adapter := {
  xfer_status : list event -> smbus_xfer -> Z;
  xfer_byte : list event -> smbus_xfer -> Z
}.

Record world := {
  dev : adv7604_state;
  history : list event
}.

Definition with_dev (s : adv7604_state) (w : world) : world :=
  {| dev := s; history := history w |}.

Definition log_event (e : event) (w : world) : world :=
  {| dev := dev w; history := e :: history w |}.

(** [struct stdi_readback] *)
Record stdi_readback := {
  bl : Z;
  lcf : Z;
  lcvs : Z;
  hs_pol : ascii;
  vs_pol : ascii;
  stdi_interlaced : bool
}.

Definition zero_stdi : stdi_readback :=
  {| bl := 0; lcf := 0; lcvs := 0; hs_pol := zero; vs_pol := zero;
     stdi_interlaced := false |}.

Definition set_lcvs (n : Z) (s : stdi_readback) : stdi_readback :=
  {| bl := bl s; lcf := lcf s; lcvs := n; hs_pol := hs_pol s;
     vs_pol := vs_pol s; stdi_interlaced := stdi_interlaced s |}.

(** [struct v4l2_subdev_edid]; the [edid] member is a pointer, [None]
    when null, otherwise the bytes of the caller's buffer. *)
Record v4l2_subdev_edid := {
  pad : Z;
  start_block : Z;
  blocks : Z;
  edid_ptr : option (list Z)
}.

(** [memcpy(dst + doff, src + soff, n)] on two arrays.  An access past
    the end of either array is undefined in C and yields [None]. *)
Definition memcpy (dst : list Z) (doff : Z) (src : list Z) (soff n : Z)
  : option (list Z) :=
  if (soff + n <=? Z.of_nat (length src)) && (doff + n <=? Z.of_nat (length dst))
  then Some (firstn (Z.to_nat doff) dst
             ++ firstn (Z.to_nat n) (skipn (Z.to_nat soff) src)
             ++ skipn (Z.to_nat (doff + n)) dst)
  else None.

Existing Class i2c_adapter.

(** ** Kernel services the driver relies on

    The V4L2 helpers of v4l2-dv-timings.c and v4l2-common.c, which are
    outside the driver file.  A detection helper returns its boolean
    result together with the contents it leaves in [*fmt]; [HZ] is the
    number of jiffies per second. *)
Class kernel := {
  v4l2_detect_cvt :
    Z -> Z -> Z -> Z -> v4l2_dv_timings -> bool * v4l2_dv_timings;
  v4l2_detect_gtf :
    Z -> Z -> Z -> Z -> v4l2_fract -> v4l2_dv_timings
    -> bool * v4l2_dv_timings;
  v4l2_calc_aspect_ratio : Z -> Z -> v4l2_fract;
  v4l_match_dv_timings : v4l2_dv_timings -> v4l2_dv_timings -> Z -> bool;
  HZ : Z
}.

(** ** Driver functions as state transformers *)

Definition drv (A : Type) : Type := world -> A * world.

Definition ret {A : Type} (a : A) : drv A := fun w => (a, w).

Definition bind {A B : Type} (m : drv A) (k : A -> drv B) : drv B :=
  fun w => let (a, w') := m w in k a w'.

Declare Scope drv_scope.
Delimit Scope drv_scope with drv.
Notation "x <- m ;; k" := (bind m (fun x => k))
  (at level 100, m at next level, right associativity) : drv_scope.
Notation "m ;; k" := (bind m (fun _ => k))
  (at level 100, right associativity) : drv_scope.
Local Open Scope drv_scope.

Definition get_state : drv adv7604_state := fun w => (dev w, w).

Definition modify_state (f : adv7604_state -> adv7604_state) : drv unit :=
  fun w => (tt, with_dev (f (dev w)) w).

Definition emit (e : event) : drv unit := fun w => (tt, log_event e w).

(** [state->mode == ADV7604_MODE_HDMI] *)
Definition DIGITAL_INPUT (state : adv7604_state) : bool :=
  mode state =? ADV7604_MODE_HDMI.

Definition adv7604_has_afe (state : adv7604_state) : bool :=
  has_afe (info state).

Section Driver.

Context {K : kernel} {adapter : i2c_adapter}.

(** *** Environment calls *)

(** One transfer: the adapter answers from the history, and the transfer
    is recorded. *)
Definition i2c_smbus_xfer (x : smbus_xfer) : drv (Z * Z) :=
  fun w =>
    ((xfer_status adapter (history w) x, xfer_byte adapter (history w) x),
     log_event (Xfer x) w).

Definition v4l2_subdev_notify (n : notification) (arg : Z) : drv unit :=
  emit (Notify n arg).

Definition mdelay (ms : Z) : drv unit := emit (Mdelay ms).

Definition queue_delayed_work (delay : Z) : drv unit :=
  emit (QueueDelayedWork delay).

(** *** SMBus access *)

Definition adv_smbus_read_byte_data_check
    (c : i2c_client) (command : Z) (check : bool) : drv Z :=
  r <- i2c_smbus_xfer (SMBUS_READ_BYTE_DATA c (u8 command)) ;;
  if fst r =? 0 then ret (u8 (snd r)) else ret (- EIO).

Definition adv_smbus_read_byte_data (c : i2c_client) (command : Z) : drv Z :=
  adv_smbus_read_byte_data_check c command true.

(** The body of [for (i = 0; i < 3; i++)], with [n] iterations left and
    [err] the status of the previous one. *)
Fixpoint adv_smbus_write_byte_data_loop
    (n : nat) (err : Z) (c : i2c_client) (command value : Z) : drv Z :=
  match n with
  | O => ret err
  | S n' =>
      r <- i2c_smbus_xfer (SMBUS_WRITE_BYTE_DATA c command value) ;;
      if fst r =? 0 then ret (fst r)
      else adv_smbus_write_byte_data_loop n' (fst r) c command value
  end.

Definition adv_smbus_write_byte_data (c : i2c_client) (command value : Z)
  : drv Z :=
  adv_smbus_write_byte_data_loop 3 0 c (u8 command) (u8 value).

(** [values] is the array from the pointer on. *)
Definition adv_smbus_write_i2c_block_data
    (c : i2c_client) (command length : Z) (values : list Z) : drv Z :=
  let length := if length >? I2C_SMBUS_BLOCK_MAX
                then I2C_SMBUS_BLOCK_MAX else length in
  r <- i2c_smbus_xfer
         (SMBUS_WRITE_I2C_BLOCK_DATA c (u8 command)
            (firstn (Z.to_nat length) values)) ;;
  ret (fst r).

(** *** Per-map accessors *)

Definition io_read (reg : Z) : drv Z := adv_smbus_read_byte_data client reg.

Definition io_write (reg val : Z) : drv Z :=
  adv_smbus_write_byte_data client reg val.

Definition io_write_and_or (reg mask val : Z) : drv Z :=
  v <- io_read reg ;;
  io_write reg (Z.lor (Z.land v mask) val).

Definition avlink_read (reg : Z) : drv Z :=
  adv_smbus_read_byte_data i2c_avlink reg.

Definition avlink_write (reg val : Z) : drv Z :=
  adv_smbus_write_byte_data i2c_avlink reg val.

Definition cec_read (reg : Z) : drv Z := adv_smbus_read_byte_data i2c_cec reg.

Definition cec_write (reg val : Z) : drv Z :=
  adv_smbus_write_byte_data i2c_cec reg val.

Definition infoframe_read (reg : Z) : drv Z :=
  adv_smbus_read_byte_data i2c_infoframe reg.

Definition infoframe_write (reg val : Z) : drv Z :=
  adv_smbus_write_byte_data i2c_infoframe reg val.

Definition esdp_read (reg : Z) : drv Z :=
  adv_smbus_read_byte_data i2c_esdp reg.

Definition esdp_write (reg val : Z) : drv Z :=
  adv_smbus_write_byte_data i2c_esdp reg val.

Definition dpp_read (reg : Z) : drv Z := adv_smbus_read_byte_data i2c_dpp reg.

Definition dpp_write (reg val : Z) : drv Z :=
  adv_smbus_write_byte_data i2c_dpp reg val.

Definition afe_read (reg : Z) : drv Z := adv_smbus_read_byte_data i2c_afe reg.

Definition afe_write (reg val : Z) : drv Z :=
  adv_smbus_write_byte_data i2c_afe reg val.

Definition rep_read (reg : Z) : drv Z :=
  adv_smbus_read_byte_data i2c_repeater reg.

Definition rep_write (reg val : Z) : drv Z :=
  adv_smbus_write_byte_data i2c_repeater reg val.

Definition rep_write_and_or (reg mask val : Z) : drv Z :=
  v <- rep_read reg ;;
  rep_write reg (Z.lor (Z.land v mask) val).

Definition edid_read (reg : Z) : drv Z :=
  adv_smbus_read_byte_data i2c_edid reg.

Definition edid_write (reg val : Z) : drv Z :=
  adv_smbus_write_byte_data i2c_edid reg val.

Definition hdmi_read (reg : Z) : drv Z :=
  adv_smbus_read_byte_data i2c_hdmi reg.

(** The two reads are taken left to right. *)
Definition hdmi_read16 (reg mask : Z) : drv Z :=
  hi <- hdmi_read reg ;;
  lo <- hdmi_read (reg + 1) ;;
  ret (u16 (Z.land (Z.lor (Z.shiftl hi 8) lo) mask)).

Definition hdmi_write (reg val : Z) : drv Z :=
  adv_smbus_write_byte_data i2c_hdmi reg val.

Definition test_read (reg : Z) : drv Z :=
  adv_smbus_read_byte_data i2c_test reg.

Definition test_write (reg val : Z) : drv Z :=
  adv_smbus_write_byte_data i2c_test reg val.

Definition cp_read (reg : Z) : drv Z := adv_smbus_read_byte_data i2c_cp reg.

Definition cp_read16 (reg mask : Z) : drv Z :=
  hi <- cp_read reg ;;
  lo <- cp_read (reg + 1) ;;
  ret (u16 (Z.land (Z.lor (Z.shiftl hi 8) lo) mask)).

Definition cp_write (reg val : Z) : drv Z :=
  adv_smbus_write_byte_data i2c_cp reg val.

Definition cp_write_and_or (reg mask val : Z) : drv Z :=
  v <- cp_read reg ;;
  cp_write reg (Z.lor (Z.land v mask) val).

Definition vdp_read (reg : Z) : drv Z := adv_smbus_read_byte_data i2c_vdp reg.

Definition vdp_write (reg val : Z) : drv Z :=
  adv_smbus_write_byte_data i2c_vdp reg val.

(** *** EDID upload *)

(** [for (i = 0; !err && i < len; i += I2C_SMBUS_BLOCK_MAX)]; [fuel]
    bounds the number of iterations. *)
Fixpoint edid_write_block_loop
    (fuel : nat) (i len : Z) (val : list Z) (err : Z) : drv Z :=
  match fuel with
  | O => ret err
  | S fuel' =>
      if (err =? 0) && (i <? len) then
        err' <- adv_smbus_write_i2c_block_data i2c_edid i
                  I2C_SMBUS_BLOCK_MAX (skipn (Z.to_nat i) val) ;;
        edid_write_block_loop fuel' (i + I2C_SMBUS_BLOCK_MAX) len val err'
      else ret err
  end.

(** [for (i = 0; i < 1000; i++)]: polls the status register and yields
    the final [i]; [n] iterations are left. *)
Fixpoint edid_write_block_poll (n : nat) (i : Z) (status_reg : Z) : drv Z :=
  match n with
  | O => ret i
  | S n' =>
      v <- rep_read status_reg ;;
      if nonzero (Z.land v 1) then ret i
      else (mdelay 1 ;; edid_write_block_poll n' (i + 1) status_reg)
  end.

Definition edid_write_block (len : Z) (val : list Z) : drv Z :=
  state <- get_state ;;
  v4l2_subdev_notify ADV7604_HOTPLUG 0 ;;
  (* Disables I2C access to internal EDID ram from DDC port *)
  rep_write_and_or (edid_ctrl_reg (info state)) 0xf0 0x0 ;;
  err <- edid_write_block_loop
           (Z.to_nat ((len + I2C_SMBUS_BLOCK_MAX - 1) / I2C_SMBUS_BLOCK_MAX))
           0 len val 0 ;;
  if nonzero err then ret err
  else
    (* adv7604 calculates the checksums and enables I2C access to
       internal EDID ram from DDC port. *)
    (rep_write_and_or (edid_ctrl_reg (info state)) 0xf0 0x1 ;;
     i <- edid_write_block_poll 1000 0 (edid_status_reg (info state)) ;;
     if i =? 1000 then ret (- EIO)
     else
       (* enable hotplug after 100 ms *)
       (queue_delayed_work (HZ / 10) ;;
        ret 0)).

(** *** Generic register access *)

Definition adv7604_read_reg (reg : Z) : drv Z :=
  state <- get_state ;;
  let page := Z.shiftr reg 8 in
  if negb (nonzero (Z.land (BIT page) (page_mask (info state)))) then
    ret (- EINVAL)
  else
    let reg := Z.land reg 0xff in
    if page =? ADV7604_PAGE_IO then io_read reg
    else if page =? ADV7604_PAGE_AVLINK then avlink_read reg
    else if page =? ADV7604_PAGE_CEC then cec_read reg
    else if page =? ADV7604_PAGE_INFOFRAME then infoframe_read reg
    else if page =? ADV7604_PAGE_ESDP then esdp_read reg
    else if page =? ADV7604_PAGE_DPP then dpp_read reg
    else if page =? ADV7604_PAGE_AFE then afe_read reg
    else if page =? ADV7604_PAGE_REP then rep_read reg
    else if page =? ADV7604_PAGE_EDID then edid_read reg
    else if page =? ADV7604_PAGE_HDMI then hdmi_read reg
    else if page =? ADV7604_PAGE_TEST then test_read reg
    else if page =? ADV7604_PAGE_CP then cp_read reg
    else if page =? ADV7604_PAGE_VDP then vdp_read reg
    else ret (- EINVAL).

Definition adv7604_write_reg (reg val : Z) : drv Z :=
  state <- get_state ;;
  let page := Z.shiftr reg 8 in
  if negb (nonzero (Z.land (BIT page) (page_mask (info state)))) then
    ret (- EINVAL)
  else
    let reg := Z.land reg 0xff in
    if page =? ADV7604_PAGE_IO then io_write reg val
    else if page =? ADV7604_PAGE_AVLINK then avlink_write reg val
    else if page =? ADV7604_PAGE_CEC then cec_write reg val
    else if page =? ADV7604_PAGE_INFOFRAME then infoframe_write reg val
    else if page =? ADV7604_PAGE_ESDP then esdp_write reg val
    else if page =? ADV7604_PAGE_DPP then dpp_write reg val
    else if page =? ADV7604_PAGE_AFE then afe_write reg val
    else if page =? ADV7604_PAGE_REP then rep_write reg val
    else if page =? ADV7604_PAGE_EDID then edid_write reg val
    else if page =? ADV7604_PAGE_HDMI then hdmi_write reg val
    else if page =? ADV7604_PAGE_TEST then test_write reg val
    else if page =? ADV7604_PAGE_CP then cp_write reg val
    else if page =? ADV7604_PAGE_VDP then vdp_write reg val
    else ret (- EINVAL).

Fixpoint adv7604_write_reg_seq (reg_seq : list adv7604_reg_seq) : drv unit :=
  match reg_seq with
  | [] => ret tt
  | r :: rest =>
      adv7604_write_reg (reg r) (val r) ;;
      adv7604_write_reg_seq rest
  end.

(** *** Programming a timing *)

(** The scan [for (i = 0; predef_vid_timings[i].timings.bt.width; i++)]. *)
Fixpoint find_and_set_predefined_video_timings
    (prim_mode : Z) (predef_vid_timings : list adv7604_video_standards)
    (timings : v4l2_dv_timings) : drv Z :=
  match predef_vid_timings with
  | [] => ret (-1)
  | p :: rest =>
      if negb (nonzero (width (bt (vs_timings p)))) then ret (-1)
      else
        state <- get_state ;;
        if negb (v4l_match_dv_timings timings (vs_timings p)
                   (if DIGITAL_INPUT state then 250000 else 1000000))
        then find_and_set_predefined_video_timings prim_mode rest timings
        else
          (io_write 0x00 (vid_std p) ;; (* video std *)
           io_write 0x01 (Z.shiftl (v_freq p) 4 + prim_mode) ;;
           ret 0)
  end.

Definition configure_predefined_video_timings (timings : v4l2_dv_timings)
  : drv Z :=
  state <- get_state ;;
  (if adv7604_has_afe state then
     (* reset to default values *)
     (io_write 0x16 0x43 ;; io_write 0x17 0x5a ;; ret tt)
   else ret tt) ;;
  (* disable embedded syncs for auto graphics mode *)
  cp_write_and_or 0x81 0xef 0x00 ;;
  cp_write 0x8f 0x00 ;;
  cp_write 0x90 0x00 ;;
  cp_write 0xa2 0x00 ;;
  cp_write 0xa3 0x00 ;;
  cp_write 0xa4 0x00 ;;
  cp_write 0xa5 0x00 ;;
  cp_write 0xa6 0x00 ;;
  cp_write 0xa7 0x00 ;;
  cp_write 0xab 0x00 ;;
  cp_write 0xac 0x00 ;;
  if (mode state =? ADV7604_MODE_COMP) || (mode state =? ADV7604_MODE_GR)
  then
    err <- find_and_set_predefined_video_timings
             0x01 adv7604_prim_mode_comp timings ;;
    if nonzero err then
      find_and_set_predefined_video_timings 0x02 adv7604_prim_mode_gr timings
    else ret err
  else if mode state =? ADV7604_MODE_HDMI then
    err <- find_and_set_predefined_video_timings
             0x05 adv7604_prim_mode_hdmi_comp timings ;;
    if nonzero err then
      find_and_set_predefined_video_timings
        0x06 adv7604_prim_mode_hdmi_gr timings
    else ret err
  else ret (-1).

Definition configure_custom_video_timings (bt : v4l2_bt_timings) : drv unit :=
  state <- get_state ;;
  let width := htotal bt in
  let height := vtotal bt in
  let cp_start_sav := u16 (hsync bt + hbackporch bt - 4) in
  let cp_start_eav := u16 (width - hfrontporch bt) in
  let cp_start_vbi := u16 (height - vfrontporch bt) in
  let cp_end_vbi := u16 (vsync bt + vbackporch bt) in
  let ch1_fr_ll :=
    u16 (if u32 (pixelclock bt) / 100 >? 0
         then u32 (width * (ADV7604_fsc / 100)) / (u32 (pixelclock bt) / 100)
         else 0) in
  let pll := [Z.lor 0xc0 (Z.land (Z.shiftr width 8) 0x1f);
              Z.land width 0xff] in
  (if (mode state =? ADV7604_MODE_COMP) || (mode state =? ADV7604_MODE_GR)
   then
     (* auto graphics *)
     io_write 0x00 0x07 ;; (* video std *)
     io_write 0x01 0x02 ;; (* prim mode *)
     (* enable embedded syncs for auto graphics mode *)
     cp_write_and_or 0x81 0xef 0x10 ;;
     (* setup PLL_DIV_MAN_EN and PLL_DIV_RATIO; IO-map reg. 0x16 and
        0x17 should be written in sequence *)
     err <- adv_smbus_write_i2c_block_data client 0x16 2 pll ;;
     if nonzero err then ret tt
     else
       ((* active video - horizontal timing *)
        cp_write 0xa2 (Z.land (Z.shiftr cp_start_sav 4) 0xff) ;;
        cp_write 0xa3 (Z.lor (Z.shiftl (Z.land cp_start_sav 0x0f) 4)
                             (Z.land (Z.shiftr cp_start_eav 8) 0x0f)) ;;
        cp_write 0xa4 (Z.land cp_start_eav 0xff) ;;
        (* active video - vertical timing *)
        cp_write 0xa5 (Z.land (Z.shiftr cp_start_vbi 4) 0xff) ;;
        cp_write 0xa6 (Z.lor (Z.shiftl (Z.land cp_start_vbi 0xf) 4)
                             (Z.land (Z.shiftr cp_end_vbi 8) 0xf)) ;;
        cp_write 0xa7 (Z.land cp_end_vbi 0xff) ;;
        ret tt)
   else if mode state =? ADV7604_MODE_HDMI then
     (* set default prim_mode/vid_std for HDMI *)
     (io_write 0x00 0x02 ;; (* video std *)
      io_write 0x01 0x06 ;; (* prim mode *)
      ret tt)
   else ret tt) ;;
  cp_write 0x8f (Z.land (Z.shiftr ch1_fr_ll 8) 0x7) ;;
  cp_write 0x90 (Z.land ch1_fr_ll 0xff) ;;
  cp_write 0xab (Z.land (Z.shiftr height 4) 0xff) ;;
  cp_write 0xac (Z.shiftl (Z.land height 0x0f) 4) ;;
  ret tt.

Definition set_rgb_quantization_range : drv unit :=
  state <- get_state ;;
  if rgb_quantization_range state =? V4L2_DV_RGB_RANGE_AUTO then
    (* automatic *)
    dvi <- (if DIGITAL_INPUT state then
              v <- hdmi_read 0x05 ;; ret (negb (nonzero (Z.land v 0x80)))
            else ret false) ;;
    if dvi then
      (* receiving DVI-D signal *)
      if nonzero (Z.land (standards (bt (timings state)))
                         V4L2_DV_BT_STD_CEA861) then
        (* RGB limited range (16-235) *)
        (io_write_and_or 0x02 0x0f 0x00 ;; ret tt)
      else
        (* RGB full range (0-255) *)
        (io_write_and_or 0x02 0x0f 0x10 ;; ret tt)
    else
      (* receiving HDMI or analog signal, set automode *)
      (io_write_and_or 0x02 0x0f 0xf0 ;; ret tt)
  else if rgb_quantization_range state =? V4L2_DV_RGB_RANGE_LIMITED then
    (* RGB limited range (16-235) *)
    (io_write_and_or 0x02 0x0f 0x00 ;; ret tt)
  else if rgb_quantization_range state =? V4L2_DV_RGB_RANGE_FULL then
    (* RGB full range (0-255) *)
    (io_write_and_or 0x02 0x0f 0x10 ;; ret tt)
  else ret tt.

(** *** Signal monitoring *)

Definition no_power : drv bool :=
  (* Entire chip or CP powered off *)
  v <- io_read 0x0c ;;
  ret (nonzero (Z.land v 0x24)).

Definition no_signal_tmds : drv bool :=
  v <- io_read 0x6a ;;
  ret (negb (nonzero (Z.land v 0x10))).

Definition no_lock_tmds : drv bool :=
  state <- get_state ;;
  v <- io_read 0x6a ;;
  ret (negb (Z.land v (tdms_lock_mask (info state))
            =? tdms_lock_mask (info state))).

Definition no_lock_sspd : drv bool :=
  state <- get_state ;;
  if adv7604_has_afe state then ret false
  else
    v <- cp_read 0xb5 ;;
    ret (negb (Z.land v 0xd0 =? 0xd0)).

Definition no_lock_stdi : drv bool :=
  v <- cp_read 0xb1 ;;
  ret (negb (nonzero (Z.land v 0x80))).

Definition no_signal : drv bool :=
  state <- get_state ;;
  r0 <- no_power ;;
  r1 <- no_lock_stdi ;;
  r2 <- no_lock_sspd ;;
  let ret_ := r0 || r1 || r2 in
  if DIGITAL_INPUT state then
    r3 <- no_lock_tmds ;;
    r4 <- no_signal_tmds ;;
    ret (ret_ || r3 || r4)
  else ret ret_.

Definition no_lock_cp : drv bool :=
  state <- get_state ;;
  if negb (adv7604_has_afe state) then ret false
  else
    v <- io_read 0x12 ;;
    ret (nonzero (Z.land v 0x01)).

(** *** From STDI counters to a timing *)

(** The scan [for (i = 0; adv7604_timings[i].bt.height; i++)] of
    [stdi2dv_timings], over the rest [tbl] of the table. *)
Fixpoint stdi2dv_timings_scan
    (tbl : list v4l2_dv_timings) (hfreq : Z) (stdi : stdi_readback)
  : option v4l2_dv_timings :=
  match tbl with
  | [] => None
  | t :: rest =>
      if negb (nonzero (height (bt t))) then None
      else if negb (vtotal (bt t) =? lcf stdi + 1) then
        stdi2dv_timings_scan rest hfreq stdi
      else if negb (vsync (bt t) =? lcvs stdi) then
        stdi2dv_timings_scan rest hfreq stdi
      else
        let pix_clk := u32 (hfreq * htotal (bt t)) in
        if (pix_clk <? u64 (pixelclock (bt t) + 1000000))
           && (pix_clk >? u64 (pixelclock (bt t) - 1000000))
        then Some t
        else stdi2dv_timings_scan rest hfreq stdi
  end.

Definition stdi_polarities (stdi : stdi_readback) : Z :=
  Z.lor (if Ascii.eqb (hs_pol stdi) "+" then V4L2_DV_HSYNC_POS_POL else 0)
        (if Ascii.eqb (vs_pol stdi) "+" then V4L2_DV_VSYNC_POS_POL else 0).

(** Returns the status and the contents of [*timings].  (A [bl] of zero
    divides by zero in C; [read_stdi] never lets one through.) *)
Definition stdi2dv_timings
    (state : adv7604_state) (stdi : stdi_readback)
    (timings : v4l2_dv_timings) : Z * v4l2_dv_timings :=
  let hfreq := u32 ((ADV7604_fsc * 8) / bl stdi) in
  match stdi2dv_timings_scan adv7604_timings hfreq stdi with
  | Some t => (0, t)
  | None =>
      let cvt := v4l2_detect_cvt (lcf stdi + 1) hfreq (lcvs stdi)
                   (stdi_polarities stdi) timings in
      if fst cvt then (0, snd cvt)
      else
        let gtf := v4l2_detect_gtf (lcf stdi + 1) hfreq (lcvs stdi)
                     (stdi_polarities stdi) (aspect_ratio state) (snd cvt) in
        if fst gtf then (0, snd gtf)
        else (-1, snd gtf)
  end.

(** [no_lock_stdi(sd) || no_lock_sspd(sd)]: the SSPD is only looked at
    when the STDI is locked. *)
Definition stdi_not_locked : drv bool :=
  a <- no_lock_stdi ;;
  if a then ret true else no_lock_sspd.

Definition read_stdi (stdi : stdi_readback) : drv (Z * stdi_readback) :=
  state <- get_state ;;
  unlocked <- stdi_not_locked ;;
  if unlocked then ret (-1, stdi)
  else
    (* read STDI *)
    bl_ <- cp_read16 0xb1 0x3fff ;;
    lcf_ <- cp_read16 (lcf_reg (info state)) 0x7ff ;;
    v <- cp_read 0xb3 ;;
    let lcvs_ := u16 (Z.shiftr v 3) in
    i <- io_read 0x12 ;;
    let interlaced_ := nonzero (Z.land i 0x10) in
    pol <-
      (if adv7604_has_afe state then
         (* read SSPD *)
         s <- cp_read 0xb5 ;;
         if Z.land s 0x03 =? 0x01 then
           h1 <- cp_read 0xb5 ;;
           hs <- (if nonzero (Z.land h1 0x10) then
                    h2 <- cp_read 0xb5 ;;
                    ret (if nonzero (Z.land h2 0x08) then "+" else "-")%char
                  else ret "x"%char) ;;
           v1 <- cp_read 0xb5 ;;
           vs <- (if nonzero (Z.land v1 0x40) then
                    v2 <- cp_read 0xb5 ;;
                    ret (if nonzero (Z.land v2 0x20) then "+" else "-")%char
                  else ret "x"%char) ;;
           ret (hs, vs)
         else ret ("x"%char, "x"%char)
       else
         h <- hdmi_read 0x05 ;;
         v' <- hdmi_read 0x05 ;;
         ret ((if nonzero (Z.land h 0x20) then "+" else "-")%char,
              (if nonzero (Z.land v' 0x10) then "+" else "-")%char)) ;;
    let stdi' := {| bl := bl_; lcf := lcf_; lcvs := lcvs_;
                    hs_pol := fst pol; vs_pol := snd pol;
                    stdi_interlaced := interlaced_ |} in
    unlocked' <- stdi_not_locked ;;
    if unlocked' then ret (-1, stdi')
    else if (lcf_ <? 239) || (bl_ <? 8) || (bl_ =? 0x3fff) then
      ret (-1, zero_stdi)
    else ret (0, stdi').

(** The scan [for (i = 0; adv7604_timings[i].bt.width; i++)] of
    [adv7604_fill_optional_dv_timings_fields]. *)
Fixpoint fill_optional_scan
    (tbl : list v4l2_dv_timings) (delta : Z) (timings : v4l2_dv_timings)
  : v4l2_dv_timings :=
  match tbl with
  | [] => timings
  | t :: rest =>
      if negb (nonzero (width (bt t))) then timings
      else if v4l_match_dv_timings timings t delta then t
      else fill_optional_scan rest delta timings
  end.

(** Fill the optional fields .standards and .flags in struct
    v4l2_dv_timings if the format is listed in adv7604_timings[] *)
Definition adv7604_fill_optional_dv_timings_fields
    (state : adv7604_state) (timings : v4l2_dv_timings) : v4l2_dv_timings :=
  fill_optional_scan adv7604_timings
    (if DIGITAL_INPUT state then 250000 else 1000000) timings.

Definition adv7604_read_hdmi_pixelclock : drv Z :=
  a <- hdmi_read 0x06 ;;
  b <- hdmi_read 0x3b ;;
  if (a <? 0) || (b <? 0) then ret 0
  else ret (u32 (a * 1000000 + Z.shiftr (Z.land b 0x30) 4 * 250000)).

Definition adv7611_read_hdmi_pixelclock : drv Z :=
  a <- hdmi_read 0x51 ;;
  b <- hdmi_read 0x52 ;;
  if (a <? 0) || (b <? 0) then ret 0
  else ret (u32 (Z.lor (Z.shiftl a 1) (Z.shiftr b 7) * 1000000
                 + Z.land b 0x7f * 1000000 / 128)).

(** [info->read_hdmi_pixelclock(sd)] *)
Definition call_read_hdmi_pixelclock (info : adv7604_chip_info) : drv Z :=
  match read_hdmi_pixelclock info with
  | ADV7604 => adv7604_read_hdmi_pixelclock
  | ADV7611 => adv7611_read_hdmi_pixelclock
  end.

(** *** Detecting the incoming timing *)

(** The code from the label [found:] on. *)
Definition adv7604_query_dv_timings_found (timings : v4l2_dv_timings)
  : drv (Z * v4l2_dv_timings) :=
  state <- get_state ;;
  lost <- no_signal ;;
  if lost then ret (- ENOLINK, zero_dv_timings)
  else if (negb (DIGITAL_INPUT state)
           && (pixelclock (bt timings) >? 170000000))
          || (DIGITAL_INPUT state
              && (pixelclock (bt timings) >? 225000000))
  then ret (- ERANGE, timings)
  else ret (0, timings).

(** The digital branch: the timing is read from the HDMI map.  The
    members are assigned in the order of the source; [interlaced] is
    the value already stored in [bt->interlaced]. *)
Definition adv7604_query_dv_timings_digital (interlaced : Z)
  : drv v4l2_dv_timings :=
  state <- get_state ;;
  width_ <- hdmi_read16 0x07 0xfff ;;
  height_ <- hdmi_read16 0x09 0xfff ;;
  pixelclock_ <- call_read_hdmi_pixelclock (info state) ;;
  hfrontporch_ <- hdmi_read16 0x20 0x3ff ;;
  hsync_ <- hdmi_read16 0x22 0x3ff ;;
  hbackporch_ <- hdmi_read16 0x24 0x3ff ;;
  vfrontporch_ <- hdmi_read16 0x2a 0x1fff ;;
  vsync_ <- hdmi_read16 0x2e 0x1fff ;;
  vbackporch_ <- hdmi_read16 0x32 0x1fff ;;
  p1 <- hdmi_read 0x05 ;;
  p2 <- hdmi_read 0x05 ;;
  let polarities_ :=
    Z.lor (if nonzero (Z.land p1 0x10) then V4L2_DV_VSYNC_POS_POL else 0)
          (if nonzero (Z.land p2 0x20) then V4L2_DV_HSYNC_POS_POL else 0) in
  il <- (if interlaced =? V4L2_DV_INTERLACED then
           h2 <- hdmi_read16 0x0b 0xfff ;;
           ilfp <- hdmi_read16 0x2c 0x1fff ;;
           ilvs <- hdmi_read16 0x30 0x1fff ;;
           vbp <- hdmi_read16 0x34 0x1fff ;;
           ret (u32 (height_ + h2), ilfp / 2, ilvs / 2, vbp / 2)
         else ret (height_, 0, 0, vbackporch_ / 2)) ;;
  let '(height', il_vfrontporch_, il_vsync_, vbackporch') := il in
  ret (adv7604_fill_optional_dv_timings_fields state
         {| type := V4L2_DV_BT_656_1120;
            bt := {| width := width_; height := height';
                     interlaced := interlaced; polarities := polarities_;
                     pixelclock := pixelclock_;
                     hfrontporch := hfrontporch_; hsync := hsync_;
                     hbackporch := hbackporch_;
                     vfrontporch := vfrontporch_ / 2; vsync := vsync_ / 2;
                     vbackporch := vbackporch';
                     il_vfrontporch := il_vfrontporch_;
                     il_vsync := il_vsync_; il_vbackporch := 0;
                     standards := 0; flags := 0 |} |}).

(** The three restart writes to CP register 0x86. *)
Definition restart_stdi : drv unit :=
  (* enter one-shot mode *)
  cp_write_and_or 0x86 0xf9 0x00 ;;
  (* trigger STDI restart *)
  cp_write_and_or 0x86 0xf9 0x04 ;;
  (* reset to continuous mode *)
  cp_write_and_or 0x86 0xf9 0x02 ;;
  ret tt.

(** The analog branch: find the format.  Since LCVS values are
    inaccurate, [stdi2dv_timings] is called with lcvs +-1 if the first
    attempt fails.  [inr] is the jump to [found:] (also reached by
    falling out of the branch), [inl] a [return]. *)
Definition adv7604_query_dv_timings_analog
    (stdi : stdi_readback) (timings : v4l2_dv_timings)
  : drv (Z * v4l2_dv_timings + v4l2_dv_timings) :=
  state <- get_state ;;
  let r1 := stdi2dv_timings state stdi timings in
  if negb (nonzero (fst r1)) then ret (inr (snd r1))   (* goto found *)
  else
    let stdi := set_lcvs (u16 (lcvs stdi + 1)) stdi in
    let r2 := stdi2dv_timings state stdi (snd r1) in
    if negb (nonzero (fst r2)) then ret (inr (snd r2)) (* goto found *)
    else
      let stdi := set_lcvs (u16 (lcvs stdi - 2)) stdi in
      let r3 := stdi2dv_timings state stdi (snd r2) in
      if nonzero (fst r3) then
        (* The STDI block may measure wrong values, especially for lcvs
           and lcf.  If the driver can not find any valid timing, the
           STDI block is restarted to measure the video timings again.
           The function will return an error, but the restart of STDI
           will generate a new STDI interrupt and the format detection
           process will restart. *)
        if restart_stdi_once state then
          (restart_stdi ;;
           modify_state (set_restart_stdi_once false) ;;
           ret (inl (- ENOLINK, snd r3)))
        else ret (inl (- ERANGE, snd r3))
      else
        (modify_state (set_restart_stdi_once true) ;;
         ret (inr (snd r3))).

(** [timings] is the pointer argument: [None] when null, and the result
    carries what [*timings] holds on return. *)
Definition adv7604_query_dv_timings (timings : option v4l2_dv_timings)
  : drv (Z * option v4l2_dv_timings) :=
  match timings with
  | None => ret (- EINVAL, None)
  | Some _ =>
      state <- get_state ;;
      lost <- no_signal ;;
      if lost then ret (- ENOLINK, Some zero_dv_timings)
      else
        (* read STDI *)
        rs <- read_stdi zero_stdi ;;
        if nonzero (fst rs) then ret (- ENOLINK, Some zero_dv_timings)
        else
          let stdi := snd rs in
          let interlaced_ := if stdi_interlaced stdi
                             then V4L2_DV_INTERLACED
                             else V4L2_DV_PROGRESSIVE in
          if DIGITAL_INPUT state then
            t <- adv7604_query_dv_timings_digital interlaced_ ;;
            r <- adv7604_query_dv_timings_found t ;;
            ret (fst r, Some (snd r))
          else
            a <- adv7604_query_dv_timings_analog stdi
                   {| type := 0;
                      bt := {| width := 0; height := 0;
                               interlaced := interlaced_; polarities := 0;
                               pixelclock := 0; hfrontporch := 0;
                               hsync := 0; hbackporch := 0;
                               vfrontporch := 0; vsync := 0;
                               vbackporch := 0; il_vfrontporch := 0;
                               il_vsync := 0; il_vbackporch := 0;
                               standards := 0; flags := 0 |} |} ;;
            match a with
            | inl e => ret (fst e, Some (snd e))
            | inr t =>
                r <- adv7604_query_dv_timings_found t ;;
                ret (fst r, Some (snd r))
            end
  end.

Definition adv7604_s_dv_timings (timings : option v4l2_dv_timings)
  : drv (Z * option v4l2_dv_timings) :=
  match timings with
  | None => ret (- EINVAL, None)
  | Some t =>
      state <- get_state ;;
      if (negb (DIGITAL_INPUT state) && (pixelclock (bt t) >? 170000000))
         || (DIGITAL_INPUT state && (pixelclock (bt t) >? 225000000))
      then ret (- ERANGE, Some t)
      else
        let t := adv7604_fill_optional_dv_timings_fields state t in
        modify_state (set_timings t) ;;
        cp_write_and_or 0x91 0x40
          (if nonzero (interlaced (bt t)) then 0x40 else 0x00) ;;
        (* Use prim_mode and vid_std when available *)
        err <- configure_predefined_video_timings t ;;
        (if nonzero err then
           (* custom settings when the video format does not have
              prim_mode/vid_std *)
           configure_custom_video_timings (bt t)
         else ret tt) ;;
        set_rgb_quantization_range ;;
        ret (0, Some t)
  end.

Definition adv7604_g_dv_timings : drv (Z * v4l2_dv_timings) :=
  state <- get_state ;;
  ret (0, timings state).

(** *** Input routing *)

Definition adv7611_set_termination (enable : bool) : drv unit :=
  hdmi_write 0x83 (if enable then 0xfe else 0xff) ;; ret tt.

Definition adv7604_set_termination (enable : bool) : drv unit :=
  hdmi_write 0x01 (if enable then 0x00 else 0x78) ;; ret tt.

(** [info->set_termination(sd, enable)] *)
Definition call_set_termination (info : adv7604_chip_info) (enable : bool)
  : drv unit :=
  match set_termination info with
  | ADV7604 => adv7604_set_termination enable
  | ADV7611 => adv7611_set_termination enable
  end.

Definition enable_input : drv unit :=
  state <- get_state ;;
  if (mode state =? ADV7604_MODE_COMP) || (mode state =? ADV7604_MODE_GR)
  then
    (* enable *)
    (io_write 0x15 0xb0 ;;   (* Disable Tristate of Pins (no audio) *)
     ret tt)
  else if mode state =? ADV7604_MODE_HDMI then
    (* enable *)
    (hdmi_write 0x1a 0x0a ;; (* Unmute audio *)
     call_set_termination (info state) true ;;
     io_write 0x15 0xa0 ;;   (* Disable Tristate of Pins *)
     ret tt)
  else ret tt.

Definition disable_input : drv unit :=
  state <- get_state ;;
  (* disable *)
  io_write 0x15 0xbe ;;   (* Tristate all outputs from video core *)
  hdmi_write 0x1a 0x1a ;; (* Mute audio *)
  call_set_termination (info state) false.

Definition select_input : drv unit :=
  state <- get_state ;;
  if (mode state =? ADV7604_MODE_COMP) || (mode state =? ADV7604_MODE_GR)
  then
    (adv7604_write_reg_seq (recommended_settings_0 (info state)) ;;
     afe_write 0x00 0x08 ;; (* power up ADC *)
     afe_write 0x01 0x06 ;; (* power up Analog Front End *)
     afe_write 0xc8 0x00 ;; (* phase control *)
     ret tt)
  else if mode state =? ADV7604_MODE_HDMI then
    (adv7604_write_reg_seq (recommended_settings_1 (info state)) ;;
     (if adv7604_has_afe state then
        (afe_write 0x00 0xff ;; (* power down ADC *)
         afe_write 0x01 0xfe ;; (* power down Analog Front End *)
         afe_write 0xc8 0x40 ;; (* phase control *)
         ret tt)
      else ret tt) ;;
     cp_write 0x3e 0x00 ;; (* CP core pre-gain control *)
     cp_write 0xc3 0x39 ;; (* CP coast control. Graphics mode *)
     cp_write 0x40 0x80 ;; (* CP core pre-gain control. Graphics mode *)
     ret tt)
  else ret tt.

Definition adv7604_s_routing (input output config : Z) : drv Z :=
  state <- get_state ;;
  if negb (adv7604_has_afe state) && negb (input =? ADV7604_MODE_HDMI)
  then ret (- EINVAL)
  else
    (modify_state (set_mode input) ;;
     disable_input ;;
     select_input ;;
     enable_input ;;
     ret 0).

(** *** EDID *)

(** [arg] is [*edid].  [None] stands for an out-of-bounds [memcpy];
    otherwise the status and the contents of [*edid] on return. *)
Definition adv7604_get_edid (arg : v4l2_subdev_edid)
  : drv (option (Z * v4l2_subdev_edid)) :=
  state <- get_state ;;
  if nonzero (pad arg) then ret (Some (- EINVAL, arg))
  else if blocks arg =? 0 then ret (Some (- EINVAL, arg))
  else if start_block arg >=? edid_blocks state then
    ret (Some (- EINVAL, arg))
  else
    let blocks_ :=
      if u32 (start_block arg + blocks arg) >? edid_blocks state
      then u32 (edid_blocks state - start_block arg)
      else blocks arg in
    match edid_ptr arg with
    | None =>
        ret (Some (- EINVAL,
                   {| pad := pad arg; start_block := start_block arg;
                      blocks := blocks_; edid_ptr := None |}))
    | Some buf =>
        match memcpy buf (u32 (start_block arg * 128))
                (edid state) (u32 (start_block arg * 128))
                (u32 (blocks_ * 128)) with
        | None => ret None
        | Some buf' =>
            ret (Some (0, {| pad := pad arg;
                             start_block := start_block arg;
                             blocks := blocks_; edid_ptr := Some buf' |}))
        end
    end.

(** [None] stands for an out-of-bounds [memcpy]. *)
Definition adv7604_set_edid (arg : v4l2_subdev_edid) : drv (option Z) :=
  state <- get_state ;;
  if nonzero (pad arg) then ret (Some (- EINVAL))
  else if nonzero (start_block arg) then ret (Some (- EINVAL))
  else if blocks arg =? 0 then
    (* Pull down the hotplug pin *)
    (v4l2_subdev_notify ADV7604_HOTPLUG 0 ;;
     (* Disables I2C access to internal EDID ram from DDC port *)
     rep_write_and_or (edid_ctrl_reg (info state)) 0xf0 0x0 ;;
     modify_state (set_edid_blocks 0) ;;
     (* Fall back to a 16:9 aspect ratio *)
     modify_state (set_aspect_ratio {| numerator := 16; denominator := 9 |}) ;;
     ret (Some 0))
  else if blocks arg >? 2 then ret (Some (- E2BIG))
  else
    match edid_ptr arg with
    | None => ret (Some (- EINVAL))
    | Some buf =>
        match memcpy (edid state) 0 buf 0
                (u32 (128 * blocks arg)) with
        | None => ret None
        | Some stored =>
            modify_state (set_edid_bytes stored) ;;
            modify_state (set_edid_blocks (blocks arg)) ;;
            modify_state (set_aspect_ratio
                            (v4l2_calc_aspect_ratio (nth 0x15 buf 0)
                                                    (nth 0x16 buf 0))) ;;
            err <- edid_write_block (u32 (128 * blocks arg)) stored ;;
            ret (Some err)
        end
    end.

End Driver.

(** ** Reference environments and observations *)

(** Modelled from the spec: [v4l_match_dv_timings] of v4l2-common.c is
    outside the driver file.  The spec describes it as an exact timing
    match with a pixel-clock tolerance: both timings are BT.656/1120
    timings that agree on every geometry member, and the first pixel clock
    lies within [pclock_delta] of the second. *)
Definition v4l_match_dv_timings_model
    (t1 t2 : v4l2_dv_timings) (pclock_delta : Z) : bool :=
  (type t1 =? type t2) && (type t1 =? V4L2_DV_BT_656_1120)
  && (width (bt t1) =? width (bt t2))
  && (height (bt t1) =? height (bt t2))
  && (interlaced (bt t1) =? interlaced (bt t2))
  && (polarities (bt t1) =? polarities (bt t2))
  && (pixelclock (bt t2) - pclock_delta <=? pixelclock (bt t1))
  && (pixelclock (bt t1) <=? pixelclock (bt t2) + pclock_delta)
  && (hfrontporch (bt t1) =? hfrontporch (bt t2))
  && (hsync (bt t1) =? hsync (bt t2))
  && (hbackporch (bt t1) =? hbackporch (bt t2))
  && (vfrontporch (bt t1) =? vfrontporch (bt t2))
  && (vsync (bt t1) =? vsync (bt t2))
  && (vbackporch (bt t1) =? vbackporch (bt t2))
  && (il_vfrontporch (bt t1) =? il_vfrontporch (bt t2))
  && (il_vsync (bt t1) =? il_vsync (bt t2))
  && (il_vbackporch (bt t1) =? il_vbackporch (bt t2)).

(** A kernel whose CVT and GTF detection recognise nothing, with the
    matcher above and a 100 Hz tick. *)
Definition plain_kernel : kernel :=
  {| v4l2_detect_cvt := fun _ _ _ _ fmt => (false, fmt);
     v4l2_detect_gtf := fun _ _ _ _ _ fmt => (false, fmt);
     v4l2_calc_aspect_ratio :=
       fun _ _ => {| numerator := 16; denominator := 9 |};
     v4l_match_dv_timings := v4l_match_dv_timings_model;
     HZ := 100 |}.

(** A chip on a fault-free bus whose registers read back fixed values. *)
Definition static_chip (regs : i2c_client -> Z -> Z) : i2c_adapter :=
  {| xfer_status := fun _ _ => 0;
     xfer_byte := fun _ x =>
       match x with
       | SMBUS_READ_BYTE_DATA c command => regs c command
       | _ => 0
       end |}.

(** A bus on which every transfer fails. *)
Definition dead_bus : i2c_adapter :=
  {| xfer_status := fun _ _ => - EIO;
     xfer_byte := fun _ _ => 0 |}.

(** The world right after probe: nothing has happened on the bus yet. *)
Definition boot (id : adv7604_type) : world :=
  {| dev := adv7604_probe_state id; history := [] |}.

(** The client behind each register page. *)
Definition page_client (page : Z) : option i2c_client :=
  if page <? 0 then None
  else nth_error [client; i2c_avlink; i2c_cec; i2c_infoframe; i2c_esdp;
                  i2c_dpp; i2c_afe; i2c_repeater; i2c_edid; i2c_hdmi;
                  i2c_test; i2c_cp; i2c_vdp] (Z.to_nat page).

(** The delays of the delayed work queued so far, latest first. *)
Fixpoint scheduled (h : list event) : list Z :=
  match h with
  | [] => []
  | QueueDelayedWork d :: h' => d :: scheduled h'
  | _ :: h' => scheduled h'
  end.

(** An event that writes the chip's EDID RAM. *)
Definition writes_edid_ram (e : event) : bool :=
  match e with
  | Xfer (SMBUS_WRITE_BYTE_DATA i2c_edid _ _) => true
  | Xfer (SMBUS_WRITE_I2C_BLOCK_DATA i2c_edid _ _) => true
  | _ => false
  end.

(** The history after [n] attempts of the same byte write. *)
Definition after_writes (n : nat) (c : i2c_client) (command value : Z)
    (w : world) : world :=
  {| dev := dev w;
     history := repeat (Xfer (SMBUS_WRITE_BYTE_DATA c command value)) n
                  ++ history w |}.

(** The client a transfer addresses. *)
Definition xfer_client (x : smbus_xfer) : i2c_client :=
  match x with
  | SMBUS_READ_BYTE_DATA c _ => c
  | SMBUS_WRITE_BYTE_DATA c _ _ => c
  | SMBUS_WRITE_I2C_BLOCK_DATA c _ _ => c
  end.

(** [P] holds of every transfer addressed to [c]. *)
Definition xfer_ok (P : event -> Prop) (c : i2c_client) : Prop :=
  forall x : smbus_xfer, xfer_client x = c -> P (Xfer x).

(** [m] only adds events that satisfy [P] to the history. *)
Definition emits {A : Type} (P : event -> Prop) (m : drv A) : Prop :=
  forall w : world,
    exists evs : list event,
      history (snd (m w)) = evs ++ history w /\ Forall P evs.

(** [m] leaves the driver state alone. *)
Definition keeps_dev {A : Type} (m : drv A) : Prop :=
  forall w : world, dev (snd (m w)) = dev w.

(** An event other than the queueing of delayed work. *)
Definition not_queue (e : event) : Prop :=
  match e with
  | QueueDelayedWork _ => False
  | _ => True
  end.

(** An event that leaves the chip's EDID RAM alone. *)
Definition spares_edid_ram (e : event) : Prop := writes_edid_ram e = false.

(** The register writes of a history, oldest first. *)
Definition byte_writes (h : list event) : list (i2c_client * Z * Z) :=
  fold_left
    (fun acc e =>
       match e with
       | Xfer (SMBUS_WRITE_BYTE_DATA c command value) =>
           (c, command, value) :: acc
       | _ => acc
       end) h [].

(** A chip on a fault-free bus that reports a valid EDID once [ms]
    milliseconds of [mdelay] have passed: every register reads as 1 from
    then on and as 0 before. *)
Definition slow_edid_chip (ms : Z) : i2c_adapter :=
  {| xfer_status := fun _ _ => 0;
     xfer_byte := fun h _ =>
       if ms <=? fold_right (fun e acc =>
                               match e with
                               | Mdelay d => d + acc
                               | _ => acc
                               end) 0 h
       then 1 else 0 |}.

Section EdidObservations.

Context {adapter : i2c_adapter}.

(** The first half of [edid_write_block]: hotplug deasserted, internal
    EDID access disabled, the blocks written; yields the status of the
    writes. *)
Definition edid_upload (len : Z) (val : list Z) : drv Z :=
  state <- get_state ;;
  v4l2_subdev_notify ADV7604_HOTPLUG 0 ;;
  rep_write_and_or (edid_ctrl_reg (info state)) 0xf0 0x0 ;;
  edid_write_block_loop
    (Z.to_nat ((len + I2C_SMBUS_BLOCK_MAX - 1) / I2C_SMBUS_BLOCK_MAX))
    0 len val 0.

(** The world in which the polling starts: after the upload and the
    re-enabling of internal EDID access. *)
Definition edid_poll_start (len : Z) (val : list Z) (w : world) : world :=
  snd (rep_write_and_or (edid_ctrl_reg (info (dev w))) 0xf0 0x1
         (snd (edid_upload len val w))).

(** Whether a poll of the status register in world [w] sees the EDID
    valid bit. *)
Definition edid_valid_seen (status_reg : Z) (w : world) : bool :=
  nonzero (Z.land (fst (rep_read status_reg w)) 1).

(** The world after one poll that missed and its 1 ms delay, and after
    [k] of them. *)
Definition poll_miss (status_reg : Z) (w : world) : world :=
  log_event (Mdelay 1) (snd (rep_read status_reg w)).

Fixpoint poll_world (status_reg : Z) (k : nat) (w : world) : world :=
  match k with
  | O => w
  | S k' => poll_world status_reg k' (poll_miss status_reg w)
  end.

End EdidObservations.

(** Equality test on timings, member by member. *)
Definition bt_timings_eqb (a b : v4l2_bt_timings) : bool :=
  (width a =? width b) && (height a =? height b)
  && (interlaced a =? interlaced b) && (polarities a =? polarities b)
  && (pixelclock a =? pixelclock b)
  && (hfrontporch a =? hfrontporch b) && (hsync a =? hsync b)
  && (hbackporch a =? hbackporch b)
  && (vfrontporch a =? vfrontporch b) && (vsync a =? vsync b)
  && (vbackporch a =? vbackporch b)
  && (il_vfrontporch a =? il_vfrontporch b) && (il_vsync a =? il_vsync b)
  && (il_vbackporch a =? il_vbackporch b)
  && (standards a =? standards b) && (flags a =? flags b).

Definition dv_timings_eqb (a b : v4l2_dv_timings) : bool :=
  (type a =? type b) && bt_timings_eqb (bt a) (bt b).

(** The horizontal line rate of a timing, in whole Hz. *)
Definition line_rate (t : v4l2_dv_timings) : Z :=
  pixelclock (bt t) / htotal (bt t).

(** What the table scan yields for a sample built from the entry [T]:
    640x400 at 85 Hz has the line count, vsync width, line length and
    pixel clock of 640x350 at 85 Hz, which comes first in the table. *)
Definition round_trip_result (T : v4l2_dv_timings) : v4l2_dv_timings :=
  if dv_timings_eqb T V4L2_DV_BT_DMT_640X400P85
  then V4L2_DV_BT_DMT_640X350P85
  else T.

(** The STDI counters of the entry [T] with the burst length left open. *)
Definition stdi_counters (T : v4l2_dv_timings) : stdi_readback :=
  {| bl := 0; lcf := vtotal (bt T) - 1; lcvs := vsync (bt T);
     hs_pol := "x"; vs_pol := "x"; stdi_interlaced := false |}.

(** The offsets -250 .. 250. *)
Definition hfreq_offsets : list Z :=
  map (fun k => Z.of_nat k - 250) (seq 0 501).

(** The scan of [tbl] finds [round_trip_result T] at line rate
    [hfreq]. *)
Definition round_trip_ok
    (tbl : list v4l2_dv_timings) (T : v4l2_dv_timings) (hfreq : Z) : bool :=
  match stdi2dv_timings_scan tbl hfreq (stdi_counters T) with
  | Some t => dv_timings_eqb t (round_trip_result T)
  | None => false
  end.

(** The entry [T] is the terminator, or it round-trips through [tbl] at
    every line rate within 250 Hz of its own and has a burst length that
    gives such a rate. *)
Definition round_trip_entry_ok
    (tbl : list v4l2_dv_timings) (T : v4l2_dv_timings) : bool :=
  negb (nonzero (height (bt T)))
  || (forallb (fun d => round_trip_ok tbl T (line_rate T + d)) hfreq_offsets
      && (250 <? line_rate T)
      && (8 <=? ADV7604_fsc * 8 / line_rate T)
      && (ADV7604_fsc * 8 / line_rate T <? 0x3fff)
      && (Z.abs (ADV7604_fsc * 8 / (ADV7604_fsc * 8 / line_rate T)
                 - line_rate T) <=? 250)).

(** Register contents given as a list of (client, register, value);
    registers not listed read 0. *)
Definition client_index (c : i2c_client) : Z :=
  match c with
  | client => 0 | i2c_avlink => 1 | i2c_cec => 2 | i2c_infoframe => 3
  | i2c_esdp => 4 | i2c_dpp => 5 | i2c_afe => 6 | i2c_repeater => 7
  | i2c_edid => 8 | i2c_hdmi => 9 | i2c_test => 10 | i2c_cp => 11
  | i2c_vdp => 12
  end.

Definition regs_of (l : list (i2c_client * Z * Z))
    (c : i2c_client) (command : Z) : Z :=
  match find (fun e => (client_index (fst (fst e)) =? client_index c)
                       && (snd (fst e) =? command)) l with
  | Some e => snd e
  | None => 0
  end.

(** An ADV7604 that is powered, locked, and measures the STDI counters
    [bl_], [lcf_] and [lcvs_] with undetermined sync polarities; the TMDS
    clock is locked as well. *)
Definition stdi_regs (bl_ lcf_ lcvs_ : Z) : list (i2c_client * Z * Z) :=
  [(client, 0x0c, 0x42); (client, 0x6a, 0xf0);
   (i2c_cp, 0xb1, Z.lor 0x80 (Z.shiftr bl_ 8));
   (i2c_cp, 0xb2, Z.land bl_ 0xff);
   (i2c_cp, 0x00, Z.shiftr lcf_ 8); (i2c_cp, 0x01, Z.land lcf_ 0xff);
   (i2c_cp, 0xb3, Z.shiftl lcvs_ 3)].

(** 720x480 at 59.94 Hz on the analog input: 525 lines, a 6-line vsync
    and a 31.468 kHz line rate. *)
Definition ntsc_chip : i2c_adapter :=
  static_chip (regs_of (stdi_regs 7280 524 6)).

(** The same signal with the vsync counter one line too high. *)
Definition ntsc_lcvs7_chip : i2c_adapter :=
  static_chip (regs_of (stdi_regs 7280 524 7)).

(** A signal of 601 lines with a 10-line vsync, which no table entry
    has. *)
Definition unknown_chip : i2c_adapter :=
  static_chip (regs_of (stdi_regs 5000 600 10)).

(** An ADV7611 that is powered and locked on 720x480 at 59.94 Hz, with
    the TMDS frequency registers reading 27 MHz + 1/128 MHz. *)
Definition hdmi_480p_chip : i2c_adapter :=
  static_chip (regs_of
    [(client, 0x0c, 0x42); (client, 0x6a, 0x53);
     (i2c_cp, 0xb1, 0x9c); (i2c_cp, 0xb2, 0x70); (i2c_cp, 0xb5, 0xd0);
     (i2c_cp, 0xa3, 0x02); (i2c_cp, 0xa4, 0x0c); (i2c_cp, 0xb3, 0x30);
     (i2c_hdmi, 0x07, 0x02); (i2c_hdmi, 0x08, 0xd0);
     (i2c_hdmi, 0x09, 0x01); (i2c_hdmi, 0x0a, 0xe0);
     (i2c_hdmi, 0x51, 13); (i2c_hdmi, 0x52, 0x81);
     (i2c_hdmi, 0x21, 16); (i2c_hdmi, 0x23, 62); (i2c_hdmi, 0x25, 60);
     (i2c_hdmi, 0x2b, 18); (i2c_hdmi, 0x2f, 12); (i2c_hdmi, 0x33, 60)]).

(** The timing those HDMI registers describe, before enrichment. *)
Definition measured_480p : v4l2_dv_timings :=
  V4L2_INIT_BT_TIMINGS 720 480 0 0 27007812 16 62 60 9 6 30 0 0 0 0 0.

(** One query on the chip [a], from the world [w]. *)
Definition query_on (a : i2c_adapter) (w : world)
  : Z * option v4l2_dv_timings * world :=
  adv7604_query_dv_timings (K := plain_kernel) (adapter := a)
    (Some zero_dv_timings) w.

(** The pixel clock limit of the selected input. *)
Definition pixelclock_limit (state : adv7604_state) : Z :=
  if DIGITAL_INPUT state then 225000000 else 170000000.

(** Two timings with the same geometry: size, scan type, polarities,
    porches and sync widths. *)
Definition same_geometry (a b : v4l2_dv_timings) : Prop :=
  type a = type b /\
  width (bt a) = width (bt b) /\ height (bt a) = height (bt b) /\
  interlaced (bt a) = interlaced (bt b) /\
  polarities (bt a) = polarities (bt b) /\
  hfrontporch (bt a) = hfrontporch (bt b) /\
  hsync (bt a) = hsync (bt b) /\ hbackporch (bt a) = hbackporch (bt b) /\
  vfrontporch (bt a) = vfrontporch (bt b) /\
  vsync (bt a) = vsync (bt b) /\ vbackporch (bt a) = vbackporch (bt b) /\
  il_vfrontporch (bt a) = il_vfrontporch (bt b) /\
  il_vsync (bt a) = il_vsync (bt b) /\
  il_vbackporch (bt a) = il_vbackporch (bt b).

(** ** Controls, status, enumeration and interrupts *)

(** linux/videodev2.h: input status flags, timing capabilities, field
    order and colorspaces; linux/v4l2-mediabus.h: the fixed bus format. *)
Definition V4L2_IN_ST_NO_POWER : Z := 0x00000001.
Definition V4L2_IN_ST_NO_SIGNAL : Z := 0x00000002.
Definition V4L2_IN_ST_NO_H_LOCK : Z := 0x00000100.
Definition V4L2_IN_ST_NO_SYNC : Z := 0x00010000.
Definition V4L2_DV_BT_CAP_PROGRESSIVE : Z := 2.
Definition V4L2_DV_BT_CAP_REDUCED_BLANKING : Z := 4.
Definition V4L2_DV_BT_CAP_CUSTOM : Z := 8.
Definition V4L2_FIELD_NONE : Z := 1.
Definition V4L2_COLORSPACE_SMPTE170M : Z := 1.
Definition V4L2_COLORSPACE_REC709 : Z := 3.
Definition V4L2_MBUS_FMT_FIXED : Z := 0x0001.

(** linux/v4l2-controls.h *)
Definition V4L2_CID_BASE : Z := Z.lor 0x00980000 0x900.
Definition V4L2_CID_BRIGHTNESS : Z := V4L2_CID_BASE + 0.
Definition V4L2_CID_CONTRAST : Z := V4L2_CID_BASE + 1.
Definition V4L2_CID_SATURATION : Z := V4L2_CID_BASE + 2.
Definition V4L2_CID_HUE : Z := V4L2_CID_BASE + 3.
Definition V4L2_CID_DV_CLASS_BASE : Z := Z.lor 0x00a00000 0x900.
Definition V4L2_CID_DV_RX_POWER_PRESENT : Z := V4L2_CID_DV_CLASS_BASE + 100.
Definition V4L2_CID_DV_RX_RGB_RANGE : Z := V4L2_CID_DV_CLASS_BASE + 101.

(** media/adv7604.h: the custom controls of the driver.  The header is
    not among the sources at hand; the ids are those it gives. *)
Definition V4L2_CID_ADV_RX_ANALOG_SAMPLING_PHASE : Z :=
  V4L2_CID_DV_CLASS_BASE + 0x1000.
Definition V4L2_CID_ADV_RX_FREE_RUN_COLOR_MANUAL : Z :=
  V4L2_CID_DV_CLASS_BASE + 0x1001.
Definition V4L2_CID_ADV_RX_FREE_RUN_COLOR : Z :=
  V4L2_CID_DV_CLASS_BASE + 0x1002.

(** [state->rgb_quantization_range = r] *)
Definition set_rgb_range (r : Z) (s : adv7604_state) : adv7604_state :=
  {| info := info s; mode := mode s; timings := timings s; edid := edid s;
     edid_blocks := edid_blocks s; aspect_ratio := aspect_ratio s;
     rgb_quantization_range := r;
     restart_stdi_once := restart_stdi_once s |}.

(** [struct v4l2_enum_dv_timings]; [reserved] is an array. *)
Record v4l2_enum_dv_timings := {
  index : Z;
  reserved : list Z;
  enum_timings : v4l2_dv_timings
}.

(** [struct v4l2_bt_timings_cap] and [struct v4l2_dv_timings_cap], the
    members the driver fills in and the two minimum sizes it leaves as
    they are. *)
Record v4l2_bt_timings_cap := {
  min_width : Z;
  max_width : Z;
  min_height : Z;
  max_height : Z;
  min_pixelclock : Z;
  max_pixelclock : Z;
  cap_standards : Z;
  capabilities : Z
}.

Record v4l2_dv_timings_cap := {
  cap_type : Z;
  cap_bt : v4l2_bt_timings_cap
}.

(** [struct v4l2_mbus_framefmt] *)
Record v4l2_mbus_framefmt := {
  fmt_width : Z;
  fmt_height : Z;
  code : Z;
  field : Z;
  colorspace : Z
}.

(** The control framework of v4l2-ctrls.c, which is outside the driver
    file: [v4l2_ctrl_s_ctrl] on the control with the given id.  It may do
    to the world whatever the framework does. *)
Class v4l2_ctrls := {
  v4l2_ctrl_s_ctrl : Z -> Z -> drv Z
}.

Section DriverOps.

Context {K : kernel} {C : v4l2_ctrls} {adapter : i2c_adapter}.


(** [state->detect_tx_5v_ctrl] is the control created for
    [V4L2_CID_DV_RX_POWER_PRESENT]. *)
Definition adv7604_s_detect_tx_5v_ctrl : drv Z :=
  state <- get_state ;;
  (* port A only *)
  v <- io_read 0x6f ;;
  v4l2_ctrl_s_ctrl V4L2_CID_DV_RX_POWER_PRESENT
    (if nonzero (Z.land v (cable_det_mask (info state))) then 1 else 0).

(** [id] and [val] are [ctrl->id] and [ctrl->val]. *)
Definition adv7604_s_ctrl (id val : Z) : drv Z :=
  state <- get_state ;;
  if id =? V4L2_CID_BRIGHTNESS then (cp_write 0x3c val ;; ret 0)
  else if id =? V4L2_CID_CONTRAST then (cp_write 0x3a val ;; ret 0)
  else if id =? V4L2_CID_SATURATION then (cp_write 0x3b val ;; ret 0)
  else if id =? V4L2_CID_HUE then (cp_write 0x3d val ;; ret 0)
  else if id =? V4L2_CID_DV_RX_RGB_RANGE then
    (modify_state (set_rgb_range (u32 val)) ;;
     set_rgb_quantization_range ;;
     ret 0)
  else if id =? V4L2_CID_ADV_RX_ANALOG_SAMPLING_PHASE then
    if negb (adv7604_has_afe state) then ret (- EINVAL)
    else
      (* Set the analog sampling phase. *)
      (afe_write 0xc8 val ;; ret 0)
  else if id =? V4L2_CID_ADV_RX_FREE_RUN_COLOR_MANUAL then
    (* Use the default blue color for free running mode, or supply your
       own. *)
    (cp_write_and_or 0xbf (u8 (Z.lnot 0x04)) (u8 (Z.shiftl val 2)) ;; ret 0)
  else if id =? V4L2_CID_ADV_RX_FREE_RUN_COLOR then
    (cp_write 0xc0 (Z.shiftr (Z.land val 0xff0000) 16) ;;
     cp_write 0xc1 (Z.shiftr (Z.land val 0x00ff00) 8) ;;
     cp_write 0xc2 (u8 (Z.land val 0x0000ff)) ;;
     ret 0)
  else ret (- EINVAL).

(** Returns the status and the contents of [*status]. *)
Definition adv7604_g_input_status : drv (Z * Z) :=
  state <- get_state ;;
  let status := 0 in
  p <- no_power ;;
  let status := Z.lor status (if p then V4L2_IN_ST_NO_POWER else 0) in
  s <- no_signal ;;
  let status := Z.lor status (if s then V4L2_IN_ST_NO_SIGNAL else 0) in
  c <- no_lock_cp ;;
  let status :=
    if c then
      Z.lor status (if DIGITAL_INPUT state then V4L2_IN_ST_NO_SYNC
                    else V4L2_IN_ST_NO_H_LOCK)
    else status in
  ret (0, status).

(** [ARRAY_SIZE(adv7604_timings) - 1] entries can be enumerated; returns
    the status and the contents of [*timings]. *)
Definition adv7604_enum_dv_timings (arg : v4l2_enum_dv_timings)
  : Z * v4l2_enum_dv_timings :=
  if index arg >=? Z.of_nat (length adv7604_timings) - 1 then (- EINVAL, arg)
  else
    (0, {| index := index arg;
           reserved := repeat 0 (length (reserved arg));
           enum_timings :=
             nth (Z.to_nat (index arg)) adv7604_timings zero_dv_timings |}).

(** Returns the status and the contents of [*cap]. *)
Definition adv7604_dv_timings_cap (cap : v4l2_dv_timings_cap)
  : drv (Z * v4l2_dv_timings_cap) :=
  state <- get_state ;;
  ret (0,
       {| cap_type := V4L2_DV_BT_656_1120;
          cap_bt :=
            {| min_width := min_width (cap_bt cap);
               max_width := 1920;
               min_height := min_height (cap_bt cap);
               max_height := 1200;
               min_pixelclock := 27000000;
               max_pixelclock :=
                 if DIGITAL_INPUT state then 225000000 else 170000000;
               cap_standards :=
                 Z.lor (Z.lor (Z.lor V4L2_DV_BT_STD_CEA861 V4L2_DV_BT_STD_DMT)
                          V4L2_DV_BT_STD_GTF) V4L2_DV_BT_STD_CVT;
               capabilities :=
                 Z.lor (Z.lor V4L2_DV_BT_CAP_PROGRESSIVE
                          V4L2_DV_BT_CAP_REDUCED_BLANKING)
                   V4L2_DV_BT_CAP_CUSTOM |} |}).

(** Returns the status and the contents of [*code], which holds
    [code0] on entry. *)
Definition adv7604_enum_mbus_fmt (index code0 : Z) : Z * Z :=
  if nonzero index then (- EINVAL, code0)
  else
    (* Good enough for now *)
    (0, V4L2_MBUS_FMT_FIXED).

(** Returns the status and the contents of [*fmt]. *)
Definition adv7604_g_mbus_fmt (fmt : v4l2_mbus_framefmt)
  : drv (Z * v4l2_mbus_framefmt) :=
  state <- get_state ;;
  ret (0,
       {| fmt_width := width (bt (timings state));
          fmt_height := height (bt (timings state));
          code := V4L2_MBUS_FMT_FIXED;
          field := V4L2_FIELD_NONE;
          colorspace :=
            if nonzero (Z.land (standards (bt (timings state)))
                               V4L2_DV_BT_STD_CEA861)
            then if height (bt (timings state)) <=? 576
                 then V4L2_COLORSPACE_SMPTE170M
                 else V4L2_COLORSPACE_REC709
            else colorspace fmt |}).

(** [handled] is the pointer argument, [None] when null; returns the
    status and the contents of [*handled]. *)
Definition adv7604_isr (status : Z) (handled : option bool)
  : drv (Z * option bool) :=
  state <- get_state ;;
  (* format change *)
  v <- io_read 0x43 ;;
  let fmt_change := u8 (Z.land v 0x98) in
  (if nonzero fmt_change then (io_write 0x44 fmt_change ;; ret tt)
   else ret tt) ;;
  fmt_change_digital <-
    (if DIGITAL_INPUT state then
       v' <- io_read 0x6b ;;
       ret (u8 (Z.land v' (fmt_change_digital_mask (info state))))
     else ret 0) ;;
  (if nonzero fmt_change_digital then
     (io_write 0x6c fmt_change_digital ;; ret tt)
   else ret tt) ;;
  handled <-
    (if nonzero fmt_change || nonzero fmt_change_digital then
       v4l2_subdev_notify ADV7604_FMT_CHANGE 0 ;;
       ret (match handled with Some _ => Some true | None => None end)
     else ret handled) ;;
  (* tx 5v detect *)
  v5 <- io_read 0x70 ;;
  let tx_5v := u8 (Z.land v5 (cable_det_mask (info state))) in
  if nonzero tx_5v then
    io_write 0x71 tx_5v ;;
    adv7604_s_detect_tx_5v_ctrl ;;
    ret (0, match handled with Some _ => Some true | None => None end)
  else ret (0, handled).

End DriverOps.

(** ** Further observations *)

(** A bus on which no transfer fails. *)
Definition fault_free (a : i2c_adapter) : Prop :=
  forall (h : list event) (x : smbus_xfer), xfer_status a h x = 0.

(** A control framework that accepts every value and does nothing the
    driver can see. *)
Definition quiet_ctrls : v4l2_ctrls :=
  {| v4l2_ctrl_s_ctrl := fun _ _ => ret 0 |}.

(** A register read. *)
Definition is_read (e : event) : Prop :=
  match e with
  | Xfer (SMBUS_READ_BYTE_DATA _ _) => True
  | _ => False
  end.

(** A register read, or a write to the STDI control register 0x86 of the
    CP map. *)
Definition read_or_stdi_restart (e : event) : Prop :=
  match e with
  | Xfer (SMBUS_READ_BYTE_DATA _ _) => True
  | Xfer (SMBUS_WRITE_BYTE_DATA c command _) => c = i2c_cp /\ command = 0x86
  | _ => False
  end.

(** The clients [adv7604_probe] creates on every variant; the other five
    exist only on a chip with an analog front end. *)
Definition always_present (c : i2c_client) : bool :=
  match c with
  | client | i2c_cec | i2c_infoframe | i2c_afe | i2c_repeater | i2c_edid
  | i2c_hdmi | i2c_cp => true
  | i2c_avlink | i2c_esdp | i2c_dpp | i2c_test | i2c_vdp => false
  end.

(** An event that involves none of the five optional clients. *)
Definition on_present_client (e : event) : Prop :=
  match e with
  | Xfer x => always_present (xfer_client x) = true
  | _ => True
  end.

(** [m], run from [w], only adds events that satisfy [P]. *)
Definition emits_from {A : Type} (w : world) (P : event -> Prop) (m : drv A)
  : Prop :=
  exists evs : list event,
    history (snd (m w)) = evs ++ history w /\ Forall P evs.

(** The block writes of a history, oldest first. *)
Definition block_writes (h : list event) : list (i2c_client * Z * list Z) :=
  fold_left
    (fun acc e =>
       match e with
       | Xfer (SMBUS_WRITE_I2C_BLOCK_DATA c command block) =>
           (c, command, block) :: acc
       | _ => acc
       end) h [].

(** The payloads of a list of block writes, one after the other. *)
Definition payload (l : list (i2c_client * Z * list Z)) : list Z :=
  concat (map snd l).

(** A single-byte register write as an event. *)
Definition write_event (x : i2c_client * Z * Z) : event :=
  Xfer (SMBUS_WRITE_BYTE_DATA (fst (fst x)) (snd (fst x)) (snd x)).

(** The history after the register writes [l], made in that order, each
    at its first attempt. *)
Definition after_write_list (l : list (i2c_client * Z * Z)) (w : world)
  : world :=
  {| dev := dev w; history := rev (map write_event l) ++ history w |}.

(** The register writes of a preset sequence: each entry goes to the
    client of its page, at the low 8 bits of its address. *)
Definition preset_writes (l : list adv7604_reg_seq)
  : list (i2c_client * Z * Z) :=
  flat_map (fun r => match page_client (Z.shiftr (reg r) 8) with
                     | Some c => [(c, Z.land (reg r) 0xff, val r)]
                     | None => []
                     end) l.
(* END DEFS *)

(** A bus on which every register read fails and every write succeeds. *)
Definition write_only_bus : i2c_adapter :=
  {| xfer_status := fun _ x =>
       match x with
       | SMBUS_READ_BYTE_DATA _ _ => - EIO
       | _ => 0
       end;
     xfer_byte := fun _ _ => 0 |}.
(* END DEFS *)

(** A chip that reads as [regs] during the first [n] transfers and loses
    its input afterwards: every register reads 0 from then on. *)
Definition fading_chip (regs : i2c_client -> Z -> Z) (n : nat)
  : i2c_adapter :=
  {| xfer_status := fun _ _ => 0;
     xfer_byte := fun h x =>
       match x with
       | SMBUS_READ_BYTE_DATA c command =>
           if (length h <? n)%nat then regs c command else 0
       | _ => 0
       end |}.

(** An ADV7604 on 1400x1050 at 85 Hz: 1105 lines, a 4-line vsync and a
    93.88 kHz line rate, for a pixel clock of 179.5 MHz. *)
Definition sxga_plus_85_regs : i2c_client -> Z -> Z :=
  regs_of (stdi_regs 2440 1104 4).

(** The timing [adv7604_query_dv_timings] starts the analog resolution
    from: all zero but for the scan type. *)
Definition unresolved_timing (interlaced_ : Z) : v4l2_dv_timings :=
  {| type := 0;
     bt := {| width := 0; height := 0;
              interlaced := interlaced_; polarities := 0;
              pixelclock := 0; hfrontporch := 0;
              hsync := 0; hbackporch := 0;
              vfrontporch := 0; vsync := 0;
              vbackporch := 0; il_vfrontporch := 0;
              il_vsync := 0; il_vbackporch := 0;
              standards := 0; flags := 0 |} |}.
(* END DEFS *)

(** The transfer that uploads the 32 bytes of [val] at offset [i], and
    the first [k] of them from offset [i] on, latest first. *)
Definition edid_block_xfer (val : list Z) (i : Z) : smbus_xfer :=
  SMBUS_WRITE_I2C_BLOCK_DATA i2c_edid (u8 i)
    (firstn (Z.to_nat I2C_SMBUS_BLOCK_MAX) (skipn (Z.to_nat i) val)).

Fixpoint edid_block_xfers (val : list Z) (i : Z) (k : nat) : list event :=
  match k with
  | O => []
  | S k' =>
      edid_block_xfers val (i + I2C_SMBUS_BLOCK_MAX) k'
        ++ [Xfer (edid_block_xfer val i)]
  end.


(** ** The register-access layer *)

Section RegisterAccess.

Context {adapter : i2c_adapter}.

Lemma adv_smbus_read_byte_data_run
    (c : i2c_client) (command : Z) (w : world) :
  adv_smbus_read_byte_data c command w =
    ((if xfer_status adapter (history w) (SMBUS_READ_BYTE_DATA c (u8 command))
          =? 0
      then u8 (xfer_byte adapter (history w)
                 (SMBUS_READ_BYTE_DATA c (u8 command)))
      else - EIO),
     log_event (Xfer (SMBUS_READ_BYTE_DATA c (u8 command))) w).
Proof.
  unfold adv_smbus_read_byte_data, adv_smbus_read_byte_data_check, bind,
    i2c_smbus_xfer, ret; cbn [fst snd].
  destruct (_ =? 0); reflexivity.
Qed.

Lemma adv_smbus_write_i2c_block_data_run
    (c : i2c_client) (command length : Z) (values : list Z) (w : world) :
  let x := SMBUS_WRITE_I2C_BLOCK_DATA c (u8 command)
             (firstn (Z.to_nat (Z.min length I2C_SMBUS_BLOCK_MAX)) values) in
  adv_smbus_write_i2c_block_data c command length values w =
    (xfer_status adapter (history w) x, log_event (Xfer x) w).
Proof.
  cbv zeta.
  unfold adv_smbus_write_i2c_block_data, bind, i2c_smbus_xfer, ret;
    cbn [fst snd].
  replace (if length >? I2C_SMBUS_BLOCK_MAX then I2C_SMBUS_BLOCK_MAX
           else length)
    with (Z.min length I2C_SMBUS_BLOCK_MAX); [reflexivity|].
  destruct (Z.gtb_spec length I2C_SMBUS_BLOCK_MAX); lia.
Qed.

Lemma after_writes_S (n : nat) c command value w :
  after_writes n c command value
    (log_event (Xfer (SMBUS_WRITE_BYTE_DATA c command value)) w)
  = after_writes (S n) c command value w.
Proof.
  unfold after_writes, log_event; cbn [dev history]. f_equal.
  change (?x :: history w) with ([x] ++ history w).
  rewrite app_assoc. f_equal.
  change (S n) with (1 + n)%nat.
  rewrite (Nat.add_comm 1 n), repeat_app. reflexivity.
Qed.

Lemma after_writes_O c command value w :
  after_writes 0 c command value w = w.
Proof. destruct w; reflexivity. Qed.

Lemma adv_smbus_write_byte_data_loop_run :
  forall (n : nat) (err : Z) c command value (w : world),
    (0 < n)%nat ->
    exists k : nat,
      (1 <= k <= n)%nat /\
      adv_smbus_write_byte_data_loop n err c command value w =
        (xfer_status adapter
           (history (after_writes (k - 1) c command value w))
           (SMBUS_WRITE_BYTE_DATA c command value),
         after_writes k c command value w) /\
      (forall j : nat, (j < k - 1)%nat ->
         xfer_status adapter (history (after_writes j c command value w))
           (SMBUS_WRITE_BYTE_DATA c command value) <> 0) /\
      (xfer_status adapter
         (history (after_writes (k - 1) c command value w))
         (SMBUS_WRITE_BYTE_DATA c command value) <> 0 -> k = n).
Proof.
  induction n as [|n IH]; intros err c command value w Hn; [lia|].
  cbn [adv_smbus_write_byte_data_loop].
  unfold bind, i2c_smbus_xfer, ret; cbn [fst snd].
  set (x := SMBUS_WRITE_BYTE_DATA c command value).
  destruct (Z.eqb_spec (xfer_status adapter (history w) x) 0) as [E|E].
  - exists 1%nat. cbn [Nat.sub]. rewrite after_writes_O.
    split; [lia|]. split; [|split].
    + subst x. rewrite <- after_writes_S, after_writes_O. reflexivity.
    + intros j Hj. lia.
    + intros H. contradiction.
  - destruct n as [|n].
    + exists 1%nat. cbn [adv_smbus_write_byte_data_loop Nat.sub].
      rewrite after_writes_O. unfold ret.
      split; [lia|]. split; [|split].
      * subst x. rewrite <- after_writes_S, after_writes_O. reflexivity.
      * intros j Hj. lia.
      * reflexivity.
    + destruct (IH (xfer_status adapter (history w) x) c command value
                  (log_event (Xfer x) w)) as (k & Hk & Hrun & Hfail & Hlast);
        [lia|].
      exists (S k). subst x.
      replace (S k - 1)%nat with (S (k - 1)) by lia.
      rewrite <- !after_writes_S.
      split; [lia|]. split; [|split].
      * exact Hrun.
      * intros j Hj. destruct j as [|j].
        -- rewrite after_writes_O. exact E.
        -- rewrite <- after_writes_S. apply Hfail. lia.
      * intros H. apply Hlast in H. lia.
Qed.

(** C7 (amended).  A single-byte register write is attempted up to three
    times in total: the same transfer is repeated while it fails, it stops
    at the first success, and the status surfaced is that of the last
    attempt, so an error is only surfaced after three failed attempts.  A
    register read is a single transfer whose failure surfaces at once as
    -EIO, and an I2C block write (EDID upload, PLL registers) is a single
    transfer too, whose status is surfaced as it is. *)
Theorem register_access_retry_policy :
  forall (c : i2c_client) (command value length : Z) (values : list Z)
         (w : world),
    (exists k : nat,
       (1 <= k <= 3)%nat /\
       adv_smbus_write_byte_data c command value w =
         (xfer_status adapter
            (history (after_writes (k - 1) c (u8 command) (u8 value) w))
            (SMBUS_WRITE_BYTE_DATA c (u8 command) (u8 value)),
          after_writes k c (u8 command) (u8 value) w) /\
       (forall j : nat, (j < k - 1)%nat ->
          xfer_status adapter
            (history (after_writes j c (u8 command) (u8 value) w))
            (SMBUS_WRITE_BYTE_DATA c (u8 command) (u8 value)) <> 0) /\
       (fst (adv_smbus_write_byte_data c command value w) <> 0 ->
        k = 3%nat)) /\
    (snd (adv_smbus_read_byte_data c command w) =
       log_event (Xfer (SMBUS_READ_BYTE_DATA c (u8 command))) w /\
     (xfer_status adapter (history w) (SMBUS_READ_BYTE_DATA c (u8 command))
        <> 0 ->
      fst (adv_smbus_read_byte_data c command w) = - EIO)) /\
    (let x := SMBUS_WRITE_I2C_BLOCK_DATA c (u8 command)
                (firstn (Z.to_nat (Z.min length I2C_SMBUS_BLOCK_MAX))
                   values) in
     adv_smbus_write_i2c_block_data c command length values w =
       (xfer_status adapter (history w) x, log_event (Xfer x) w)).
Proof.
  intros c command value length values w. split; [|split].
  - unfold adv_smbus_write_byte_data.
    destruct (adv_smbus_write_byte_data_loop_run 3 0 c (u8 command)
                (u8 value) w) as (k & Hk & Hrun & Hfail & Hlast); [lia|].
    exists k. rewrite Hrun. cbn [fst]. auto.
  - rewrite adv_smbus_read_byte_data_run. cbn [fst snd]. split; [reflexivity|].
    intros H. destruct (Z.eqb_spec
      (xfer_status adapter (history w) (SMBUS_READ_BYTE_DATA c (u8 command)))
      0); [contradiction|reflexivity].
  - apply adv_smbus_write_i2c_block_data_run.
Qed.

End RegisterAccess.

(** C7, as stated, fails for block transfers: on a bus where every
    transfer fails, the block write used for EDID programming gives up
    after a single transfer. *)
Lemma block_write_not_retried :
  adv_smbus_write_i2c_block_data (adapter := dead_bus)
    i2c_edid 0 I2C_SMBUS_BLOCK_MAX (repeat 0 32) (boot ADV7611)
  = (- EIO,
     {| dev := adv7604_probe_state ADV7611;
        history := [Xfer (SMBUS_WRITE_I2C_BLOCK_DATA i2c_edid 0
                            (repeat 0 32))] |}).
Proof. reflexivity. Qed.

Lemma register_access_retry_policy_witness :
  adv_smbus_write_byte_data (adapter := dead_bus) i2c_cp 0x86 0x04
    (boot ADV7604)
  = (- EIO, after_writes 3 i2c_cp 0x86 0x04 (boot ADV7604)) /\
  fst (adv_smbus_read_byte_data (adapter := dead_bus) i2c_cp 0x86
         (boot ADV7604)) = - EIO.
Proof.
  destruct (register_access_retry_policy (adapter := dead_bus)
              i2c_cp 0x86 0x04 32 [] (boot ADV7604))
    as ((k & Hk & Hrun & Hfail & Hlast) & (_ & Hread) & _).
  split.
  - rewrite Hrun.
    assert (Hk3 : k = 3%nat) by (apply Hlast; rewrite Hrun; discriminate).
    rewrite Hk3. reflexivity.
  - apply Hread. discriminate.
Defined.

(** ** Page routing *)

Section PageRouting.

Context {adapter : i2c_adapter}.

Lemma page_mask_small (id : adv7604_type) (page : Z) :
  13 <= page ->
  Z.testbit (page_mask (adv7604_chip_info_tbl id)) page = false /\
  Z.land (BIT page) (page_mask (adv7604_chip_info_tbl id)) = 0.
Proof.
  intros Hp. split.
  - apply Z.bits_above_log2.
    + destruct id; vm_compute; discriminate.
    + destruct id; vm_compute (Z.log2 _); lia.
  - unfold BIT, BITS_PER_LONG.
    destruct (Z.ltb_spec page 32) as [Hlt|Hge]; [|reflexivity].
    assert (Hcases : page = 13 \/ page = 14 \/ page = 15 \/ page = 16 \/
                     page = 17 \/ page = 18 \/ page = 19 \/ page = 20 \/
                     page = 21 \/ page = 22 \/ page = 23 \/ page = 24 \/
                     page = 25 \/ page = 26 \/ page = 27 \/ page = 28 \/
                     page = 29 \/ page = 30 \/ page = 31) by lia.
    repeat (destruct Hcases as [->|Hcases]; [destruct id; reflexivity|]).
    subst page. destruct id; reflexivity.
Qed.

(** C8.  On both variants, a register address whose page is not in the
    chip's page mask makes the generic read and the generic write return
    -EINVAL with no bus access (the world is unchanged); an address whose
    page is in the mask is handed, with its low 8 bits as offset, to the
    accessor of that page's client. *)
Theorem register_page_routing :
  forall (id : adv7604_type) (w : world) (reg val : Z),
    info (dev w) = adv7604_chip_info_tbl id ->
    0 <= reg < 2 ^ 32 ->
    (Z.testbit (page_mask (info (dev w))) (Z.shiftr reg 8) = false ->
       adv7604_read_reg reg w = (- EINVAL, w) /\
       adv7604_write_reg reg val w = (- EINVAL, w)) /\
    (Z.testbit (page_mask (info (dev w))) (Z.shiftr reg 8) = true ->
       exists c : i2c_client,
         page_client (Z.shiftr reg 8) = Some c /\
         adv7604_read_reg reg w =
           adv_smbus_read_byte_data c (Z.land reg 0xff) w /\
         adv7604_write_reg reg val w =
           adv_smbus_write_byte_data c (Z.land reg 0xff) val w).
Proof.
  intros id w reg val Hinfo Hreg.
  unfold adv7604_read_reg, adv7604_write_reg, bind, get_state.
  rewrite Hinfo.
  assert (Hpage : 0 <= Z.shiftr reg 8) by (apply Z.shiftr_nonneg; lia).
  set (off := Z.land reg 255).
  generalize dependent (Z.shiftr reg 8). intros page Hpage.
  destruct (Z_lt_le_dec page 13) as [Hlt|Hge].
  - assert (Hcases : page = 0 \/ page = 1 \/ page = 2 \/ page = 3 \/
                     page = 4 \/ page = 5 \/ page = 6 \/ page = 7 \/
                     page = 8 \/ page = 9 \/ page = 10 \/ page = 11 \/
                     page = 12) by lia.
    repeat (destruct Hcases as [->|Hcases];
            [destruct id; (split; intros Hbit;
               [first [discriminate Hbit | split; reflexivity]
               |first [discriminate Hbit
                      | eexists; split; [reflexivity|split; reflexivity]]])|]).
    subst page.
    destruct id; (split; intros Hbit;
               [first [discriminate Hbit | split; reflexivity]
               |first [discriminate Hbit
                      | eexists; split; [reflexivity|split; reflexivity]]]).
  - destruct (page_mask_small id page Hge) as [Hbit0 Hland].
    split; intros Hbit.
    + rewrite Hland. split; reflexivity.
    + rewrite Hbit0 in Hbit. discriminate.
Qed.

End PageRouting.

Lemma register_page_routing_witness :
  (adv7604_read_reg (adapter := dead_bus) 0x1fb (boot ADV7611)
     = (- EINVAL, boot ADV7611) /\
   adv7604_write_reg (adapter := dead_bus) 0x1fb 0 (boot ADV7611)
     = (- EINVAL, boot ADV7611)) /\
  (exists c : i2c_client,
     page_client (Z.shiftr 0xb86 8) = Some c /\
     adv7604_read_reg (adapter := dead_bus) 0xb86 (boot ADV7611) =
       adv_smbus_read_byte_data (adapter := dead_bus) c
         (Z.land 0xb86 0xff) (boot ADV7611) /\
     adv7604_write_reg (adapter := dead_bus) 0xb86 0 (boot ADV7611) =
       adv_smbus_write_byte_data (adapter := dead_bus) c
         (Z.land 0xb86 0xff) 0 (boot ADV7611)).
Proof.
  split.
  - apply (register_page_routing (adapter := dead_bus) ADV7611
             (boot ADV7611) 0x1fb 0); [reflexivity|lia|reflexivity].
  - apply (register_page_routing (adapter := dead_bus) ADV7611
             (boot ADV7611) 0xb86 0); [reflexivity|lia|reflexivity].
Defined.

(** ** Effects of the driver functions *)

Section Effects.

Context {K : kernel} {adapter : i2c_adapter}.

Lemma bind_run {A B : Type} (m : drv A) (k : A -> drv B) (w : world) :
  bind m k w = k (fst (m w)) (snd (m w)).
Proof. unfold bind. destruct (m w); reflexivity. Qed.

Lemma keeps_dev_ret {A : Type} (a : A) : keeps_dev (ret a).
Proof. intros w; reflexivity. Qed.

Lemma keeps_dev_bind {A B : Type} (m : drv A) (k : A -> drv B) :
  keeps_dev m -> (forall a, keeps_dev (k a)) -> keeps_dev (bind m k).
Proof.
  intros Hm Hk w. rewrite bind_run, Hk. apply Hm.
Qed.

Lemma keeps_dev_get_state : keeps_dev get_state.
Proof. intros w; reflexivity. Qed.

Lemma keeps_dev_emit (e : event) : keeps_dev (emit e).
Proof. intros w; reflexivity. Qed.

Lemma keeps_dev_xfer (x : smbus_xfer) : keeps_dev (i2c_smbus_xfer x).
Proof. intros w; reflexivity. Qed.

Lemma keeps_dev_read (c : i2c_client) (command : Z) :
  keeps_dev (adv_smbus_read_byte_data c command).
Proof. intros w. rewrite adv_smbus_read_byte_data_run. reflexivity. Qed.

Lemma keeps_dev_write (c : i2c_client) (command value : Z) :
  keeps_dev (adv_smbus_write_byte_data c command value).
Proof.
  intros w. unfold adv_smbus_write_byte_data.
  destruct (adv_smbus_write_byte_data_loop_run 3 0 c (u8 command)
              (u8 value) w) as (k & _ & Hrun & _); [lia|].
  rewrite Hrun. reflexivity.
Qed.

Lemma keeps_dev_block (c : i2c_client) (command length : Z) (values : list Z) :
  keeps_dev (adv_smbus_write_i2c_block_data c command length values).
Proof.
  intros w. rewrite adv_smbus_write_i2c_block_data_run. reflexivity.
Qed.

Lemma emits_ret {A : Type} (P : event -> Prop) (a : A) : emits P (ret a).
Proof. intros w. exists []. split; [reflexivity|constructor]. Qed.

Lemma emits_bind {A B : Type} (P : event -> Prop)
    (m : drv A) (k : A -> drv B) :
  emits P m -> (forall a, emits P (k a)) -> emits P (bind m k).
Proof.
  intros Hm Hk w. rewrite bind_run.
  destruct (Hm w) as (e1 & H1 & F1).
  destruct (Hk (fst (m w)) (snd (m w))) as (e2 & H2 & F2).
  exists (e2 ++ e1). split.
  - rewrite H2, H1, app_assoc. reflexivity.
  - apply Forall_app; split; assumption.
Qed.

Lemma emits_get_state (P : event -> Prop) : emits P get_state.
Proof. intros w. exists []. split; [reflexivity|constructor]. Qed.

Lemma emits_modify_state (P : event -> Prop) f : emits P (modify_state f).
Proof. intros w. exists []. split; [reflexivity|constructor]. Qed.

Lemma emits_emit (P : event -> Prop) (e : event) : P e -> emits P (emit e).
Proof.
  intros He w. exists [e]. split; [reflexivity|repeat constructor; exact He].
Qed.

Lemma emits_read (P : event -> Prop) (c : i2c_client) (command : Z) :
  xfer_ok P c -> emits P (adv_smbus_read_byte_data c command).
Proof.
  intros Hc w. rewrite adv_smbus_read_byte_data_run.
  eexists [_]. split; [reflexivity|].
  repeat constructor. apply Hc. reflexivity.
Qed.

Lemma emits_write (P : event -> Prop) (c : i2c_client) (command value : Z) :
  xfer_ok P c -> emits P (adv_smbus_write_byte_data c command value).
Proof.
  intros Hc w. unfold adv_smbus_write_byte_data.
  destruct (adv_smbus_write_byte_data_loop_run 3 0 c (u8 command)
              (u8 value) w) as (k & _ & Hrun & _); [lia|].
  rewrite Hrun. eexists. split; [reflexivity|].
  apply Forall_forall. intros e He. apply repeat_spec in He. subst e.
  apply Hc. reflexivity.
Qed.

Lemma emits_block (P : event -> Prop) (c : i2c_client)
    (command length : Z) (values : list Z) :
  xfer_ok P c ->
  emits P (adv_smbus_write_i2c_block_data c command length values).
Proof.
  intros Hc w. rewrite adv_smbus_write_i2c_block_data_run.
  eexists [_]. split; [reflexivity|].
  repeat constructor. apply Hc. reflexivity.
Qed.

Lemma xfer_ok_not_queue (c : i2c_client) : xfer_ok not_queue c.
Proof. intros x _. exact I. Qed.

Lemma xfer_ok_spares_edid_ram (c : i2c_client) :
  c <> i2c_edid -> xfer_ok spares_edid_ram c.
Proof.
  intros Hc x Hx. unfold spares_edid_ram.
  destruct x as [c' ?|c' ? ?|c' ? ?]; cbn in Hx; subst c';
    destruct c; try reflexivity; contradiction.
Qed.

Lemma scheduled_app_not_queue (evs h : list event) :
  Forall not_queue evs -> scheduled (evs ++ h) = scheduled h.
Proof.
  induction 1 as [|e evs He _ IH]; [reflexivity|].
  destruct e; cbn in *; try contradiction; exact IH.
Qed.

End Effects.

(** Decomposes a goal [keeps_dev m] or [emits P m] along the structure of
    [m]; what is left are the side conditions on the clients. *)
Ltac drv_effects :=
  repeat first
    [ progress cbv zeta
    | apply keeps_dev_ret | apply keeps_dev_get_state
    | apply keeps_dev_emit | apply keeps_dev_read
    | apply keeps_dev_write | apply keeps_dev_block
    | apply keeps_dev_bind; [|intros ?]
    | apply emits_ret | apply emits_get_state | apply emits_modify_state
    | apply emits_read | apply emits_write | apply emits_block
    | apply emits_emit
    | apply emits_bind; [|intros ?]
    | match goal with
      | |- keeps_dev (if ?c then _ else _) => destruct c
      | |- emits _ (if ?c then _ else _) => destruct c
      | |- keeps_dev (match ?x with _ => _ end) => destruct x
      | |- emits _ (match ?x with _ => _ end) => destruct x
      end ].

(** ** Input routing *)

Section Routing.

Context {adapter : i2c_adapter}.

Lemma keeps_dev_write_reg (reg val : Z) : keeps_dev (adv7604_write_reg reg val).
Proof.
  unfold adv7604_write_reg, io_write, avlink_write, cec_write,
    infoframe_write, esdp_write, dpp_write, afe_write, rep_write, edid_write,
    hdmi_write, test_write, cp_write, vdp_write.
  drv_effects.
Qed.

Lemma keeps_dev_write_reg_seq (reg_seq : list adv7604_reg_seq) :
  keeps_dev (adv7604_write_reg_seq reg_seq).
Proof.
  induction reg_seq as [|r rest IH]; cbn [adv7604_write_reg_seq].
  - apply keeps_dev_ret.
  - apply keeps_dev_bind; [apply keeps_dev_write_reg|intros _; exact IH].
Qed.

Lemma keeps_dev_set_termination (i : adv7604_chip_info) (enable : bool) :
  keeps_dev (call_set_termination i enable).
Proof.
  unfold call_set_termination, adv7604_set_termination,
    adv7611_set_termination, hdmi_write.
  drv_effects.
Qed.

Lemma keeps_dev_disable_input : keeps_dev disable_input.
Proof.
  unfold disable_input, io_write, hdmi_write.
  drv_effects. apply keeps_dev_set_termination.
Qed.

Lemma keeps_dev_select_input : keeps_dev select_input.
Proof.
  unfold select_input, afe_write, cp_write.
  drv_effects; apply keeps_dev_write_reg_seq.
Qed.

Lemma keeps_dev_enable_input : keeps_dev enable_input.
Proof.
  unfold enable_input, io_write, hdmi_write.
  drv_effects; apply keeps_dev_set_termination.
Qed.

Section RoutingWrites.

Hypothesis bus_ok : fault_free adapter.

Lemma write_byte_fault_free (c : i2c_client) (command value : Z) (w : world) :
  adv_smbus_write_byte_data c command value w =
    (0, log_event (Xfer (SMBUS_WRITE_BYTE_DATA c (u8 command) (u8 value))) w).
Proof.
  unfold adv_smbus_write_byte_data.
  cbn [adv_smbus_write_byte_data_loop]. rewrite bind_run.
  unfold i2c_smbus_xfer; cbn [fst snd]. rewrite bus_ok. reflexivity.
Qed.

Lemma after_write_list_app (l1 l2 : list (i2c_client * Z * Z)) (w : world) :
  after_write_list l2 (after_write_list l1 w) = after_write_list (l1 ++ l2) w.
Proof.
  unfold after_write_list; cbn [dev history].
  rewrite map_app, rev_app_distr, app_assoc. reflexivity.
Qed.

Lemma write_byte_list (c : i2c_client) (command value : Z) (w : world) :
  0 <= command < 256 -> 0 <= value < 256 ->
  adv_smbus_write_byte_data c command value w =
    (0, after_write_list [(c, command, value)] w).
Proof.
  intros Hc Hv. rewrite write_byte_fault_free.
  unfold u8. rewrite !Z.mod_small by (change (2 ^ 8) with 256; lia).
  reflexivity.
Qed.

(** An entry of a preset sequence that the page mask of [id] lets
    through. *)
Lemma write_reg_entry (id : adv7604_type) (r : adv7604_reg_seq) (w : world) :
  info (dev w) = adv7604_chip_info_tbl id ->
  In r (recommended_settings_0 (adv7604_chip_info_tbl id)
        ++ recommended_settings_1 (adv7604_chip_info_tbl id)) ->
  adv7604_write_reg (reg r) (val r) w =
    (0, after_write_list (preset_writes [r]) w).
Proof.
  intros Hinfo Hin.
  unfold adv7604_write_reg. rewrite bind_run.
  unfold get_state; cbn [fst snd]. rewrite Hinfo.
  destruct id; cbn [adv7604_chip_info_tbl recommended_settings_0
                     recommended_settings_1 app] in Hin;
    repeat (destruct Hin as [<-|Hin];
            [apply (write_byte_list _ _ _ w); cbn; lia|]);
    contradiction.
Qed.

Lemma write_reg_seq_entries (id : adv7604_type) :
  forall (l : list adv7604_reg_seq) (w : world),
    info (dev w) = adv7604_chip_info_tbl id ->
    (forall r, In r l ->
       In r (recommended_settings_0 (adv7604_chip_info_tbl id)
             ++ recommended_settings_1 (adv7604_chip_info_tbl id))) ->
    adv7604_write_reg_seq l w = (tt, after_write_list (preset_writes l) w).
Proof.
  induction l as [|r rest IH]; intros w Hinfo Hall.
  - cbn. unfold ret, after_write_list. destruct w; reflexivity.
  - cbn [adv7604_write_reg_seq]. rewrite bind_run.
    rewrite (write_reg_entry id r w Hinfo) by (apply Hall; left; reflexivity).
    cbn [fst snd]. rewrite IH.
    + rewrite after_write_list_app.
      change (r :: rest) with ([r] ++ rest).
      unfold preset_writes. rewrite flat_map_app. reflexivity.
    + exact Hinfo.
    + intros r' Hr'. apply Hall. right. exact Hr'.
Qed.

Lemma disable_input_writes (id : adv7604_type) (w : world) :
  info (dev w) = adv7604_chip_info_tbl id ->
  disable_input w =
    (tt, after_write_list
           [(client, 0x15, 0xbe); (i2c_hdmi, 0x1a, 0x1a);
            match id with
            | ADV7604 => (i2c_hdmi, 0x01, 0x78)
            | ADV7611 => (i2c_hdmi, 0x83, 0xff)
            end] w).
Proof.
  intros Hinfo. unfold disable_input, io_write, hdmi_write.
  rewrite bind_run. unfold get_state; cbn [fst snd].
  rewrite !bind_run, Hinfo.
  rewrite (write_byte_list client 0x15 0xbe) by lia. cbn [fst snd].
  rewrite (write_byte_list i2c_hdmi 0x1a 0x1a) by lia. cbn [fst snd].
  rewrite after_write_list_app.
  destruct id; cbn [adv7604_chip_info_tbl call_set_termination
                     set_termination];
    unfold adv7604_set_termination, adv7611_set_termination, hdmi_write;
    rewrite bind_run, write_byte_list by lia; cbn [fst snd];
    rewrite after_write_list_app; reflexivity.
Qed.

Lemma select_input_writes (id : adv7604_type) (w : world) :
  info (dev w) = adv7604_chip_info_tbl id ->
  select_input w =
    (tt, after_write_list
           (if (mode (dev w) =? ADV7604_MODE_COMP)
               || (mode (dev w) =? ADV7604_MODE_GR)
            then preset_writes (recommended_settings_0
                                  (adv7604_chip_info_tbl id))
                 ++ [(i2c_afe, 0x00, 0x08); (i2c_afe, 0x01, 0x06);
                     (i2c_afe, 0xc8, 0x00)]
            else if mode (dev w) =? ADV7604_MODE_HDMI
            then preset_writes (recommended_settings_1
                                  (adv7604_chip_info_tbl id))
                 ++ (if has_afe (adv7604_chip_info_tbl id)
                     then [(i2c_afe, 0x00, 0xff); (i2c_afe, 0x01, 0xfe);
                           (i2c_afe, 0xc8, 0x40)]
                     else [])
                 ++ [(i2c_cp, 0x3e, 0x00); (i2c_cp, 0xc3, 0x39);
                     (i2c_cp, 0x40, 0x80)]
            else []) w).
Proof.
  intros Hinfo. unfold select_input, afe_write, cp_write.
  rewrite bind_run. unfold get_state; cbn [fst snd].
  destruct ((mode (dev w) =? ADV7604_MODE_COMP)
            || (mode (dev w) =? ADV7604_MODE_GR)).
  - rewrite !bind_run, Hinfo.
    rewrite (write_reg_seq_entries id) by
      (try exact Hinfo; intros r Hr; apply in_or_app; left; exact Hr).
    cbn [fst snd].
    rewrite (write_byte_list i2c_afe 0x00 0x08) by lia. cbn [fst snd].
    rewrite (write_byte_list i2c_afe 0x01 0x06) by lia. cbn [fst snd].
    rewrite (write_byte_list i2c_afe 0xc8 0x00) by lia. cbn [fst snd ret].
    rewrite !after_write_list_app, <- ?app_assoc. reflexivity.
  - destruct (mode (dev w) =? ADV7604_MODE_HDMI).
    + rewrite !bind_run, Hinfo.
      rewrite (write_reg_seq_entries id) by
        (try exact Hinfo; intros r Hr; apply in_or_app; right; exact Hr).
      cbn [fst snd]. unfold adv7604_has_afe.
      cbn [after_write_list dev]. rewrite Hinfo.
      destruct (has_afe (adv7604_chip_info_tbl id)).
      * rewrite !bind_run.
        rewrite (write_byte_list i2c_afe 0x00 0xff) by lia. cbn [fst snd].
        rewrite (write_byte_list i2c_afe 0x01 0xfe) by lia. cbn [fst snd].
        rewrite (write_byte_list i2c_afe 0xc8 0x40) by lia. cbn [fst snd ret].
        rewrite (write_byte_list i2c_cp 0x3e 0x00) by lia. cbn [fst snd].
        rewrite (write_byte_list i2c_cp 0xc3 0x39) by lia. cbn [fst snd].
        rewrite (write_byte_list i2c_cp 0x40 0x80) by lia. cbn [fst snd ret].
        fold (after_write_list
                (preset_writes (recommended_settings_1
                                  (adv7604_chip_info_tbl id))) w).
        rewrite !after_write_list_app, <- ?app_assoc. reflexivity.
      * cbn [ret fst snd].
        rewrite (write_byte_list i2c_cp 0x3e 0x00) by lia. cbn [fst snd].
        rewrite (write_byte_list i2c_cp 0xc3 0x39) by lia. cbn [fst snd].
        rewrite (write_byte_list i2c_cp 0x40 0x80) by lia. cbn [fst snd ret].
        fold (after_write_list
                (preset_writes (recommended_settings_1
                                  (adv7604_chip_info_tbl id))) w).
        rewrite !after_write_list_app, <- ?app_assoc. reflexivity.
    + unfold ret, after_write_list. destruct w; reflexivity.
Qed.

Lemma enable_input_writes (id : adv7604_type) (w : world) :
  info (dev w) = adv7604_chip_info_tbl id ->
  enable_input w =
    (tt, after_write_list
           (if (mode (dev w) =? ADV7604_MODE_COMP)
               || (mode (dev w) =? ADV7604_MODE_GR)
            then [(client, 0x15, 0xb0)]
            else if mode (dev w) =? ADV7604_MODE_HDMI
            then [(i2c_hdmi, 0x1a, 0x0a);
                  match id with
                  | ADV7604 => (i2c_hdmi, 0x01, 0x00)
                  | ADV7611 => (i2c_hdmi, 0x83, 0xfe)
                  end;
                  (client, 0x15, 0xa0)]
            else []) w).
Proof.
  intros Hinfo. unfold enable_input, io_write, hdmi_write.
  rewrite bind_run. unfold get_state; cbn [fst snd].
  destruct ((mode (dev w) =? ADV7604_MODE_COMP)
            || (mode (dev w) =? ADV7604_MODE_GR)).
  - rewrite bind_run, write_byte_list by lia. reflexivity.
  - destruct (mode (dev w) =? ADV7604_MODE_HDMI).
    + rewrite !bind_run, Hinfo.
      rewrite (write_byte_list i2c_hdmi 0x1a 0x0a) by lia. cbn [fst snd].
      destruct id; cbn [adv7604_chip_info_tbl call_set_termination
                         set_termination];
        unfold adv7604_set_termination, adv7611_set_termination, hdmi_write;
        rewrite bind_run, write_byte_list by lia; cbn [fst snd ret];
        rewrite write_byte_list by lia; cbn [fst snd ret];
        rewrite !after_write_list_app; reflexivity.
    + unfold ret, after_write_list. destruct w; reflexivity.
Qed.

(** The whole call on a fault-free bus. *)
Lemma s_routing_writes (id : adv7604_type) (input output config : Z)
    (w : world) :
  info (dev w) = adv7604_chip_info_tbl id ->
  (has_afe (adv7604_chip_info_tbl id) = false -> input = ADV7604_MODE_HDMI) ->
  adv7604_s_routing input output config w =
    (0, after_write_list
          ([(client, 0x15, 0xbe); (i2c_hdmi, 0x1a, 0x1a);
            match id with
            | ADV7604 => (i2c_hdmi, 0x01, 0x78)
            | ADV7611 => (i2c_hdmi, 0x83, 0xff)
            end]
           ++ (if (input =? ADV7604_MODE_COMP) || (input =? ADV7604_MODE_GR)
               then preset_writes (recommended_settings_0
                                     (adv7604_chip_info_tbl id))
                    ++ [(i2c_afe, 0x00, 0x08); (i2c_afe, 0x01, 0x06);
                        (i2c_afe, 0xc8, 0x00)]
               else if input =? ADV7604_MODE_HDMI
               then preset_writes (recommended_settings_1
                                     (adv7604_chip_info_tbl id))
                    ++ (if has_afe (adv7604_chip_info_tbl id)
                        then [(i2c_afe, 0x00, 0xff); (i2c_afe, 0x01, 0xfe);
                              (i2c_afe, 0xc8, 0x40)]
                        else [])
                    ++ [(i2c_cp, 0x3e, 0x00); (i2c_cp, 0xc3, 0x39);
                        (i2c_cp, 0x40, 0x80)]
               else [])
           ++ (if (input =? ADV7604_MODE_COMP) || (input =? ADV7604_MODE_GR)
               then [(client, 0x15, 0xb0)]
               else if input =? ADV7604_MODE_HDMI
               then [(i2c_hdmi, 0x1a, 0x0a);
                     match id with
                     | ADV7604 => (i2c_hdmi, 0x01, 0x00)
                     | ADV7611 => (i2c_hdmi, 0x83, 0xfe)
                     end;
                     (client, 0x15, 0xa0)]
               else []))
          (with_dev (set_mode input (dev w)) w)).
Proof.
  intros Hinfo Hgate. unfold adv7604_s_routing.
  rewrite bind_run. unfold get_state, adv7604_has_afe; cbn [fst snd].
  rewrite Hinfo.
  assert (Hpass : negb (has_afe (adv7604_chip_info_tbl id))
                  && negb (input =? ADV7604_MODE_HDMI) = false).
  { destruct (has_afe (adv7604_chip_info_tbl id)); [reflexivity|].
    rewrite (Hgate eq_refl). reflexivity. }
  rewrite Hpass. rewrite !bind_run.
  unfold modify_state; cbn [fst snd].
  set (w1 := with_dev (set_mode input (dev w)) w).
  assert (H1 : info (dev w1) = adv7604_chip_info_tbl id) by exact Hinfo.
  rewrite (disable_input_writes id w1 H1). cbn [fst snd].
  rewrite (select_input_writes id) by exact H1. cbn [fst snd].
  rewrite (enable_input_writes id) by exact H1. cbn [fst snd ret].
  rewrite !after_write_list_app.
  change (mode (dev (after_write_list _ w1))) with input.
  change (mode (dev w1)) with input.
  rewrite <- ?app_assoc. reflexivity.
Qed.

End RoutingWrites.

(** C10.  Without an analog front end, routing to any input other than
    HDMI returns -EINVAL and leaves the stored mode, the rest of the state
    and the bus untouched.  With an analog front end every requested mode
    is stored first, then [disable_input], [select_input] and
    [enable_input] run in that order, none of them touching the stored
    state, and the call returns 0.  On a bus that completes every transfer
    each step is the list of byte writes given here: [disable_input]
    tristates the pins, mutes the HDMI audio and switches the termination
    off; [select_input] writes the variant's recommended settings of the
    requested kind of input, one byte write per table entry in table
    order, followed by the AFE and CP writes of that kind; [enable_input]
    unmutes, re-enables the termination and the pins; a mode that is
    neither analog nor HDMI gets the writes of [disable_input] alone.  The
    call leaves exactly the three lists on the bus, one after the other,
    on top of the stored mode. *)
Theorem s_routing_afe_gate :
  forall (w : world) (input output config : Z),
    (has_afe (info (dev w)) = false -> input <> ADV7604_MODE_HDMI ->
     adv7604_s_routing input output config w = (- EINVAL, w)) /\
    (has_afe (info (dev w)) = true ->
     let w1 := with_dev (set_mode input (dev w)) w in
     let w2 := snd (disable_input w1) in
     let w3 := snd (select_input w2) in
     let w4 := snd (enable_input w3) in
     adv7604_s_routing input output config w = (0, w4) /\
     dev w4 = set_mode input (dev w) /\
     mode (dev w4) = input) /\
    (fault_free adapter ->
     forall id : adv7604_type,
       info (dev w) = adv7604_chip_info_tbl id ->
       (has_afe (adv7604_chip_info_tbl id) = false ->
        input = ADV7604_MODE_HDMI) ->
       let analog := (input =? ADV7604_MODE_COMP)
                     || (input =? ADV7604_MODE_GR) in
       let digital := input =? ADV7604_MODE_HDMI in
       let off :=
         [(client, 0x15, 0xbe); (i2c_hdmi, 0x1a, 0x1a);
          match id with
          | ADV7604 => (i2c_hdmi, 0x01, 0x78)
          | ADV7611 => (i2c_hdmi, 0x83, 0xff)
          end] in
       let sel :=
         if analog
         then preset_writes (recommended_settings_0
                               (adv7604_chip_info_tbl id))
              ++ [(i2c_afe, 0x00, 0x08); (i2c_afe, 0x01, 0x06);
                  (i2c_afe, 0xc8, 0x00)]
         else if digital
         then preset_writes (recommended_settings_1
                               (adv7604_chip_info_tbl id))
              ++ (if has_afe (adv7604_chip_info_tbl id)
                  then [(i2c_afe, 0x00, 0xff); (i2c_afe, 0x01, 0xfe);
                        (i2c_afe, 0xc8, 0x40)]
                  else [])
              ++ [(i2c_cp, 0x3e, 0x00); (i2c_cp, 0xc3, 0x39);
                  (i2c_cp, 0x40, 0x80)]
         else [] in
       let on :=
         if analog
         then [(client, 0x15, 0xb0)]
         else if digital
         then [(i2c_hdmi, 0x1a, 0x0a);
               match id with
               | ADV7604 => (i2c_hdmi, 0x01, 0x00)
               | ADV7611 => (i2c_hdmi, 0x83, 0xfe)
               end;
               (client, 0x15, 0xa0)]
         else [] in
       let w1 := with_dev (set_mode input (dev w)) w in
       let w2 := after_write_list off w1 in
       let w3 := after_write_list sel w2 in
       let w4 := after_write_list on w3 in
       snd (disable_input w1) = w2 /\
       snd (select_input w2) = w3 /\
       snd (enable_input w3) = w4 /\
       adv7604_s_routing input output config w = (0, w4) /\
       history w4
       = rev (map write_event (off ++ sel ++ on)) ++ history w).
Proof.
  intros w input output config. split; [|split].
  - intros Hafe Hin.
    unfold adv7604_s_routing. rewrite bind_run.
    unfold get_state, adv7604_has_afe; cbn [fst snd]. rewrite Hafe.
    destruct (Z.eqb_spec input ADV7604_MODE_HDMI); [contradiction|].
    reflexivity.
  - intros Hafe. cbv zeta.
    assert (Hdev :
      dev (snd (enable_input (snd (select_input (snd (disable_input
             (with_dev (set_mode input (dev w)) w))))))) =
      set_mode input (dev w)).
    { rewrite keeps_dev_enable_input, keeps_dev_select_input,
        keeps_dev_disable_input. reflexivity. }
    split; [|split].
    + unfold adv7604_s_routing. rewrite bind_run.
      unfold get_state, adv7604_has_afe; cbn [fst snd]. rewrite Hafe.
      cbn [negb andb]. rewrite !bind_run. reflexivity.
    + exact Hdev.
    + rewrite Hdev. reflexivity.
  - intros Hbus id Hinfo Hgate. cbv zeta.
    set (w1 := with_dev (set_mode input (dev w)) w).
    assert (H1 : info (dev w1) = adv7604_chip_info_tbl id) by exact Hinfo.
    split; [|split; [|split; [|split]]].
    + rewrite (disable_input_writes Hbus id w1 H1). reflexivity.
    + rewrite (select_input_writes Hbus id) by exact H1. reflexivity.
    + rewrite (enable_input_writes Hbus id) by exact H1. reflexivity.
    + rewrite (s_routing_writes Hbus id input output config w Hinfo Hgate).
      fold w1. rewrite !after_write_list_app. reflexivity.
    + rewrite !after_write_list_app, <- ?app_assoc. reflexivity.
Qed.

End Routing.

Lemma s_routing_afe_gate_witness :
  adv7604_s_routing (adapter := dead_bus) ADV7604_MODE_GR 0 0 (boot ADV7611)
    = (- EINVAL, boot ADV7611) /\
  mode (dev (snd (adv7604_s_routing (adapter := static_chip (fun _ _ => 0))
                    ADV7604_MODE_HDMI 0 0 (boot ADV7604))))
    = ADV7604_MODE_HDMI /\
  adv7604_s_routing (adapter := static_chip (fun _ _ => 0))
    ADV7604_MODE_GR 0 0 (boot ADV7604)
  = (0, after_write_list
          ([(client, 0x15, 0xbe); (i2c_hdmi, 0x1a, 0x1a);
            (i2c_hdmi, 0x01, 0x78)]
           ++ [(i2c_hdmi, 0x0d, 0x04); (i2c_hdmi, 0x0d, 0x04);
               (i2c_hdmi, 0x3d, 0x00); (i2c_hdmi, 0x3e, 0x74);
               (i2c_hdmi, 0x4e, 0x3b); (i2c_hdmi, 0x57, 0x74);
               (i2c_hdmi, 0x58, 0x63); (i2c_hdmi, 0x8d, 0x18);
               (i2c_hdmi, 0x8e, 0x34); (i2c_hdmi, 0x93, 0x88);
               (i2c_hdmi, 0x94, 0x2e); (i2c_hdmi, 0x96, 0x00);
               (i2c_afe, 0x12, 0x7b); (i2c_afe, 0x0c, 0x1f);
               (i2c_cp, 0x3e, 0x04); (i2c_cp, 0xc3, 0x39);
               (i2c_cp, 0x40, 0x5c);
               (i2c_afe, 0x00, 0x08); (i2c_afe, 0x01, 0x06);
               (i2c_afe, 0xc8, 0x00)]
           ++ [(client, 0x15, 0xb0)])
          (with_dev (set_mode ADV7604_MODE_GR (dev (boot ADV7604)))
             (boot ADV7604))) /\
  adv7604_s_routing (adapter := static_chip (fun _ _ => 0))
    ADV7604_MODE_HDMI 0 0 (boot ADV7611)
  = (0, after_write_list
          ([(client, 0x15, 0xbe); (i2c_hdmi, 0x1a, 0x1a);
            (i2c_hdmi, 0x83, 0xff)]
           ++ [(i2c_cp, 0x6c, 0x00); (i2c_hdmi, 0x6f, 0x0c);
               (i2c_hdmi, 0x87, 0x70); (i2c_hdmi, 0x57, 0xda);
               (i2c_hdmi, 0x58, 0x01); (i2c_hdmi, 0x03, 0x98);
               (i2c_hdmi, 0x4c, 0x44); (i2c_hdmi, 0x8d, 0x04);
               (i2c_hdmi, 0x8e, 0x1e);
               (i2c_cp, 0x3e, 0x00); (i2c_cp, 0xc3, 0x39);
               (i2c_cp, 0x40, 0x80)]
           ++ [(i2c_hdmi, 0x1a, 0x0a); (i2c_hdmi, 0x83, 0xfe);
               (client, 0x15, 0xa0)])
          (with_dev (set_mode ADV7604_MODE_HDMI (dev (boot ADV7611)))
             (boot ADV7611))).
Proof.
  split; [|split; [|split]].
  - apply (s_routing_afe_gate (adapter := dead_bus) (boot ADV7611)
             ADV7604_MODE_GR 0 0); [reflexivity|discriminate].
  - destruct (s_routing_afe_gate (adapter := static_chip (fun _ _ => 0))
                (boot ADV7604) ADV7604_MODE_HDMI 0 0) as (_ & H & _).
    destruct (H eq_refl) as (Hrun & _ & Hmode).
    rewrite Hrun. exact Hmode.
  - destruct (s_routing_afe_gate (adapter := static_chip (fun _ _ => 0))
                (boot ADV7604) ADV7604_MODE_GR 0 0) as (_ & _ & H).
    destruct (H (fun _ _ => eq_refl) ADV7604 eq_refl) as (_ & _ & _ & Hrun & _).
    + discriminate.
    + rewrite Hrun. reflexivity.
  - destruct (s_routing_afe_gate (adapter := static_chip (fun _ _ => 0))
                (boot ADV7611) ADV7604_MODE_HDMI 0 0) as (_ & _ & H).
    destruct (H (fun _ _ => eq_refl) ADV7611 eq_refl) as (_ & _ & _ & Hrun & _).
    + reflexivity.
    + rewrite Hrun. reflexivity.
Defined.

(** On a fault-free bus, routing the ADV7604 to HDMI tristates and mutes,
    applies the HDMI recommended settings and the AFE power-down, and then
    unmutes and enables the outputs. *)
Example s_routing_hdmi_writes :
  byte_writes
    (history (snd (adv7604_s_routing (adapter := static_chip (fun _ _ => 0))
                     ADV7604_MODE_HDMI 0 0 (boot ADV7604))))
  = [(client, 0x15, 0xbe); (i2c_hdmi, 0x1a, 0x1a); (i2c_hdmi, 0x01, 0x78);
     (i2c_hdmi, 0x0d, 0x84); (i2c_hdmi, 0x3d, 0x10); (i2c_hdmi, 0x3e, 0x39);
     (i2c_hdmi, 0x4e, 0x3b); (i2c_hdmi, 0x57, 0xb6); (i2c_hdmi, 0x58, 0x03);
     (i2c_hdmi, 0x8d, 0x18); (i2c_hdmi, 0x8e, 0x34); (i2c_hdmi, 0x93, 0x8b);
     (i2c_hdmi, 0x94, 0x2d); (i2c_hdmi, 0x96, 0x01);
     (i2c_afe, 0x12, 0xfb); (i2c_afe, 0x0c, 0x0d);
     (i2c_afe, 0x00, 0xff); (i2c_afe, 0x01, 0xfe); (i2c_afe, 0xc8, 0x40);
     (i2c_cp, 0x3e, 0x00); (i2c_cp, 0xc3, 0x39); (i2c_cp, 0x40, 0x80);
     (i2c_hdmi, 0x1a, 0x0a); (i2c_hdmi, 0x01, 0x00); (client, 0x15, 0xa0)].
Proof. vm_compute. reflexivity. Qed.

(** ** EDID programming *)

Section Edid.

Context {K : kernel} {adapter : i2c_adapter}.

Lemma emits_rep_write_and_or (P : event -> Prop) (reg mask val : Z) :
  xfer_ok P i2c_repeater -> emits P (rep_write_and_or reg mask val).
Proof.
  intros H. unfold rep_write_and_or, rep_read, rep_write.
  drv_effects; exact H.
Qed.


Lemma emits_edid_write_block_loop (P : event -> Prop) :
  xfer_ok P i2c_edid ->
  forall (fuel : nat) (i len : Z) (val : list Z) (err : Z),
    emits P (edid_write_block_loop fuel i len val err).
Proof.
  intros H. induction fuel as [|fuel IH]; intros i len val err;
    cbn [edid_write_block_loop].
  - apply emits_ret.
  - destruct ((err =? 0) && (i <? len)); [|apply emits_ret].
    apply emits_bind; [apply emits_block; exact H|intros a; apply IH].
Qed.

Lemma keeps_dev_edid_write_block_loop :
  forall (fuel : nat) (i len : Z) (val : list Z) (err : Z),
    keeps_dev (edid_write_block_loop fuel i len val err).
Proof.
  induction fuel as [|fuel IH]; intros i len val err;
    cbn [edid_write_block_loop].
  - apply keeps_dev_ret.
  - destruct ((err =? 0) && (i <? len)); [|apply keeps_dev_ret].
    apply keeps_dev_bind; [apply keeps_dev_block|intros a; apply IH].
Qed.

(** The upload loop never runs out of fuel: once [fuel] covers the
    distance to [len], more fuel changes nothing. *)
Lemma edid_write_block_loop_fuel :
  forall (fuel : nat) (i len : Z) (val : list Z) (err : Z) (w : world),
    len - i <= I2C_SMBUS_BLOCK_MAX * Z.of_nat fuel ->
    forall extra : nat,
      edid_write_block_loop (fuel + extra) i len val err w =
      edid_write_block_loop fuel i len val err w.
Proof.
  unfold I2C_SMBUS_BLOCK_MAX at 1.
  induction fuel as [|fuel IH]; intros i len val err w Hfuel extra.
  - cbn [Nat.add edid_write_block_loop].
    destruct extra as [|extra]; [reflexivity|].
    cbn [edid_write_block_loop].
    destruct (Z.ltb_spec i len); [lia|].
    rewrite andb_false_r. reflexivity.
  - cbn [Nat.add edid_write_block_loop].
    destruct ((err =? 0) && (i <? len)); [|reflexivity].
    rewrite !bind_run. apply IH. unfold I2C_SMBUS_BLOCK_MAX. lia.
Qed.

Lemma emits_edid_upload (len : Z) (val : list Z) :
  emits not_queue (edid_upload len val).
Proof.
  unfold edid_upload, v4l2_subdev_notify.
  drv_effects;
    first [ exact I
          | exact (xfer_ok_not_queue _)
          | apply emits_edid_write_block_loop; exact (xfer_ok_not_queue _) ].
Qed.

Lemma keeps_dev_edid_upload (len : Z) (val : list Z) :
  keeps_dev (edid_upload len val).
Proof.
  unfold edid_upload, v4l2_subdev_notify.
  drv_effects. apply keeps_dev_edid_write_block_loop.
Qed.

Lemma scheduled_poll_start (len : Z) (val : list Z) (w : world) :
  scheduled (history (edid_poll_start len val w)) = scheduled (history w).
Proof.
  unfold edid_poll_start.
  destruct (emits_rep_write_and_or not_queue
              (edid_ctrl_reg (info (dev w))) 0xf0 0x1
              (xfer_ok_not_queue _) (snd (edid_upload len val w)))
    as (e2 & H2 & F2).
  destruct (emits_edid_upload len val w) as (e1 & H1 & F1).
  rewrite H2, scheduled_app_not_queue, H1, scheduled_app_not_queue;
    auto.
Qed.

Lemma scheduled_poll_miss (status_reg : Z) (w : world) :
  scheduled (history (poll_miss status_reg w)) = scheduled (history w).
Proof.
  unfold poll_miss, rep_read. rewrite adv_smbus_read_byte_data_run.
  reflexivity.
Qed.

Lemma scheduled_poll_world (status_reg : Z) :
  forall (k : nat) (w : world),
    scheduled (history (poll_world status_reg k w)) = scheduled (history w).
Proof.
  induction k as [|k IH]; intros w; cbn [poll_world]; [reflexivity|].
  rewrite IH. apply scheduled_poll_miss.
Qed.

Lemma scheduled_rep_read (status_reg : Z) (w : world) :
  scheduled (history (snd (rep_read status_reg w))) = scheduled (history w).
Proof.
  unfold rep_read. rewrite adv_smbus_read_byte_data_run. reflexivity.
Qed.

(** The poll loop with no sighting of the valid bit runs all its
    iterations. *)
Lemma edid_write_block_poll_none (status_reg : Z) :
  forall (n : nat) (i : Z) (w : world),
    (forall k : nat, (k < n)%nat ->
       edid_valid_seen status_reg (poll_world status_reg k w) = false) ->
    edid_write_block_poll n i status_reg w =
      (i + Z.of_nat n, poll_world status_reg n w).
Proof.
  induction n as [|n IH]; intros i w Hnone.
  - cbn. unfold ret. f_equal. lia.
  - cbn [edid_write_block_poll poll_world]. rewrite bind_run.
    assert (H0 := Hnone 0%nat ltac:(lia)).
    cbn [poll_world] in H0. unfold edid_valid_seen in H0. rewrite H0.
    unfold mdelay, emit. rewrite bind_run. cbn [fst snd].
    fold (poll_miss status_reg w).
    rewrite IH.
    + f_equal. lia.
    + intros k Hk. apply (Hnone (S k)). lia.
Qed.

(** The poll loop stops at the first sighting of the valid bit. *)
Lemma edid_write_block_poll_seen (status_reg : Z) :
  forall (n : nat) (i : Z) (w : world) (k : nat),
    (k < n)%nat ->
    edid_valid_seen status_reg (poll_world status_reg k w) = true ->
    exists k' : nat,
      (k' <= k)%nat /\
      edid_write_block_poll n i status_reg w =
        (i + Z.of_nat k',
         snd (rep_read status_reg (poll_world status_reg k' w))).
Proof.
  induction n as [|n IH]; intros i w k Hk Hseen; [lia|].
  cbn [edid_write_block_poll]. rewrite bind_run.
  destruct (edid_valid_seen status_reg w) eqn:E0.
  - exists 0%nat. unfold edid_valid_seen in E0. rewrite E0.
    split; [lia|]. cbn [poll_world]. unfold ret. f_equal. lia.
  - unfold edid_valid_seen in E0. rewrite E0.
    destruct k as [|k].
    + cbn [poll_world] in Hseen. unfold edid_valid_seen in Hseen.
      congruence.
    + unfold mdelay, emit. rewrite bind_run. cbn [fst snd].
      fold (poll_miss status_reg w).
      destruct (IH (i + 1) (poll_miss status_reg w) k ltac:(lia) Hseen)
        as (k' & Hk' & Hrun).
      exists (S k'). split; [lia|].
      rewrite Hrun. cbn [poll_world]. f_equal. lia.
Qed.

Lemma edid_write_block_run (len : Z) (val : list Z) (w : world) :
  fst (edid_upload len val w) = 0 ->
  edid_write_block len val w =
    (let p := edid_write_block_poll 1000 0 (edid_status_reg (info (dev w)))
                (edid_poll_start len val w) in
     if fst p =? 1000 then (- EIO, snd p)
     else (0, log_event (QueueDelayedWork (HZ / 10)) (snd p))).
Proof.
  intros Hup. unfold edid_write_block, edid_poll_start.
  unfold edid_upload in *.
  rewrite bind_run in *. unfold get_state in *. cbn [fst snd] in *.
  rewrite bind_run in *. rewrite (bind_run (rep_write_and_or _ _ _)) in *.
  rewrite (bind_run (edid_write_block_loop _ _ _ _ _)).
  rewrite Hup. cbn [nonzero Z.eqb negb].
  rewrite !bind_run. cbv zeta.
  destruct (fst (edid_write_block_poll _ _ _ _) =? 1000); reflexivity.
Qed.

(** The poll loop as the code tests it.  Once the blocks are uploaded and
    internal EDID access is re-enabled, the status register is polled up
    to 1000 times, 1 ms apart, and a poll counts as seeing the EDID valid
    bit when bit 0 of what [rep_read] returns is set.  If none of the 1000
    polls does, the operation returns -EIO and queues no delayed work; if
    one of them does it returns 0 and queues the hotplug work once, with a
    delay of HZ / 10 jiffies, a tenth of a second. *)
Theorem edid_write_block_valid_poll :
  forall (len : Z) (val : list Z) (w : world),
    fst (edid_upload len val w) = 0 ->
    let status_reg := edid_status_reg (info (dev w)) in
    let w1 := edid_poll_start len val w in
    let r := edid_write_block len val w in
    ((forall k : nat, (k < 1000)%nat ->
        edid_valid_seen status_reg (poll_world status_reg k w1) = false) ->
     fst r = - EIO /\
     scheduled (history (snd r)) = scheduled (history w)) /\
    (forall k : nat, (k < 1000)%nat ->
       edid_valid_seen status_reg (poll_world status_reg k w1) = true ->
       fst r = 0 /\
       scheduled (history (snd r)) = HZ / 10 :: scheduled (history w)).
Proof.
  intros len val w Hup status_reg w1 r. subst r.
  rewrite (edid_write_block_run len val w Hup).
  fold status_reg. fold w1. cbv zeta. split.
  - intros Hnone.
    rewrite (edid_write_block_poll_none status_reg 1000 0 w1 Hnone).
    cbn [fst snd]. change (0 + Z.of_nat 1000 =? 1000) with true.
    cbn [fst snd]. split; [reflexivity|].
    rewrite scheduled_poll_world. apply scheduled_poll_start.
  - intros k Hk Hseen.
    destruct (edid_write_block_poll_seen status_reg 1000 0 w1 k Hk Hseen)
      as (k' & Hk' & Hrun).
    rewrite Hrun. cbn [fst snd].
    destruct (Z.eqb_spec (0 + Z.of_nat k') 1000) as [E|E]; [lia|].
    cbn [fst snd log_event history scheduled]. split; [reflexivity|].
    f_equal. rewrite scheduled_rep_read, scheduled_poll_world.
    apply scheduled_poll_start.
Qed.

End Edid.

(** A chip whose registers all read 0 never shows the valid bit. *)
Lemma edid_valid_never_seen (status_reg : Z) (w : world) :
  edid_valid_seen (adapter := static_chip (fun _ _ => 0)) status_reg w
  = false.
Proof.
  unfold edid_valid_seen, rep_read.
  rewrite adv_smbus_read_byte_data_run. reflexivity.
Qed.

Lemma edid_write_block_valid_poll_witness :
  (fst (edid_write_block (K := plain_kernel)
          (adapter := static_chip (fun _ _ => 0))
          128 (repeat 0 256) (boot ADV7611)) = - EIO /\
   scheduled (history (snd (edid_write_block (K := plain_kernel)
          (adapter := static_chip (fun _ _ => 0))
          128 (repeat 0 256) (boot ADV7611)))) = []) /\
  (fst (edid_write_block (K := plain_kernel)
          (adapter := slow_edid_chip 5)
          128 (repeat 0 256) (boot ADV7611)) = 0 /\
   scheduled (history (snd (edid_write_block (K := plain_kernel)
          (adapter := slow_edid_chip 5)
          128 (repeat 0 256) (boot ADV7611)))) = [10]).
Proof.
  split.
  - apply (edid_write_block_valid_poll (K := plain_kernel)
             (adapter := static_chip (fun _ _ => 0))
             128 (repeat 0 256) (boot ADV7611)); [reflexivity|].
    intros k _. apply edid_valid_never_seen.
  - destruct (edid_write_block_valid_poll (K := plain_kernel)
                (adapter := slow_edid_chip 5)
                128 (repeat 0 256) (boot ADV7611) eq_refl) as [_ H].
    apply (H 5%nat); [lia|reflexivity].
Defined.

(** With a chip that raises the valid bit after 5 ms the loop polls six
    times and sleeps five times before the hotplug work is queued. *)
Example edid_write_block_slow_chip :
  let r := edid_write_block (K := plain_kernel) (adapter := slow_edid_chip 5)
             128 (repeat 0 256) (boot ADV7611) in
  fst r = 0 /\
  firstn 12 (history (snd r)) =
    [QueueDelayedWork 10;
     Xfer (SMBUS_READ_BYTE_DATA i2c_repeater 0x76); Mdelay 1;
     Xfer (SMBUS_READ_BYTE_DATA i2c_repeater 0x76); Mdelay 1;
     Xfer (SMBUS_READ_BYTE_DATA i2c_repeater 0x76); Mdelay 1;
     Xfer (SMBUS_READ_BYTE_DATA i2c_repeater 0x76); Mdelay 1;
     Xfer (SMBUS_READ_BYTE_DATA i2c_repeater 0x76); Mdelay 1;
     Xfer (SMBUS_READ_BYTE_DATA i2c_repeater 0x76)].
Proof. vm_compute. split; reflexivity. Qed.

(** *** A failed status read *)

Section EdidPollError.

Context {K : kernel} {adapter : i2c_adapter}.

(** C6 fails on the code.  The poll loop tests bit 0 of what [rep_read]
    returns without looking at its sign, and -EIO, the value of a failed
    read, has bit 0 set.  So when the first read of the status register
    fails after a successful upload, the loop stops at once as if the
    chip had reported a valid EDID: [edid_write_block] returns 0 and
    queues the hotplug work, after that one failed read and without any
    delay.  (A status register that is read successfully with bit 0 clear
    1000 times gives -EIO and no queued work, as the specification has
    it.) *)
Theorem edid_poll_takes_read_error_for_valid :
  forall (len : Z) (val : list Z) (w : world),
    fst (edid_upload len val w) = 0 ->
    let w1 := edid_poll_start len val w in
    let rd := SMBUS_READ_BYTE_DATA i2c_repeater
                (u8 (edid_status_reg (info (dev w)))) in
    xfer_status adapter (history w1) rd <> 0 ->
    fst (rep_read (edid_status_reg (info (dev w))) w1) = - EIO /\
    edid_write_block len val w =
      (0, log_event (QueueDelayedWork (HZ / 10)) (log_event (Xfer rd) w1)) /\
    scheduled (history (snd (edid_write_block len val w)))
      = HZ / 10 :: scheduled (history w).
Proof.
  intros len val w Hup w1 rd Hfail.
  assert (Hread : rep_read (edid_status_reg (info (dev w))) w1 =
                    (- EIO, log_event (Xfer rd) w1)).
  { unfold rep_read. rewrite adv_smbus_read_byte_data_run. fold rd.
    destruct (Z.eqb_spec (xfer_status adapter (history w1) rd) 0);
      [contradiction|reflexivity]. }
  assert (Hrun : edid_write_block len val w =
    (0, log_event (QueueDelayedWork (HZ / 10)) (log_event (Xfer rd) w1))).
  { rewrite (edid_write_block_run len val w Hup). fold w1.
    change (edid_write_block_poll 1000 0 (edid_status_reg (info (dev w))) w1)
      with (bind (rep_read (edid_status_reg (info (dev w))))
              (fun v => if nonzero (Z.land v 1) then ret 0
                        else bind (mdelay 1)
                               (fun _ => edid_write_block_poll 999 (0 + 1)
                                  (edid_status_reg (info (dev w))))) w1).
    rewrite bind_run, Hread. reflexivity. }
  split; [rewrite Hread; reflexivity|]. split; [exact Hrun|].
  rewrite Hrun. cbn [snd log_event history scheduled]. f_equal.
  subst w1. apply scheduled_poll_start.
Qed.

End EdidPollError.

Lemma edid_poll_takes_read_error_for_valid_witness :
  edid_write_block (K := plain_kernel) (adapter := write_only_bus)
    128 (repeat 0 256) (boot ADV7611)
  = (0,
     log_event (QueueDelayedWork 10)
       (log_event (Xfer (SMBUS_READ_BYTE_DATA i2c_repeater 0x76))
          (edid_poll_start (adapter := write_only_bus)
             128 (repeat 0 256) (boot ADV7611)))) /\
  scheduled (history (snd (edid_write_block (K := plain_kernel)
                             (adapter := write_only_bus)
                             128 (repeat 0 256) (boot ADV7611)))) = [10].
Proof.
  destruct (edid_poll_takes_read_error_for_valid (K := plain_kernel)
              (adapter := write_only_bus) 128 (repeat 0 256) (boot ADV7611))
    as (_ & Hrun & Hsched).
  - reflexivity.
  - discriminate.
  - split; [exact Hrun|exact Hsched].
Defined.

(** The same run, event by event: no read ever succeeds, the status
    register is read once, and the hotplug work is queued. *)
Example edid_write_block_write_only_bus :
  let r := edid_write_block (K := plain_kernel) (adapter := write_only_bus)
             128 (repeat 0 256) (boot ADV7611) in
  fst r = 0 /\
  firstn 4 (history (snd r)) =
    [QueueDelayedWork 10;
     Xfer (SMBUS_READ_BYTE_DATA i2c_repeater 0x76);
     Xfer (SMBUS_WRITE_BYTE_DATA i2c_repeater 0x74 0xf1);
     Xfer (SMBUS_READ_BYTE_DATA i2c_repeater 0x74)] /\
  length (history (snd r)) = 11%nat.
Proof. vm_compute. repeat split. Qed.

(** ** EDID requests *)

Section EdidRequests.

Context {K : kernel} {adapter : i2c_adapter}.

(** A read-modify-write of the repeater map, transfer by transfer: one
    read, then the write of (v & mask) | val, v being the byte read or
    -EIO, repeated while it fails, three times at most. *)
Lemma rep_write_and_or_run (reg mask val : Z) (w : world) :
  let rd := SMBUS_READ_BYTE_DATA i2c_repeater (u8 reg) in
  let v := if xfer_status adapter (history w) rd =? 0
           then u8 (xfer_byte adapter (history w) rd) else - EIO in
  let value := u8 (Z.lor (Z.land v mask) val) in
  let w1 := log_event (Xfer rd) w in
  exists k : nat,
    (1 <= k <= 3)%nat /\
    snd (rep_write_and_or reg mask val w) =
      after_writes k i2c_repeater (u8 reg) value w1 /\
    (forall j : nat, (j < k - 1)%nat ->
       xfer_status adapter
         (history (after_writes j i2c_repeater (u8 reg) value w1))
         (SMBUS_WRITE_BYTE_DATA i2c_repeater (u8 reg) value) <> 0) /\
    (xfer_status adapter
       (history (after_writes (k - 1) i2c_repeater (u8 reg) value w1))
       (SMBUS_WRITE_BYTE_DATA i2c_repeater (u8 reg) value) <> 0 ->
     k = 3%nat).
Proof.
  cbv zeta. unfold rep_write_and_or, rep_read, rep_write.
  rewrite bind_run, adv_smbus_read_byte_data_run. cbn [fst snd].
  unfold adv_smbus_write_byte_data.
  match goal with
  | |- context [adv_smbus_write_byte_data_loop 3 0 ?c ?r ?v ?w0] =>
      destruct (adv_smbus_write_byte_data_loop_run 3 0 c r v w0)
        as (k & Hk & Hrun & Hfail & Hlast); [lia|]
  end.
  exists k. rewrite Hrun. cbn [snd]. auto.
Qed.

(** C3 (amended).  A request on another pad than 0, or on pad 0 with a
    start block other than 0, is refused with -EINVAL whatever its block
    count, and a request on pad 0 from block 0 for more than 2 blocks is
    refused with -E2BIG; neither touches the state or the bus.  A request
    on pad 0 from block 0 for 0 blocks is not an error but the way to clear
    the EDID.  It returns 0 after exactly this: the hotplug notification
    with argument 0; one read of the EDID control register of the repeater
    map; the write to that register of the value read (or of -EIO when the
    read failed) with its low four bits cleared, which takes internal EDID
    access away from the DDC port, attempted up to three times; and then
    the stored block count set to 0 and the aspect ratio to 16:9.  It makes
    no transfer to the EDID map. *)
Theorem set_edid_rejections :
  forall (arg : v4l2_subdev_edid) (w : world),
    (pad arg <> 0 \/ start_block arg <> 0 ->
     adv7604_set_edid arg w = (Some (- EINVAL), w)) /\
    (pad arg = 0 -> start_block arg = 0 -> 2 < blocks arg ->
     adv7604_set_edid arg w = (Some (- E2BIG), w)) /\
    (pad arg = 0 -> start_block arg = 0 -> blocks arg = 0 ->
     let ctrl := u8 (edid_ctrl_reg (info (dev w))) in
     let w1 := log_event (Notify ADV7604_HOTPLUG 0) w in
     let rd := SMBUS_READ_BYTE_DATA i2c_repeater ctrl in
     let v := if xfer_status adapter (history w1) rd =? 0
              then u8 (xfer_byte adapter (history w1) rd) else - EIO in
     let value := u8 (Z.lor (Z.land v 0xf0) 0x0) in
     let wr := SMBUS_WRITE_BYTE_DATA i2c_repeater ctrl value in
     Z.land value 0x0f = 0 /\
     exists k : nat,
       (1 <= k <= 3)%nat /\
       adv7604_set_edid arg w =
         (Some 0,
          {| dev := set_aspect_ratio {| numerator := 16; denominator := 9 |}
                      (set_edid_blocks 0 (dev w));
             history := repeat (Xfer wr) k ++ Xfer rd :: history w1 |}) /\
       (forall j : nat, (j < k - 1)%nat ->
          xfer_status adapter
            (repeat (Xfer wr) j ++ Xfer rd :: history w1) wr <> 0) /\
       (xfer_status adapter
          (repeat (Xfer wr) (k - 1) ++ Xfer rd :: history w1) wr <> 0 ->
        k = 3%nat) /\
       Forall spares_edid_ram
         (repeat (Xfer wr) k ++ [Xfer rd; Notify ADV7604_HOTPLUG 0])).
Proof.
  intros arg w. split; [|split].
  - intros Hbad. unfold adv7604_set_edid. rewrite bind_run.
    unfold get_state, nonzero; cbn [fst snd].
    destruct (Z.eqb_spec (pad arg) 0) as [Hp|Hp]; cbn [negb]; [|reflexivity].
    destruct (Z.eqb_spec (start_block arg) 0) as [Hs|Hs]; cbn [negb];
      [|reflexivity].
    destruct Hbad; contradiction.
  - intros Hpad Hstart Hbig. unfold adv7604_set_edid. rewrite bind_run.
    unfold get_state; cbn [fst snd]. rewrite Hpad, Hstart.
    cbn [nonzero Z.eqb negb].
    destruct (Z.eqb_spec (blocks arg) 0); [lia|].
    destruct (Z.gtb_spec (blocks arg) 2); [reflexivity|lia].
  - intros Hpad Hstart Hzero. cbv zeta. split.
    { unfold u8. change (2 ^ 8) with 256.
      match goal with
      | |- Z.land (Z.lor (Z.land ?v 240) 0 mod 256) 15 = 0 =>
          generalize v; intros x
      end.
      rewrite Z.lor_0_r.
      change 256 with (2 ^ 8). rewrite <- Z.land_ones by lia.
      rewrite <- !Z.land_assoc. change (Z.land (Z.ones 8) 15) with 15.
      change (Z.land 240 15) with 0. apply Z.land_0_r. }
    unfold adv7604_set_edid. rewrite bind_run.
    unfold get_state; cbn [fst snd]. rewrite Hpad, Hstart, Hzero.
    cbn [nonzero Z.eqb negb].
    unfold v4l2_subdev_notify.
    rewrite !bind_run. cbn [fst snd ret modify_state with_dev dev history].
    unfold emit; cbn [fst snd].
    destruct (rep_write_and_or_run (edid_ctrl_reg (info (dev w))) 0xf0 0x0
                (log_event (Notify ADV7604_HOTPLUG 0) w))
      as (k & Hk & Hrun & Hfail & Hlast).
    exists k. split; [exact Hk|].
    rewrite Hrun. unfold after_writes in *.
    cbn [dev history log_event] in *.
    split; [reflexivity|]. split; [exact Hfail|]. split; [exact Hlast|].
    apply Forall_app. split.
    + apply Forall_forall. intros e He. apply repeat_spec in He. subst e.
      reflexivity.
    + repeat constructor.
Qed.

End EdidRequests.

Lemma set_edid_rejections_witness :
  adv7604_set_edid (K := plain_kernel) (adapter := dead_bus)
    {| pad := 0; start_block := 0; blocks := 3; edid_ptr := None |}
    (boot ADV7611)
  = (Some (- E2BIG), boot ADV7611) /\
  adv7604_set_edid (K := plain_kernel) (adapter := dead_bus)
    {| pad := 0; start_block := 1; blocks := 1; edid_ptr := None |}
    (boot ADV7611)
  = (Some (- EINVAL), boot ADV7611) /\
  adv7604_set_edid (K := plain_kernel)
    (adapter := static_chip (fun _ _ => 0x1f))
    {| pad := 0; start_block := 0; blocks := 0; edid_ptr := None |}
    (boot ADV7611)
  = (Some 0,
     {| dev := set_aspect_ratio {| numerator := 16; denominator := 9 |}
                 (set_edid_blocks 0 (adv7604_probe_state ADV7611));
        history := [Xfer (SMBUS_WRITE_BYTE_DATA i2c_repeater 0x74 0x10);
                    Xfer (SMBUS_READ_BYTE_DATA i2c_repeater 0x74);
                    Notify ADV7604_HOTPLUG 0] |}).
Proof.
  split; [|split].
  - apply (set_edid_rejections (K := plain_kernel) (adapter := dead_bus)
             {| pad := 0; start_block := 0; blocks := 3; edid_ptr := None |}
             (boot ADV7611)); [reflexivity|reflexivity|reflexivity].
  - apply (set_edid_rejections (K := plain_kernel) (adapter := dead_bus)
             {| pad := 0; start_block := 1; blocks := 1; edid_ptr := None |}
             (boot ADV7611)).
    right. discriminate.
  - destruct (set_edid_rejections (K := plain_kernel)
                (adapter := static_chip (fun _ _ => 0x1f))
                {| pad := 0; start_block := 0; blocks := 0; edid_ptr := None |}
                (boot ADV7611)) as (_ & _ & H).
    destruct (H eq_refl eq_refl eq_refl)
      as (_ & k & Hk & Hrun & Hfail & _).
    rewrite Hrun.
    assert (Hk1 : k = 1%nat).
    { destruct k as [|[|k]]; [lia|reflexivity|].
      exfalso. apply (Hfail 0%nat); [lia|reflexivity]. }
    rewrite Hk1. reflexivity.
Defined.

(** C3, as stated, fails: a request with 0 blocks on pad 0 succeeds (it
    clears the EDID), and a request with 3 blocks that does not start at
    block 0 is refused with -EINVAL, not -E2BIG. *)
Lemma set_edid_zero_blocks_succeeds :
  fst (adv7604_set_edid (K := plain_kernel)
         (adapter := static_chip (fun _ _ => 0))
         {| pad := 0; start_block := 0; blocks := 0; edid_ptr := None |}
         (boot ADV7611))
  = Some 0 /\
  fst (adv7604_set_edid (K := plain_kernel)
         (adapter := static_chip (fun _ _ => 0))
         {| pad := 0; start_block := 1; blocks := 3; edid_ptr := None |}
         (boot ADV7611))
  = Some (- EINVAL).
Proof. split; reflexivity. Qed.


(** C9, as stated, fails when start_block + blocks wraps around 32 bits:
    with 2 blocks stored, a request for 4294967295 blocks from block 1 is
    not clamped to 1.  With a null buffer the request comes back with its
    count untouched, and with a buffer the copy of 4294967168 bytes runs
    past the 256-byte array. *)
Theorem get_edid_count_wraps :
  let w := {| dev := set_edid_blocks 2 (adv7604_probe_state ADV7611);
              history := [] |} in
  adv7604_get_edid
    {| pad := 0; start_block := 1; blocks := 4294967295; edid_ptr := None |} w
  = (Some (- EINVAL,
           {| pad := 0; start_block := 1; blocks := 4294967295;
              edid_ptr := None |}), w) /\
  adv7604_get_edid
    {| pad := 0; start_block := 1; blocks := 4294967295;
       edid_ptr := Some (repeat 0 256) |} w
  = (None, w).
Proof. split; reflexivity. Qed.

(** ** Matching STDI counters against the table *)

Lemma bt_timings_eqb_eq (a b : v4l2_bt_timings) :
  bt_timings_eqb a b = true -> a = b.
Proof.
  unfold bt_timings_eqb. intros H.
  repeat (apply andb_prop in H; destruct H as [H ?]).
  destruct a, b; cbn in *.
  repeat match goal with
         | E : (_ =? _) = true |- _ => apply Z.eqb_eq in E; subst
         end.
  reflexivity.
Qed.

Lemma dv_timings_eqb_eq (a b : v4l2_dv_timings) :
  dv_timings_eqb a b = true -> a = b.
Proof.
  unfold dv_timings_eqb. intros H.
  apply andb_prop in H. destruct H as [Ht Hb].
  apply Z.eqb_eq in Ht. apply bt_timings_eqb_eq in Hb.
  destruct a, b; cbn in *; subst; reflexivity.
Qed.

(** The scan looks at the line count and the vsync width of the sample
    only. *)
Lemma stdi2dv_timings_scan_counters (hfreq : Z) (s s' : stdi_readback) :
  lcf s = lcf s' -> lcvs s = lcvs s' ->
  forall tbl : list v4l2_dv_timings,
    stdi2dv_timings_scan tbl hfreq s = stdi2dv_timings_scan tbl hfreq s'.
Proof.
  intros Hf Hv. induction tbl as [|t rest IH]; [reflexivity|].
  cbn [stdi2dv_timings_scan]. rewrite Hf, Hv, IH. reflexivity.
Qed.

Lemma hfreq_offsets_spec (d : Z) : -250 <= d <= 250 -> In d hfreq_offsets.
Proof.
  intros Hd. unfold hfreq_offsets. apply in_map_iff.
  exists (Z.to_nat (d + 250)). split; [lia|].
  apply in_seq. lia.
Qed.

Lemma round_trip_ok_sound
    (tbl : list v4l2_dv_timings) (T : v4l2_dv_timings) (hfreq : Z)
    (s : stdi_readback) :
  lcf s = vtotal (bt T) - 1 ->
  lcvs s = vsync (bt T) ->
  round_trip_ok tbl T hfreq = true ->
  stdi2dv_timings_scan tbl hfreq s = Some (round_trip_result T).
Proof.
  intros Hlcf Hlcvs Hok. unfold round_trip_ok in Hok.
  rewrite (stdi2dv_timings_scan_counters hfreq s (stdi_counters T))
    by (cbn [stdi_counters lcf lcvs]; assumption).
  destruct (stdi2dv_timings_scan tbl hfreq (stdi_counters T)) as [t|];
    [|discriminate].
  apply dv_timings_eqb_eq in Hok. subst t. reflexivity.
Qed.

Lemma round_trip_entry_ok_elim
    (tbl : list v4l2_dv_timings) (T : v4l2_dv_timings) :
  round_trip_entry_ok tbl T = true ->
  height (bt T) <> 0 ->
  (forall d : Z, -250 <= d <= 250 ->
     round_trip_ok tbl T (line_rate T + d) = true) /\
  250 < line_rate T /\
  8 <= ADV7604_fsc * 8 / line_rate T < 0x3fff /\
  Z.abs (ADV7604_fsc * 8 / (ADV7604_fsc * 8 / line_rate T) - line_rate T)
    <= 250.
Proof.
  intros Hall Hheight. unfold round_trip_entry_ok in Hall.
  apply orb_prop in Hall. destruct Hall as [Hzero|Hall].
  { apply negb_true_iff in Hzero. unfold nonzero in Hzero.
    apply negb_false_iff, Z.eqb_eq in Hzero. contradiction. }
  apply andb_prop in Hall; destruct Hall as [Hall Habs].
  apply andb_prop in Hall; destruct Hall as [Hall Hmax].
  apply andb_prop in Hall; destruct Hall as [Hall Hmin].
  apply andb_prop in Hall; destruct Hall as [Hall Hrate0].
  apply Z.leb_le in Habs. apply Z.ltb_lt in Hmax.
  apply Z.leb_le in Hmin. apply Z.ltb_lt in Hrate0.
  rewrite forallb_forall in Hall.
  repeat split; try assumption.
  intros d Hd. apply Hall, hfreq_offsets_spec, Hd.
Qed.

Lemma round_trip_table_checked :
  forallb (round_trip_entry_ok adv7604_timings) adv7604_timings = true.
Proof. vm_compute. reflexivity. Qed.

(** A burst length whose line rate is positive is positive, and the line
    rate fits 32 bits. *)
Lemma hfreq_u32 (bl_ : Z) :
  0 < ADV7604_fsc * 8 / bl_ ->
  u32 (ADV7604_fsc * 8 / bl_) = ADV7604_fsc * 8 / bl_.
Proof.
  intros Hpos. unfold u32. apply Z.mod_small. split; [lia|].
  assert (Hbl : 0 < bl_).
  { destruct (Z_lt_le_dec 0 bl_) as [|Hle]; [assumption|].
    exfalso. destruct (Z.eq_dec bl_ 0) as [E|E].
    - rewrite E, Z.div_0_r in Hpos. lia.
    - assert (ADV7604_fsc * 8 / bl_ <= 0); [|lia].
      rewrite <- (Z.div_opp_opp _ _ E).
      apply Z.div_le_upper_bound; unfold ADV7604_fsc; lia. }
  apply Z.le_lt_trans with (ADV7604_fsc * 8).
  - apply Z.div_le_upper_bound; [lia|]. unfold ADV7604_fsc. nia.
  - unfold ADV7604_fsc. lia.
Qed.

Section RoundTrip.

Context {K : kernel}.

(** A hit in the table is the result, before CVT and GTF are tried. *)
Lemma stdi2dv_timings_table_hit
    (state : adv7604_state) (stdi : stdi_readback)
    (timings t : v4l2_dv_timings) :
  stdi2dv_timings_scan adv7604_timings
    (u32 (ADV7604_fsc * 8 / bl stdi)) stdi = Some t ->
  stdi2dv_timings state stdi timings = (0, t).
Proof.
  intros H. unfold stdi2dv_timings. rewrite H. reflexivity.
Qed.

(** C2 (amended).  For every entry T of the table before its terminator,
    a sample with lcf = vtotal(T) - 1, lcvs = T.vsync and a burst length
    whose line rate 28636360 * 8 / bl lies within 250 Hz of T's own
    (pixelclock / htotal) resolves through the table, whatever the
    polarities and whatever was in the output before: the result is T
    with its standards and flags, except for 640x400 at 85 Hz, which
    resolves to 640x350 at 85 Hz, the earlier entry with the same line
    count, vsync width and pixel clock.  Every entry has such a burst
    length within the 14-bit range [read_stdi] accepts. *)
Theorem stdi2dv_timings_round_trip :
  forall (T : v4l2_dv_timings),
    In T adv7604_timings -> height (bt T) <> 0 ->
    (forall (state : adv7604_state) (stdi : stdi_readback)
            (timings : v4l2_dv_timings),
       lcf stdi = vtotal (bt T) - 1 ->
       lcvs stdi = vsync (bt T) ->
       Z.abs (ADV7604_fsc * 8 / bl stdi - line_rate T) <= 250 ->
       stdi2dv_timings state stdi timings = (0, round_trip_result T)) /\
    (T <> V4L2_DV_BT_DMT_640X400P85 -> round_trip_result T = T) /\
    (T = V4L2_DV_BT_DMT_640X400P85 ->
     round_trip_result T = V4L2_DV_BT_DMT_640X350P85) /\
    (let bl := ADV7604_fsc * 8 / line_rate T in
     8 <= bl < 0x3fff /\
     Z.abs (ADV7604_fsc * 8 / bl - line_rate T) <= 250).
Proof.
  intros T HT Hheight.
  destruct (round_trip_entry_ok_elim adv7604_timings T
              (proj1 (forallb_forall (round_trip_entry_ok adv7604_timings)
                        adv7604_timings)
                 round_trip_table_checked T HT) Hheight)
    as (Hall & Hrate0 & Hbl & Habs).
  split; [|split; [|split]].
  - intros state stdi timings Hlcf Hlcvs Hrate.
    apply stdi2dv_timings_table_hit.
    rewrite hfreq_u32 by lia.
    apply round_trip_ok_sound; [assumption|assumption|].
    replace (ADV7604_fsc * 8 / bl stdi)
      with (line_rate T + (ADV7604_fsc * 8 / bl stdi - line_rate T)) by lia.
    apply Hall. lia.
  - intros Hother. unfold round_trip_result.
    destruct (dv_timings_eqb T V4L2_DV_BT_DMT_640X400P85) eqn:E;
      [|reflexivity].
    apply dv_timings_eqb_eq in E. contradiction.
  - intros ->. reflexivity.
  - cbv zeta. split; assumption.
Qed.

End RoundTrip.

Lemma stdi2dv_timings_round_trip_witness :
  stdi2dv_timings (K := plain_kernel) (adv7604_probe_state ADV7604)
    {| bl := 7280; lcf := 524; lcvs := 6; hs_pol := "-"; vs_pol := "-";
       stdi_interlaced := false |} zero_dv_timings
  = (0, V4L2_DV_BT_CEA_720X480P59_94).
Proof.
  destruct (stdi2dv_timings_round_trip (K := plain_kernel)
              V4L2_DV_BT_CEA_720X480P59_94)
    as (Hrun & Hother & _).
  - left. reflexivity.
  - discriminate.
  - rewrite <- Hother by discriminate.
    apply Hrun.
    + reflexivity.
    + reflexivity.
    + vm_compute. discriminate.
Defined.

(** C2, as stated, fails for 640x400 at 85 Hz: the sample built from it
    (445 lines, a 3-line vsync, burst length 6051 for its 37.86 kHz line
    rate, its own polarities) resolves to 640x350 at 85 Hz. *)
Lemma stdi2dv_timings_640x400_shadowed :
  stdi2dv_timings (K := plain_kernel) (adv7604_probe_state ADV7604)
    {| bl := 6051; lcf := vtotal (bt V4L2_DV_BT_DMT_640X400P85) - 1;
       lcvs := vsync (bt V4L2_DV_BT_DMT_640X400P85);
       hs_pol := "-"; vs_pol := "+"; stdi_interlaced := false |}
    zero_dv_timings
  = (0, V4L2_DV_BT_DMT_640X350P85) /\
  ADV7604_fsc * 8 / 6051 = line_rate V4L2_DV_BT_DMT_640X400P85 /\
  V4L2_DV_BT_DMT_640X350P85 <> V4L2_DV_BT_DMT_640X400P85.
Proof. repeat split. discriminate. Qed.

(** ** Enrichment of a measured timing *)

Section Enrichment.

Context {K : kernel}.

Lemma fill_optional_scan_cases (delta : Z) (timings : v4l2_dv_timings) :
  forall tbl : list v4l2_dv_timings,
    fill_optional_scan tbl delta timings = timings \/
    (In (fill_optional_scan tbl delta timings) tbl /\
     v4l_match_dv_timings timings
       (fill_optional_scan tbl delta timings) delta = true).
Proof.
  induction tbl as [|t rest IH]; cbn [fill_optional_scan]; [left; reflexivity|].
  destruct (negb (nonzero (width (bt t)))); [left; reflexivity|].
  destruct (v4l_match_dv_timings timings t delta) eqn:E.
  - right. split; [left; reflexivity|exact E].
  - destruct IH as [IH|[IH1 IH2]]; [left; exact IH|].
    right. split; [right; exact IH1|exact IH2].
Qed.

Lemma v4l_match_dv_timings_model_geometry
    (t1 t2 : v4l2_dv_timings) (d : Z) :
  v4l_match_dv_timings_model t1 t2 d = true ->
  same_geometry t2 t1 /\ Z.abs (pixelclock (bt t2) - pixelclock (bt t1)) <= d.
Proof.
  unfold v4l_match_dv_timings_model, same_geometry. intros H.
  repeat (apply andb_prop in H; destruct H as [H ?]).
  repeat match goal with
         | E : (_ =? _) = true |- _ => apply Z.eqb_eq in E
         | E : (_ <=? _) = true |- _ => apply Z.leb_le in E
         end.
  repeat split; try congruence; lia.
Qed.

(** The scan of a table whose entries [real] have a non-zero width and
    are followed by a terminator: the first entry that matches, or the
    timing itself when none does. *)
Lemma fill_optional_scan_first
    (delta : Z) (timings z : v4l2_dv_timings) (rest : list v4l2_dv_timings) :
  width (bt z) = 0 ->
  forall real : list v4l2_dv_timings,
    Forall (fun e => width (bt e) <> 0) real ->
    ((forall e, In e real -> v4l_match_dv_timings timings e delta = false) /\
     fill_optional_scan (real ++ z :: rest) delta timings = timings) \/
    (exists (pre : list v4l2_dv_timings) (e : v4l2_dv_timings)
            (post : list v4l2_dv_timings),
       real = pre ++ e :: post /\
       (forall p, In p pre -> v4l_match_dv_timings timings p delta = false) /\
       v4l_match_dv_timings timings e delta = true /\
       fill_optional_scan (real ++ z :: rest) delta timings = e).
Proof.
  intros Hz. induction real as [|t real IH]; intros Hreal.
  - left. split; [intros e []|].
    cbn [app fill_optional_scan]. unfold nonzero. rewrite Hz. reflexivity.
  - inversion Hreal as [|? ? Ht Hrest]; subst.
    cbn [app fill_optional_scan]. unfold nonzero.
    destruct (Z.eqb_spec (width (bt t)) 0) as [|_]; [contradiction|].
    cbn [negb].
    destruct (v4l_match_dv_timings timings t delta) eqn:E.
    + right. exists [], t, real. repeat split; [intros p []|exact E].
    + destruct (IH Hrest) as [[Hnone Hscan]|(pre & e & post & -> & Hpre & He & Hscan)].
      * left. split; [|exact Hscan].
        intros e [<-|He]; [exact E|apply Hnone; exact He].
      * right. exists (t :: pre), e, post.
        split; [reflexivity|]. split; [|split; assumption].
        intros p [<-|Hp]; [exact E|apply Hpre; exact Hp].
Qed.

(** The table is its 57 entries, all of non-zero width, followed by the
    terminator. *)
Lemma adv7604_timings_shape :
  adv7604_timings = firstn 57 adv7604_timings ++ [zero_dv_timings] /\
  forallb (fun e => nonzero (width (bt e))) (firstn 57 adv7604_timings) = true.
Proof. split; vm_compute; reflexivity. Qed.

Lemma adv7604_timings_real (e : v4l2_dv_timings) :
  In e adv7604_timings -> width (bt e) <> 0 ->
  In e (firstn 57 adv7604_timings).
Proof.
  intros Hin Hw. destruct adv7604_timings_shape as [Hshape _].
  rewrite Hshape in Hin. apply in_app_or in Hin.
  destruct Hin as [Hin|[<-|[]]]; [exact Hin|].
  exfalso. apply Hw. reflexivity.
Qed.

(** C4 (amended).  The enrichment step looks for the first entry of the
    table, before its terminator, that [v4l_match_dv_timings] accepts for
    the measured timing with the tolerance of the selected input (250 000
    Hz on the digital input).  When no entry is accepted the timing is
    left as it is.  Otherwise the timing is replaced wholesale by that
    first entry: the result is the entry, with the entry's nominal pixel
    clock in place of the measured one and the entry's standards and
    flags.  With a matcher that accepts only what the exact match of the
    spec accepts, the size, scan type, polarities, porches and sync widths
    are therefore unchanged and the pixel clock moves by the tolerance at
    most. *)
Theorem fill_optional_keeps_geometry :
  forall (state : adv7604_state) (timings : v4l2_dv_timings),
    let delta := if DIGITAL_INPUT state then 250000 else 1000000 in
    let t' := adv7604_fill_optional_dv_timings_fields state timings in
    (((forall e, In e adv7604_timings -> width (bt e) <> 0 ->
         v4l_match_dv_timings timings e delta = false) /\
      t' = timings) \/
     (exists (pre : list v4l2_dv_timings) (e : v4l2_dv_timings)
             (post : list v4l2_dv_timings),
        adv7604_timings = pre ++ e :: post /\
        width (bt e) <> 0 /\
        (forall p, In p pre -> v4l_match_dv_timings timings p delta = false) /\
        v4l_match_dv_timings timings e delta = true /\
        t' = e /\
        pixelclock (bt t') = pixelclock (bt e) /\
        standards (bt t') = standards (bt e) /\
        flags (bt t') = flags (bt e))) /\
    ((forall (t1 t2 : v4l2_dv_timings) (d : Z),
        v4l_match_dv_timings t1 t2 d = true ->
        v4l_match_dv_timings_model t1 t2 d = true) ->
     same_geometry t' timings /\
     Z.abs (pixelclock (bt t') - pixelclock (bt timings)) <= delta).
Proof.
  intros state timings. cbv zeta.
  unfold adv7604_fill_optional_dv_timings_fields.
  set (delta := if DIGITAL_INPUT state then 250000 else 1000000).
  assert (Hdelta : 0 <= delta)
    by (subst delta; destruct (DIGITAL_INPUT state); lia).
  destruct adv7604_timings_shape as [Hshape Hwidths].
  assert (Hreal : Forall (fun e => width (bt e) <> 0)
                    (firstn 57 adv7604_timings)).
  { apply Forall_forall. intros e He.
    pose proof (proj1 (forallb_forall _ _) Hwidths e He) as H.
    cbv beta in H. unfold nonzero in H.
    apply negb_true_iff, Z.eqb_neq in H. exact H. }
  pose proof (fill_optional_scan_first delta timings zero_dv_timings []
                eq_refl (firstn 57 adv7604_timings) Hreal) as Hscan.
  rewrite <- Hshape in Hscan.
  assert (Hcases :
    ((forall e, In e adv7604_timings -> width (bt e) <> 0 ->
        v4l_match_dv_timings timings e delta = false) /\
     fill_optional_scan adv7604_timings delta timings = timings) \/
    (exists (pre : list v4l2_dv_timings) (e : v4l2_dv_timings)
            (post : list v4l2_dv_timings),
       adv7604_timings = pre ++ e :: post /\
       width (bt e) <> 0 /\
       (forall p, In p pre -> v4l_match_dv_timings timings p delta = false) /\
       v4l_match_dv_timings timings e delta = true /\
       fill_optional_scan adv7604_timings delta timings = e /\
       pixelclock (bt (fill_optional_scan adv7604_timings delta timings))
         = pixelclock (bt e) /\
       standards (bt (fill_optional_scan adv7604_timings delta timings))
         = standards (bt e) /\
       flags (bt (fill_optional_scan adv7604_timings delta timings))
         = flags (bt e))).
  { destruct Hscan as [[Hnone Hres]|(pre & e & post & Hsplit & Hpre & He & Hres)].
    - left. split; [|exact Hres].
      intros e Hin Hw. apply Hnone, adv7604_timings_real; assumption.
    - right. exists pre, e, (post ++ [zero_dv_timings]).
      split.
      { rewrite Hshape at 1. rewrite Hsplit, <- app_assoc. reflexivity. }
      split.
      { rewrite Forall_forall in Hreal. apply Hreal. rewrite Hsplit.
        apply in_or_app. right. left. reflexivity. }
      rewrite Hres. repeat split; assumption. }
  split; [exact Hcases|].
  intros Hexact.
  destruct Hcases as [[_ E]|(pre & e & post & _ & _ & _ & Hm & E & _)].
  - rewrite E. unfold same_geometry.
    replace (pixelclock (bt timings) - pixelclock (bt timings)) with 0 by lia.
    repeat split. exact Hdelta.
  - rewrite E.
    apply Hexact, v4l_match_dv_timings_model_geometry in Hm.
    exact Hm.
Qed.

End Enrichment.

Lemma fill_optional_keeps_geometry_witness :
  let state := set_mode ADV7604_MODE_HDMI (adv7604_probe_state ADV7611) in
  let t' := adv7604_fill_optional_dv_timings_fields (K := plain_kernel)
              state measured_480p in
  same_geometry t' measured_480p /\
  Z.abs (pixelclock (bt t') - pixelclock (bt measured_480p)) <= 250000.
Proof.
  apply (fill_optional_keeps_geometry (K := plain_kernel)
           (set_mode ADV7604_MODE_HDMI (adv7604_probe_state ADV7611))
           measured_480p).
  intros t1 t2 d H. exact H.
Defined.

(** C4, as stated, fails on the pixel clock: a timing measured on the
    HDMI input as 720x480 with a clock of 27 007 812 Hz comes out of the
    enrichment step with the nominal 27 MHz of the table entry. *)
Lemma fill_optional_changes_pixelclock :
  let state := set_mode ADV7604_MODE_HDMI (adv7604_probe_state ADV7611) in
  pixelclock (bt measured_480p) = 27007812 /\
  adv7604_fill_optional_dv_timings_fields (K := plain_kernel)
    state measured_480p = V4L2_DV_BT_CEA_720X480P59_94 /\
  pixelclock (bt (adv7604_fill_optional_dv_timings_fields (K := plain_kernel)
                    state measured_480p)) = 27000000.
Proof. repeat split. Qed.

(** The same through the whole query: the chip reports 27 007 812 Hz
    and the call returns the table entry with its 27 MHz. *)
Example query_dv_timings_hdmi_480p :
  fst (query_on hdmi_480p_chip
         {| dev := set_mode ADV7604_MODE_HDMI (adv7604_probe_state ADV7611);
            history := [] |})
  = (0, Some V4L2_DV_BT_CEA_720X480P59_94).
Proof. vm_compute. reflexivity. Qed.

(** ** The pixel clock limit *)

Section RangeCheck.

Context {K : kernel} {adapter : i2c_adapter}.

Lemma keeps_dev_no_signal : keeps_dev no_signal.
Proof.
  unfold no_signal, no_power, no_lock_stdi, no_lock_sspd, no_lock_tmds,
    no_signal_tmds, io_read, cp_read.
  drv_effects.
Qed.

Lemma keeps_dev_read_stdi (stdi : stdi_readback) : keeps_dev (read_stdi stdi).
Proof.
  unfold read_stdi, stdi_not_locked, no_lock_stdi, no_lock_sspd, cp_read16,
    io_read, cp_read, hdmi_read.
  drv_effects.
Qed.

Lemma keeps_dev_query_digital (interlaced : Z) :
  keeps_dev (adv7604_query_dv_timings_digital interlaced).
Proof.
  unfold adv7604_query_dv_timings_digital, call_read_hdmi_pixelclock,
    adv7604_read_hdmi_pixelclock, adv7611_read_hdmi_pixelclock,
    hdmi_read16, hdmi_read.
  drv_effects.
Qed.

Lemma keeps_dev_restart_stdi : keeps_dev restart_stdi.
Proof.
  unfold restart_stdi, cp_write_and_or, cp_read, cp_write. drv_effects.
Qed.

(** The analog branch returns early only when all three attempts fail:
    with -ENOLINK when the restart was armed, with -ERANGE when it was
    not.  It never changes the input mode. *)
Lemma query_analog_cases (stdi : stdi_readback) (t : v4l2_dv_timings)
    (w : world) :
  match fst (adv7604_query_dv_timings_analog stdi t w) with
  | inl e =>
      (restart_stdi_once (dev w) = true /\ fst e = - ENOLINK) \/
      (restart_stdi_once (dev w) = false /\ fst e = - ERANGE)
  | inr _ => True
  end /\
  mode (dev (snd (adv7604_query_dv_timings_analog stdi t w))) = mode (dev w).
Proof.
  unfold adv7604_query_dv_timings_analog. rewrite bind_run.
  unfold get_state; cbn [fst snd].
  destruct (stdi2dv_timings (dev w) stdi t) as [e1 t1]; cbn [fst snd].
  destruct (negb (nonzero e1)); [split; [exact I|reflexivity]|].
  destruct (stdi2dv_timings (dev w) _ t1) as [e2 t2]; cbn [fst snd].
  destruct (negb (nonzero e2)); [split; [exact I|reflexivity]|].
  destruct (stdi2dv_timings (dev w) _ t2) as [e3 t3]; cbn [fst snd].
  destruct (nonzero e3).
  - destruct (restart_stdi_once (dev w)) eqn:Harm.
    + rewrite !bind_run. cbn [fst snd ret modify_state with_dev dev].
      rewrite keeps_dev_restart_stdi. split; [left; split; reflexivity|].
      reflexivity.
    + split; [right; split; reflexivity|reflexivity].
  - rewrite !bind_run. cbn [fst snd ret modify_state with_dev dev].
    split; [exact I|reflexivity].
Qed.

(** The analog branch in full.  A success at the first or at the second
    attempt leaves the world as it is; only a success at the third attempt
    arms the restart again.  When all three fail, an armed restart is
    spent on the three writes to CP register 0x86 and the call returns
    -ENOLINK; with the restart already spent the call returns -ERANGE and
    does nothing. *)
Lemma query_analog_run (stdi : stdi_readback) (t : v4l2_dv_timings)
    (w : world) :
  let state := dev w in
  let r1 := stdi2dv_timings state stdi t in
  let stdi2 := set_lcvs (u16 (lcvs stdi + 1)) stdi in
  let r2 := stdi2dv_timings state stdi2 (snd r1) in
  let stdi3 := set_lcvs (u16 (lcvs stdi2 - 2)) stdi2 in
  let r3 := stdi2dv_timings state stdi3 (snd r2) in
  adv7604_query_dv_timings_analog stdi t w =
    if fst r1 =? 0 then (inr (snd r1), w)
    else if fst r2 =? 0 then (inr (snd r2), w)
    else if fst r3 =? 0 then
      (inr (snd r3), with_dev (set_restart_stdi_once true state) w)
    else if restart_stdi_once state then
      (inl (- ENOLINK, snd r3),
       with_dev (set_restart_stdi_once false state) (snd (restart_stdi w)))
    else (inl (- ERANGE, snd r3), w).
Proof.
  cbv zeta. unfold adv7604_query_dv_timings_analog. rewrite bind_run.
  unfold get_state, nonzero; cbn [fst snd].
  destruct (fst (stdi2dv_timings (dev w) stdi t) =? 0);
    cbn [negb]; [reflexivity|].
  destruct (fst (stdi2dv_timings (dev w) _ _) =? 0);
    cbn [negb]; [reflexivity|].
  destruct (fst (stdi2dv_timings (dev w) _ _) =? 0); cbn [negb].
  - rewrite !bind_run. reflexivity.
  - destruct (restart_stdi_once (dev w)); [|reflexivity].
    rewrite !bind_run. cbn [fst snd ret modify_state].
    rewrite keeps_dev_restart_stdi. reflexivity.
Qed.

(** The three outcomes of the code after [found:]. *)
Lemma query_found_cases (t : v4l2_dv_timings) (w : world) :
  (fst (no_signal w) = true /\
   fst (adv7604_query_dv_timings_found t w) = (- ENOLINK, zero_dv_timings)) \/
  (fst (no_signal w) = false /\
   pixelclock (bt t) > pixelclock_limit (dev w) /\
   fst (adv7604_query_dv_timings_found t w) = (- ERANGE, t)) \/
  (fst (no_signal w) = false /\
   pixelclock (bt t) <= pixelclock_limit (dev w) /\
   fst (adv7604_query_dv_timings_found t w) = (0, t)).
Proof.
  unfold adv7604_query_dv_timings_found, pixelclock_limit.
  rewrite !bind_run. unfold get_state; cbn [fst snd].
  destruct (fst (no_signal w)); [left; split; reflexivity|right].
  destruct (DIGITAL_INPUT (dev w)); cbn [negb andb orb];
    match goal with
    | |- context [?a >? ?b] => destruct (Z.gtb_spec a b)
    end;
    [left|right|left|right]; repeat split; try reflexivity; lia.
Qed.

Lemma pixelclock_limit_mode (s1 s2 : adv7604_state) :
  mode s1 = mode s2 -> pixelclock_limit s1 = pixelclock_limit s2.
Proof.
  intros H. unfold pixelclock_limit, DIGITAL_INPUT. rewrite H. reflexivity.
Qed.

(** What the final validation lets through, seen from the caller. *)
Lemma query_found_result (t : v4l2_dv_timings) (w w0 : world) :
  mode (dev w) = mode (dev w0) ->
  forall (r : Z) (t' : v4l2_dv_timings),
    (fst (fst (adv7604_query_dv_timings_found t w)),
     Some (snd (fst (adv7604_query_dv_timings_found t w)))) = (r, Some t') ->
    (r = 0 -> pixelclock (bt t') <= pixelclock_limit (dev w0)) /\
    (r = - ERANGE -> pixelclock (bt t') > pixelclock_limit (dev w0)).
Proof.
  intros Hmode r t' H.
  rewrite <- (pixelclock_limit_mode _ _ Hmode).
  destruct (query_found_cases t w) as [[_ E]|[(_ & Hpc & E)|(_ & Hpc & E)]];
    rewrite E in H; cbn [fst snd] in H; inversion H; subst r t';
    split; intros Hr; try discriminate Hr; assumption.
Qed.

Lemma query_dv_timings_result (t0 : v4l2_dv_timings) (w : world) :
  forall (r : Z) (t' : v4l2_dv_timings),
    fst (adv7604_query_dv_timings (Some t0) w) = (r, Some t') ->
    (r = 0 -> pixelclock (bt t') <= pixelclock_limit (dev w)) /\
    (r = - ERANGE ->
     pixelclock (bt t') > pixelclock_limit (dev w) \/
     (DIGITAL_INPUT (dev w) = false /\ restart_stdi_once (dev w) = false)).
Proof.
  intros r t'. unfold adv7604_query_dv_timings.
  rewrite bind_run. unfold get_state at 1 2; cbn [fst snd].
  rewrite bind_run.
  assert (Hd1 : dev (snd (no_signal w)) = dev w)
    by apply keeps_dev_no_signal.
  destruct (fst (no_signal w)).
  { unfold ret; cbn [fst]. intros H; inversion H; subst.
    split; intros Hr; discriminate Hr. }
  rewrite bind_run.
  assert (Hd2 : dev (snd (read_stdi zero_stdi (snd (no_signal w)))) = dev w)
    by (rewrite keeps_dev_read_stdi; exact Hd1).
  destruct (nonzero (fst (fst (read_stdi zero_stdi (snd (no_signal w)))))).
  { unfold ret; cbn [fst]. intros H; inversion H; subst.
    split; intros Hr; discriminate Hr. }
  destruct (DIGITAL_INPUT (dev w)) eqn:Hdig.
  - rewrite !bind_run. unfold ret; cbn [fst]. intros H.
    apply query_found_result with (w0 := w) in H.
    + destruct H as [H0 H1]. split; [exact H0|]. intros Hr. left. auto.
    + rewrite keeps_dev_query_digital, Hd2. reflexivity.
  - rewrite bind_run.
    match goal with
    | |- context [adv7604_query_dv_timings_analog ?s ?t ?w2] =>
        destruct (query_analog_cases s t w2) as [Hc Hm];
        destruct (adv7604_query_dv_timings_analog s t w2) as [[e|t1] w3]
    end; cbn [fst snd] in *.
    + unfold ret; cbn [fst]. intros H; inversion H; subst.
      rewrite Hd2 in Hc. split; intros Hr.
      * destruct Hc as [[_ Hc]|[_ Hc]]; rewrite Hc in Hr; discriminate Hr.
      * right. split; [reflexivity|].
        destruct Hc as [[_ Hc]|[Hc _]]; [|exact Hc].
        rewrite Hc in Hr. discriminate Hr.
    + rewrite !bind_run. unfold ret; cbn [fst]. intros H.
      apply query_found_result with (w0 := w) in H.
      * destruct H as [H0 H1]. split; [exact H0|]. intros Hr. left. auto.
      * rewrite Hm, Hd2. reflexivity.
Qed.

(** The query with the signal present and the STDI counters read: the
    branch of the selected input, then the code after [found:]. *)
Lemma query_dv_timings_run (t0 : v4l2_dv_timings) (w : world) :
  fst (no_signal w) = false ->
  let rs := read_stdi zero_stdi (snd (no_signal w)) in
  fst (fst rs) = 0 ->
  let stdi := snd (fst rs) in
  let il := if stdi_interlaced stdi then V4L2_DV_INTERLACED
            else V4L2_DV_PROGRESSIVE in
  adv7604_query_dv_timings (Some t0) w =
    if DIGITAL_INPUT (dev w) then
      let m := adv7604_query_dv_timings_digital il (snd rs) in
      let f := adv7604_query_dv_timings_found (fst m) (snd m) in
      (fst (fst f), Some (snd (fst f)), snd f)
    else
      let a := adv7604_query_dv_timings_analog stdi (unresolved_timing il)
                 (snd rs) in
      match fst a with
      | inl e => (fst e, Some (snd e), snd a)
      | inr t1 =>
          let f := adv7604_query_dv_timings_found t1 (snd a) in
          (fst (fst f), Some (snd (fst f)), snd f)
      end.
Proof.
  intros Hsig rs Hstdi stdi il. subst rs stdi il.
  unfold adv7604_query_dv_timings.
  rewrite bind_run. unfold get_state at 1 2; cbn [fst snd].
  rewrite bind_run, Hsig. rewrite bind_run.
  unfold nonzero at 1. rewrite Hstdi. cbn [Z.eqb negb].
  destruct (DIGITAL_INPUT (dev w)).
  - rewrite !bind_run. reflexivity.
  - rewrite bind_run. fold (unresolved_timing
      (if stdi_interlaced (snd (fst (read_stdi zero_stdi (snd (no_signal w)))))
       then V4L2_DV_INTERLACED else V4L2_DV_PROGRESSIVE)).
    cbv zeta.
    destruct (fst (adv7604_query_dv_timings_analog _ _ _)) as [e|t1].
    + reflexivity.
    + rewrite !bind_run. reflexivity.
Qed.

(** The code after [found:], with the limit of the input selected when
    the query started. *)
Lemma query_found_outcomes (t1 : v4l2_dv_timings) (w1 w : world) :
  mode (dev w1) = mode (dev w) ->
  let f := adv7604_query_dv_timings_found t1 w1 in
  (fst (no_signal w1) = true ->
   fst f = (- ENOLINK, zero_dv_timings)) /\
  (fst (no_signal w1) = false ->
   pixelclock (bt t1) > pixelclock_limit (dev w) ->
   fst f = (- ERANGE, t1)) /\
  (fst (no_signal w1) = false ->
   pixelclock (bt t1) <= pixelclock_limit (dev w) ->
   fst f = (0, t1)).
Proof.
  intros Hmode. cbv zeta.
  rewrite <- (pixelclock_limit_mode _ _ Hmode).
  destruct (query_found_cases t1 w1)
    as [[Hs E]|[(Hs & Hpc & E)|(Hs & Hpc & E)]]; rewrite Hs, E;
    repeat split; intros; try discriminate; try reflexivity; lia.
Qed.

(** Every way the query can end. *)
Lemma query_dv_timings_outcomes (t0 : v4l2_dv_timings) (w : world) :
  exists (r : Z) (t' : v4l2_dv_timings),
    fst (adv7604_query_dv_timings (Some t0) w) = (r, Some t') /\
    (r = 0 \/ r = - ERANGE \/ r = - ENOLINK) /\
    (r = 0 -> pixelclock (bt t') <= pixelclock_limit (dev w)) /\
    (r = - ERANGE ->
     pixelclock (bt t') > pixelclock_limit (dev w) \/
     (DIGITAL_INPUT (dev w) = false /\ restart_stdi_once (dev w) = false)).
Proof.
  destruct (fst (no_signal w)) eqn:Hsig.
  { exists (- ENOLINK), zero_dv_timings.
    unfold adv7604_query_dv_timings.
    rewrite bind_run. unfold get_state at 1 2; cbn [fst snd].
    rewrite bind_run, Hsig. cbn [ret fst].
    split; [reflexivity|]. split; [auto|].
    split; intros H; discriminate H. }
  destruct (Z.eq_dec
    (fst (fst (read_stdi zero_stdi (snd (no_signal w))))) 0) as [Hstdi|Hstdi].
  2:{ exists (- ENOLINK), zero_dv_timings.
      unfold adv7604_query_dv_timings.
      rewrite bind_run. unfold get_state at 1 2; cbn [fst snd].
      rewrite bind_run, Hsig. rewrite bind_run.
      unfold nonzero at 1.
      destruct (Z.eqb_spec
        (fst (fst (read_stdi zero_stdi (snd (no_signal w))))) 0);
        [contradiction|].
      cbn [negb ret fst].
      split; [reflexivity|]. split; [auto|].
      split; intros H; discriminate H. }
  rewrite (query_dv_timings_run t0 w Hsig Hstdi).
  assert (Hd2 : dev (snd (read_stdi zero_stdi (snd (no_signal w)))) = dev w)
    by (rewrite keeps_dev_read_stdi; apply keeps_dev_no_signal).
  destruct (DIGITAL_INPUT (dev w)) eqn:Hdig; cbv zeta.
  - match goal with
    | |- context [adv7604_query_dv_timings_found ?t1 ?w1] =>
        assert (Hmode : mode (dev w1) = mode (dev w))
          by (rewrite keeps_dev_query_digital, Hd2; reflexivity);
        destruct (query_found_outcomes t1 w1 w Hmode) as (Hlost & Hover & Hin);
        destruct (fst (no_signal w1));
          [|destruct (Z_le_gt_dec (pixelclock (bt t1))
                        (pixelclock_limit (dev w))) as [Hle|Hgt]]
    end.
    + rewrite (Hlost eq_refl). cbn [fst snd].
      exists (- ENOLINK), zero_dv_timings.
      split; [reflexivity|]. split; [auto|].
      split; intros H; discriminate H.
    + rewrite (Hin eq_refl Hle). cbn [fst snd]. eexists 0, _.
      split; [reflexivity|]. split; [auto|].
      split; [intros _; exact Hle|intros H; discriminate H].
    + rewrite (Hover eq_refl Hgt). cbn [fst snd]. eexists (- ERANGE), _.
      split; [reflexivity|]. split; [auto|].
      split; [intros H; discriminate H|intros _; left; exact Hgt].
  - match goal with
    | |- context [adv7604_query_dv_timings_analog ?s ?t ?w2] =>
        destruct (query_analog_cases s t w2) as [Hc Hm];
        destruct (adv7604_query_dv_timings_analog s t w2) as [[e|t1] w3]
    end; cbn [fst snd] in *.
    + rewrite Hd2 in Hc. exists (fst e), (snd e).
      split; [reflexivity|].
      destruct Hc as [[Harm Hc]|[Harm Hc]]; rewrite Hc.
      * split; [auto|]. split; intros H; discriminate H.
      * split; [auto|].
        split; [intros H; discriminate H|].
        intros _. right. split; [reflexivity|exact Harm].
    + assert (Hmode : mode (dev w3) = mode (dev w))
        by (rewrite Hm, Hd2; reflexivity).
      destruct (query_found_outcomes t1 w3 w Hmode) as (Hlost & Hover & Hin).
      destruct (fst (no_signal w3));
        [|destruct (Z_le_gt_dec (pixelclock (bt t1))
                      (pixelclock_limit (dev w))) as [Hle|Hgt]].
      * rewrite (Hlost eq_refl). cbn [fst snd].
        exists (- ENOLINK), zero_dv_timings.
        split; [reflexivity|]. split; [auto|].
        split; intros H; discriminate H.
      * rewrite (Hin eq_refl Hle). cbn [fst snd]. eexists 0, _.
        split; [reflexivity|]. split; [auto|].
        split; [intros _; exact Hle|intros H; discriminate H].
      * rewrite (Hover eq_refl Hgt). cbn [fst snd]. eexists (- ERANGE), _.
        split; [reflexivity|]. split; [auto|].
        split; [intros H; discriminate H|intros _; left; exact Hgt].
Qed.

(** C5 (amended).  [adv7604_s_dv_timings] returns -ERANGE, before
    touching the state or the bus, exactly when the pixel clock of the
    requested timing exceeds the limit of the selected input (225 MHz on
    HDMI, 170 MHz otherwise), and returns 0 when it does not.

    [adv7604_query_dv_timings] ends with 0, -ERANGE or -ENOLINK and always
    writes the timing.  It returns 0 only with a pixel clock within the
    limit.  Once the signal is present, the STDI counters are read and the
    branch of the selected input has resolved a timing, the result hangs
    on the second signal check: if the signal is gone it is -ENOLINK with
    a zeroed timing, whatever the pixel clock; if the signal is still
    there it is -ERANGE with the resolved timing when its pixel clock
    exceeds the limit, and 0 with it otherwise.  On an analog input a
    resolution that fails three times ends the query before that check:
    with -ENOLINK when the STDI restart is armed, and with -ERANGE, which
    then says nothing about a pixel clock, when it is spent.  -ERANGE is
    not the no-link error. *)
Theorem pixelclock_range_check :
  forall (w : world) (t : v4l2_dv_timings),
    (pixelclock (bt t) > pixelclock_limit (dev w) ->
     adv7604_s_dv_timings (Some t) w = (- ERANGE, Some t, w)) /\
    (pixelclock (bt t) <= pixelclock_limit (dev w) ->
     fst (fst (adv7604_s_dv_timings (Some t) w)) = 0) /\
    (exists (r : Z) (t' : v4l2_dv_timings),
       fst (adv7604_query_dv_timings (Some t) w) = (r, Some t') /\
       (r = 0 \/ r = - ERANGE \/ r = - ENOLINK) /\
       (r = 0 -> pixelclock (bt t') <= pixelclock_limit (dev w)) /\
       (r = - ERANGE ->
        pixelclock (bt t') > pixelclock_limit (dev w) \/
        (DIGITAL_INPUT (dev w) = false /\
         restart_stdi_once (dev w) = false))) /\
    (fst (no_signal w) = false ->
     let rs := read_stdi zero_stdi (snd (no_signal w)) in
     fst (fst rs) = 0 ->
     let stdi := snd (fst rs) in
     let il := if stdi_interlaced stdi then V4L2_DV_INTERLACED
               else V4L2_DV_PROGRESSIVE in
     (forall (t1 : v4l2_dv_timings) (w1 : world),
        (DIGITAL_INPUT (dev w) = true /\
         adv7604_query_dv_timings_digital il (snd rs) = (t1, w1)) \/
        (DIGITAL_INPUT (dev w) = false /\
         adv7604_query_dv_timings_analog stdi (unresolved_timing il) (snd rs)
           = (inr t1, w1)) ->
        (fst (no_signal w1) = true ->
         fst (adv7604_query_dv_timings (Some t) w)
           = (- ENOLINK, Some zero_dv_timings)) /\
        (fst (no_signal w1) = false ->
         pixelclock (bt t1) > pixelclock_limit (dev w) ->
         fst (adv7604_query_dv_timings (Some t) w) = (- ERANGE, Some t1)) /\
        (fst (no_signal w1) = false ->
         pixelclock (bt t1) <= pixelclock_limit (dev w) ->
         fst (adv7604_query_dv_timings (Some t) w) = (0, Some t1))) /\
     (forall (e : Z * v4l2_dv_timings) (w1 : world),
        DIGITAL_INPUT (dev w) = false ->
        adv7604_query_dv_timings_analog stdi (unresolved_timing il) (snd rs)
          = (inl e, w1) ->
        fst (adv7604_query_dv_timings (Some t) w) = (fst e, Some (snd e)) /\
        fst e = (if restart_stdi_once (dev w) then - ENOLINK
                 else - ERANGE))) /\
    - ERANGE <> - ENOLINK.
Proof.
  intros w t.
  split; [|split; [|split; [|split]]].
  - intros Hpc. unfold adv7604_s_dv_timings. rewrite bind_run.
    unfold get_state; cbn [fst snd].
    assert (Hcheck :
      ((negb (DIGITAL_INPUT (dev w)) && (pixelclock (bt t) >? 170000000))
       || (DIGITAL_INPUT (dev w) && (pixelclock (bt t) >? 225000000)))
      = (pixelclock (bt t) >? pixelclock_limit (dev w))).
    { unfold pixelclock_limit. destruct (DIGITAL_INPUT (dev w)); cbn.
      - reflexivity.
      - apply orb_false_r. }
    rewrite Hcheck.
    destruct (Z.gtb_spec (pixelclock (bt t)) (pixelclock_limit (dev w)));
      [reflexivity|lia].
  - intros Hpc. unfold adv7604_s_dv_timings. rewrite bind_run.
    unfold get_state; cbn [fst snd].
    assert (Hcheck :
      ((negb (DIGITAL_INPUT (dev w)) && (pixelclock (bt t) >? 170000000))
       || (DIGITAL_INPUT (dev w) && (pixelclock (bt t) >? 225000000)))
      = (pixelclock (bt t) >? pixelclock_limit (dev w))).
    { unfold pixelclock_limit. destruct (DIGITAL_INPUT (dev w)); cbn.
      - reflexivity.
      - apply orb_false_r. }
    rewrite Hcheck.
    destruct (Z.gtb_spec (pixelclock (bt t)) (pixelclock_limit (dev w)));
      [lia|].
    rewrite !bind_run. reflexivity.
  - apply query_dv_timings_outcomes.
  - intros Hsig rs Hstdi stdi il.
    assert (Hd2 : dev (snd rs) = dev w)
      by (subst rs; rewrite keeps_dev_read_stdi; apply keeps_dev_no_signal).
    pose proof (query_dv_timings_run t w Hsig Hstdi) as Hrun.
    cbv zeta in Hrun. fold rs in Hrun. fold stdi in Hrun. fold il in Hrun.
    split.
    + intros t1 w1 [[Hdig Hm]|[Hdig Hm]]; rewrite Hrun, Hdig, Hm;
        cbn [fst snd].
      * assert (Hmode : mode (dev w1) = mode (dev w)).
        { replace w1 with (snd (adv7604_query_dv_timings_digital il (snd rs)))
            by (rewrite Hm; reflexivity).
          rewrite keeps_dev_query_digital, Hd2. reflexivity. }
        destruct (query_found_outcomes t1 w1 w Hmode) as (Hlost & Hover & Hin).
        split; [|split].
        -- intros H. rewrite (Hlost H). reflexivity.
        -- intros H Hpc. rewrite (Hover H Hpc). reflexivity.
        -- intros H Hpc. rewrite (Hin H Hpc). reflexivity.
      * assert (Hmode : mode (dev w1) = mode (dev w)).
        { replace w1 with (snd (adv7604_query_dv_timings_analog stdi
                                  (unresolved_timing il) (snd rs)))
            by (rewrite Hm; reflexivity).
          rewrite (proj2 (query_analog_cases _ _ _)), Hd2. reflexivity. }
        destruct (query_found_outcomes t1 w1 w Hmode) as (Hlost & Hover & Hin).
        split; [|split].
        -- intros H. rewrite (Hlost H). reflexivity.
        -- intros H Hpc. rewrite (Hover H Hpc). reflexivity.
        -- intros H Hpc. rewrite (Hin H Hpc). reflexivity.
    + intros e w1 Hdig Hm. rewrite Hrun, Hdig, Hm. cbn [fst snd].
      split; [reflexivity|].
      pose proof (proj1 (query_analog_cases stdi (unresolved_timing il)
                           (snd rs))) as Hc.
      rewrite Hm in Hc. cbn [fst] in Hc. rewrite Hd2 in Hc.
      destruct Hc as [[Harm Hc]|[Harm Hc]]; rewrite Harm, Hc; reflexivity.
  - discriminate.
Qed.

End RangeCheck.

Lemma pixelclock_range_check_witness :
  adv7604_s_dv_timings (K := plain_kernel) (adapter := ntsc_chip)
    (Some V4L2_DV_BT_DMT_1400X1050P85) (boot ADV7604)
  = (- ERANGE, Some V4L2_DV_BT_DMT_1400X1050P85, boot ADV7604) /\
  fst (fst (adv7604_s_dv_timings (K := plain_kernel) (adapter := ntsc_chip)
              (Some V4L2_DV_BT_CEA_720X480P59_94) (boot ADV7604))) = 0 /\
  fst (query_on (static_chip sxga_plus_85_regs) (boot ADV7604))
  = (- ERANGE, Some V4L2_DV_BT_DMT_1400X1050P85) /\
  fst (query_on (fading_chip sxga_plus_85_regs 11) (boot ADV7604))
  = (- ENOLINK, Some zero_dv_timings) /\
  fst (query_on ntsc_chip (boot ADV7604))
  = (0, Some V4L2_DV_BT_CEA_720X480P59_94).
Proof.
  destruct (pixelclock_range_check (K := plain_kernel) (adapter := ntsc_chip)
              (boot ADV7604) V4L2_DV_BT_DMT_1400X1050P85)
    as (H1 & _).
  destruct (pixelclock_range_check (K := plain_kernel) (adapter := ntsc_chip)
              (boot ADV7604) V4L2_DV_BT_CEA_720X480P59_94)
    as (_ & H2 & _).
  destruct (pixelclock_range_check (K := plain_kernel)
              (adapter := static_chip sxga_plus_85_regs)
              (boot ADV7604) zero_dv_timings)
    as (_ & _ & _ & H3 & _).
  destruct (pixelclock_range_check (K := plain_kernel)
              (adapter := fading_chip sxga_plus_85_regs 11)
              (boot ADV7604) zero_dv_timings)
    as (_ & _ & _ & H4 & _).
  destruct (pixelclock_range_check (K := plain_kernel) (adapter := ntsc_chip)
              (boot ADV7604) zero_dv_timings)
    as (_ & _ & _ & H5 & _).
  split; [apply H1; reflexivity|].
  split; [apply H2; discriminate|].
  split.
  { destruct (H3 eq_refl eq_refl) as [H _].
    refine (proj1 (proj2 (H V4L2_DV_BT_DMT_1400X1050P85 _ _)) _ _).
    - right. split; reflexivity.
    - reflexivity.
    - reflexivity. }
  split.
  { destruct (H4 eq_refl eq_refl) as [H _].
    refine (proj1 (H V4L2_DV_BT_DMT_1400X1050P85 _ _) _).
    - right. split; reflexivity.
    - reflexivity. }
  destruct (H5 eq_refl eq_refl) as [H _].
  refine (proj2 (proj2 (H V4L2_DV_BT_CEA_720X480P59_94 _ _)) _ _).
  - right. split; reflexivity.
  - reflexivity.
  - discriminate.
Defined.

(** C5, as stated, fails in both directions on an analog input.  An
    ADV7604 measures 1400x1050 at 85 Hz, whose 179.5 MHz exceed the 170
    MHz limit, and loses the lock after the eleven reads of the first
    signal check and of the STDI counters: the query resolves the timing
    and then returns -ENOLINK, not -ERANGE (a chip that keeps the lock
    gives -ERANGE).  And a chip that measures a signal no format fits gets
    -ERANGE from its second query, with a timing whose pixel clock is 0. *)
Lemma query_range_check_exceptions :
  pixelclock (bt V4L2_DV_BT_DMT_1400X1050P85)
    > pixelclock_limit (dev (boot ADV7604)) /\
  fst (query_on (static_chip sxga_plus_85_regs) (boot ADV7604))
    = (- ERANGE, Some V4L2_DV_BT_DMT_1400X1050P85) /\
  fst (query_on (fading_chip sxga_plus_85_regs 11) (boot ADV7604))
    = (- ENOLINK, Some zero_dv_timings) /\
  fst (query_on unknown_chip (snd (query_on unknown_chip (boot ADV7604))))
    = (- ERANGE, Some (unresolved_timing V4L2_DV_PROGRESSIVE)) /\
  pixelclock (bt (unresolved_timing V4L2_DV_PROGRESSIVE))
    <= pixelclock_limit (dev (boot ADV7604)).
Proof. vm_compute. repeat split; discriminate. Qed.

(** ** The STDI restart *)

(** C1 fails on the code.  An ADV7604 on an analog input, fresh from
    probe, is asked for its timing four times: twice while it measures a
    signal no table entry has (and CVT and GTF reject), once while it
    measures 720x480 at 59.94 Hz, which the table has, and once more on
    the unknown signal.  The first call restarts the STDI block (the three
    read-modify-writes of CP register 0x86) and returns -ENOLINK, the
    second returns -ERANGE without a restart.  The third succeeds at the
    first attempt, which jumps to [found:] past the re-arming of the
    restart: the flag stays false, and the fourth call returns -ERANGE
    with no second restart.  Had the third call succeeded at the third
    attempt (vsync counter one line too high) the flag would be armed
    again. *)
Theorem restart_not_rearmed_by_first_attempt :
  let r1 := query_on unknown_chip (boot ADV7604) in
  let r2 := query_on unknown_chip (snd r1) in
  let r3 := query_on ntsc_chip (snd r2) in
  let r4 := query_on unknown_chip (snd r3) in
  let restart := [(i2c_cp, 0x86, 0x00); (i2c_cp, 0x86, 0x04);
                  (i2c_cp, 0x86, 0x02)] in
  restart_stdi_once (dev (boot ADV7604)) = true /\
  (fst (fst r1) = - ENOLINK /\
   byte_writes (history (snd r1)) = restart /\
   restart_stdi_once (dev (snd r1)) = false) /\
  (fst (fst r2) = - ERANGE /\
   byte_writes (history (snd r2)) = restart) /\
  (fst r3 = (0, Some V4L2_DV_BT_CEA_720X480P59_94) /\
   restart_stdi_once (dev (snd r3)) = false) /\
  (fst (fst r4) = - ERANGE /\
   byte_writes (history (snd r4)) = restart) /\
  (fst (query_on ntsc_lcvs7_chip (snd r2))
     = (0, Some V4L2_DV_BT_CEA_720X480P59_94) /\
   restart_stdi_once (dev (snd (query_on ntsc_lcvs7_chip (snd r2)))) = true).
Proof. vm_compute. repeat split; reflexivity. Qed.

(** ** Reading the STDI counters *)

Lemma land_mask_range (x m : Z) : 0 <= m -> 0 <= Z.land x m <= m.
Proof.
  intros Hm. split; [apply Z.land_nonneg; right; exact Hm|].
  assert (Hsub : m - Z.land x m = Z.ldiff m (Z.land x m)).
  { apply Z.sub_nocarry_ldiff. apply Z.bits_inj'. intros i Hi.
    rewrite Z.ldiff_spec, Z.land_spec, Z.bits_0.
    destruct (Z.testbit x i), (Z.testbit m i); reflexivity. }
  assert (0 <= Z.ldiff m (Z.land x m)) by (apply Z.ldiff_nonneg; left; exact Hm).
  lia.
Qed.

Section StdiReadback.

Context {adapter : i2c_adapter}.

Lemma cp_read16_range (reg mask : Z) (w : world) :
  0 <= mask < 2 ^ 16 -> 0 <= fst (cp_read16 reg mask w) <= mask.
Proof.
  intros Hm. unfold cp_read16. rewrite !bind_run. cbn [ret fst].
  unfold u16.
  pose proof (land_mask_range
    (Z.lor (Z.shiftl (fst (cp_read reg w)) 8)
           (fst (cp_read (reg + 1) (snd (cp_read reg w))))) mask
    ltac:(lia)) as H.
  rewrite Z.mod_small; lia.
Qed.

(** X1.  A successful [read_stdi] returns counters inside the windows the
    function checks: a block length of at least 8 that is not the
    saturated 0x3fff, and at least 239 lines per field; the line rate
    derived from it then lies between 13 983 Hz and 28 636 360 Hz.  The
    only other result is -1. *)
Theorem read_stdi_success_bounds (stdi0 : stdi_readback) (w : world) :
  let r := fst (read_stdi stdi0 w) in
  (fst r = 0 \/ fst r = -1) /\
  (fst r = 0 ->
   8 <= bl (snd r) < 0x3fff /\ 239 <= lcf (snd r) <= 0x7ff /\
   13983 <= ADV7604_fsc * 8 / bl (snd r) <= 28636360).
Proof.
  cbv zeta. unfold read_stdi.
  rewrite bind_run. unfold get_state; cbn [fst snd].
  rewrite bind_run.
  destruct (fst (stdi_not_locked w)).
  { cbn [ret fst snd]. split; [right; reflexivity|discriminate]. }
  rewrite bind_run.
  set (w1 := snd (stdi_not_locked w)).
  pose proof (cp_read16_range 0xb1 0x3fff w1 ltac:(lia)) as Hbl.
  set (bl_ := fst (cp_read16 0xb1 0x3fff w1)) in *.
  set (w2 := snd (cp_read16 0xb1 0x3fff w1)).
  rewrite bind_run.
  pose proof (cp_read16_range (lcf_reg (info (dev w))) 0x7ff w2 ltac:(lia)) as Hlcf.
  set (lcf_ := fst (cp_read16 (lcf_reg (info (dev w))) 0x7ff w2)) in *.
  set (w3 := snd (cp_read16 _ _ w2)).
  rewrite bind_run. cbv zeta. rewrite bind_run. rewrite bind_run.
  set (pol := fst (_ (snd (io_read 18 _)))).
  rewrite bind_run.
  destruct (fst (stdi_not_locked _)).
  { cbn [ret fst snd]. split; [right; reflexivity|discriminate]. }
  destruct (Z.ltb_spec lcf_ 239); cbn [orb].
  { cbn [ret fst snd]. split; [right; reflexivity|discriminate]. }
  destruct (Z.ltb_spec bl_ 8); cbn [orb].
  { cbn [ret fst snd]. split; [right; reflexivity|discriminate]. }
  destruct (Z.eqb_spec bl_ 0x3fff).
  { cbn [ret fst snd]. split; [right; reflexivity|discriminate]. }
  cbn [ret fst snd bl lcf]. split; [left; reflexivity|]. intros _.
  split; [lia|]. split; [lia|].
  unfold ADV7604_fsc. split.
  - apply Z.div_le_lower_bound; lia.
  - apply Z.div_le_upper_bound; lia.
Qed.
End StdiReadback.

(** ** What a table hit guarantees *)

Lemma stdi2dv_timings_scan_sound (hfreq : Z) (stdi : stdi_readback) :
  forall (tbl : list v4l2_dv_timings) (t : v4l2_dv_timings),
    stdi2dv_timings_scan tbl hfreq stdi = Some t ->
    In t tbl /\ height (bt t) <> 0 /\
    vtotal (bt t) = lcf stdi + 1 /\ vsync (bt t) = lcvs stdi /\
    u64 (pixelclock (bt t) - 1000000) < u32 (hfreq * htotal (bt t))
      < u64 (pixelclock (bt t) + 1000000).
Proof.
  induction tbl as [|e rest IH]; intros t; cbn [stdi2dv_timings_scan];
    [discriminate|].
  assert (Hrest : stdi2dv_timings_scan rest hfreq stdi = Some t ->
    In t (e :: rest) /\ height (bt t) <> 0 /\
    vtotal (bt t) = lcf stdi + 1 /\ vsync (bt t) = lcvs stdi /\
    u64 (pixelclock (bt t) - 1000000) < u32 (hfreq * htotal (bt t))
      < u64 (pixelclock (bt t) + 1000000)).
  { intros H. apply IH in H. destruct H as [Hin H].
    split; [right; exact Hin|exact H]. }
  unfold nonzero.
  destruct (Z.eqb_spec (height (bt e)) 0) as [|Hh]; cbn [negb]; [discriminate|].
  destruct (Z.eqb_spec (vtotal (bt e)) (lcf stdi + 1)) as [Hv|]; cbn [negb];
    [|exact Hrest].
  destruct (Z.eqb_spec (vsync (bt e)) (lcvs stdi)) as [Hs|]; cbn [negb];
    [|exact Hrest].
  destruct (Z.ltb_spec (u32 (hfreq * htotal (bt e)))
              (u64 (pixelclock (bt e) + 1000000))) as [Hlt|]; cbn [andb];
    [|exact Hrest].
  destruct (Z.gtb_spec (u32 (hfreq * htotal (bt e)))
              (u64 (pixelclock (bt e) - 1000000))) as [Hgt|];
    [|exact Hrest].
  intros H. inversion H; subst e.
  split; [left; reflexivity|]. repeat split; try assumption; lia.
Qed.


Section TableHit.

Context {K : kernel}.


End TableHit.


(** ** Decoding the TMDS frequency registers *)

Lemma read_byte_range {adapter : i2c_adapter}
    (c : i2c_client) (command : Z) (w : world) :
  fst (adv_smbus_read_byte_data c command w) = - EIO \/
  0 <= fst (adv_smbus_read_byte_data c command w) <= 255.
Proof.
  rewrite adv_smbus_read_byte_data_run. cbn [fst].
  destruct (_ =? 0); [right|left; reflexivity].
  generalize (xfer_byte adapter (history w)
                (SMBUS_READ_BYTE_DATA c (u8 command))).
  intros x. unfold u8. change (2 ^ 8) with 256.
  pose proof (Z.mod_pos_bound x 256 ltac:(lia)). lia.
Qed.

Lemma bytes_enumerated (a : Z) :
  0 <= a <= 255 -> In a (map Z.of_nat (seq 0 256)).
Proof.
  intros Ha. apply in_map_iff. exists (Z.to_nat a).
  split; [lia|]. apply in_seq. lia.
Qed.

Lemma tmds_bit_fields :
  forallb (fun b =>
     (Z.shiftr b 7 =? b / 128) && (Z.land b 0x7f =? b mod 128)
     && (Z.shiftr (Z.land b 0x30) 4 =? (b / 16) mod 4)
     && (Z.lor (Z.shiftl b 1) 0 =? 2 * b)
     && (Z.lor (Z.shiftl b 1) 1 =? 2 * b + 1))
    (map Z.of_nat (seq 0 256)) = true.
Proof. vm_compute. reflexivity. Qed.

Lemma adv7611_pixelclock_bytes (a b : Z) :
  0 <= a <= 255 -> 0 <= b <= 255 ->
  u32 (Z.lor (Z.shiftl a 1) (Z.shiftr b 7) * 1000000
       + Z.land b 0x7f * 1000000 / 128)
  = (256 * a + b) * 1000000 / 128.
Proof.
  intros Ha Hb.
  pose proof (proj1 (forallb_forall _ _) tmds_bit_fields
                _ (bytes_enumerated _ Ha)) as Fa.
  pose proof (proj1 (forallb_forall _ _) tmds_bit_fields
                _ (bytes_enumerated _ Hb)) as Fb.
  cbv beta in Fa, Fb.
  repeat (apply andb_prop in Fa; destruct Fa as [Fa ?]).
  repeat (apply andb_prop in Fb; destruct Fb as [Fb ?]).
  repeat match goal with
         | E : (_ =? _) = true |- _ => apply Z.eqb_eq in E
         end.
  assert (Hhi : Z.lor (Z.shiftl a 1) (Z.shiftr b 7) = 2 * a + b / 128).
  { replace (Z.shiftr b 7) with (b / 128) by congruence.
    assert (Hc : b / 128 = 0 \/ b / 128 = 1).
    { assert (0 <= b / 128 < 2); [|lia].
      split; [apply Z.div_pos; lia|apply Z.div_lt_upper_bound; lia]. }
    destruct Hc as [-> | ->]; lia. }
  assert (Hlo : Z.land b 0x7f = b mod 128) by congruence.
  rewrite Hhi, Hlo.
  pose proof (Z.div_mod b 128 ltac:(lia)) as Hdm.
  pose proof (Z.mod_pos_bound b 128 ltac:(lia)) as Hm.
  assert (Hq : 0 <= b / 128 <= 1).
  { split; [apply Z.div_pos; lia|].
    apply Z.lt_succ_r. apply Z.div_lt_upper_bound; lia. }
  replace ((256 * a + b) * 1000000)
    with ((2 * a + b / 128) * 1000000 * 128 + b mod 128 * 1000000) by lia.
  rewrite Z.div_add_l by lia.
  unfold u32. apply Z.mod_small.
  assert (0 <= b mod 128 * 1000000 / 128 <= 1000000).
  { split; [apply Z.div_pos; lia|apply Z.div_le_upper_bound; lia]. }
  lia.
Qed.

Lemma adv7604_pixelclock_bytes (a b : Z) :
  0 <= a <= 255 -> 0 <= b <= 255 ->
  u32 (a * 1000000 + Z.shiftr (Z.land b 0x30) 4 * 250000)
  = (4 * a + (b / 16) mod 4) * 250000.
Proof.
  intros Ha Hb.
  pose proof (proj1 (forallb_forall _ _) tmds_bit_fields
                _ (bytes_enumerated _ Hb)) as Fb.
  cbv beta in Fb.
  repeat (apply andb_prop in Fb; destruct Fb as [Fb ?]).
  repeat match goal with
         | E : (_ =? _) = true |- _ => apply Z.eqb_eq in E
         end.
  replace (Z.shiftr (Z.land b 0x30) 4) with ((b / 16) mod 4) by congruence.
  pose proof (Z.mod_pos_bound (b / 16) 4 ltac:(lia)).
  unfold u32. rewrite Z.mod_small; lia.
Qed.

Section PixelClock.

Context {adapter : i2c_adapter}.

(** X3.  On the ADV7611 the two TMDS frequency registers 0x51 and 0x52 of
    the HDMI map are read, in that order, as one 16-bit number of 1/128
    MHz: the result is (256 a + b) * 1 000 000 / 128 Hz, at most
    511 992 187 Hz, and 0 when either read fails. *)
Theorem adv7611_pixelclock_decoding :
  forall w : world,
    let ra := hdmi_read 0x51 w in
    let rb := hdmi_read 0x52 (snd ra) in
    adv7611_read_hdmi_pixelclock w =
      (if (fst ra <? 0) || (fst rb <? 0) then 0
       else (256 * fst ra + fst rb) * 1000000 / 128,
       snd rb) /\
    0 <= fst (adv7611_read_hdmi_pixelclock w) <= 511992187.
Proof.
  intros w. cbv zeta.
  assert (Hrun : adv7611_read_hdmi_pixelclock w =
    (if (fst (hdmi_read 0x51 w) <? 0)
        || (fst (hdmi_read 0x52 (snd (hdmi_read 0x51 w))) <? 0)
     then 0
     else (256 * fst (hdmi_read 0x51 w)
           + fst (hdmi_read 0x52 (snd (hdmi_read 0x51 w)))) * 1000000 / 128,
     snd (hdmi_read 0x52 (snd (hdmi_read 0x51 w))))).
  { unfold adv7611_read_hdmi_pixelclock. rewrite !bind_run.
    destruct (read_byte_range i2c_hdmi 0x51 w) as [Ea|Ha];
      fold (hdmi_read 0x51 w) in *.
    { rewrite Ea. reflexivity. }
    destruct (read_byte_range i2c_hdmi 0x52 (snd (hdmi_read 0x51 w)))
      as [Eb|Hb]; fold (hdmi_read 0x52 (snd (hdmi_read 0x51 w))) in *.
    { rewrite Eb. rewrite orb_true_r. reflexivity. }
    destruct (Z.ltb_spec (fst (hdmi_read 0x51 w)) 0); [lia|].
    destruct (Z.ltb_spec (fst (hdmi_read 0x52 (snd (hdmi_read 0x51 w)))) 0);
      [lia|].
    cbn [orb]. unfold ret. f_equal.
    apply adv7611_pixelclock_bytes; assumption. }
  split; [exact Hrun|].
  rewrite Hrun. cbn [fst].
  destruct (read_byte_range i2c_hdmi 0x51 w) as [Ea|Ha];
    fold (hdmi_read 0x51 w) in *.
  { rewrite Ea. cbn. lia. }
  destruct (read_byte_range i2c_hdmi 0x52 (snd (hdmi_read 0x51 w)))
    as [Eb|Hb]; fold (hdmi_read 0x52 (snd (hdmi_read 0x51 w))) in *.
  { rewrite Eb. rewrite orb_true_r. lia. }
  destruct (_ || _); [lia|].
  split.
  - apply Z.div_pos; lia.
  - apply Z.lt_succ_r. apply Z.div_lt_upper_bound; lia.
Qed.

(** X4.  On the ADV7604 the TMDS frequency is register 0x06 of the HDMI
    map in MHz plus bits 5:4 of register 0x3b in quarters of a MHz: the
    result is (4 a + b[5:4]) * 250 000 Hz, a multiple of 250 kHz of at
    most 255.75 MHz, and 0 when either read fails. *)
Theorem adv7604_pixelclock_decoding :
  forall w : world,
    let ra := hdmi_read 0x06 w in
    let rb := hdmi_read 0x3b (snd ra) in
    adv7604_read_hdmi_pixelclock w =
      (if (fst ra <? 0) || (fst rb <? 0) then 0
       else (4 * fst ra + (fst rb / 16) mod 4) * 250000,
       snd rb) /\
    0 <= fst (adv7604_read_hdmi_pixelclock w) <= 255750000 /\
    fst (adv7604_read_hdmi_pixelclock w) mod 250000 = 0.
Proof.
  intros w. cbv zeta.
  assert (Hrun : adv7604_read_hdmi_pixelclock w =
    (if (fst (hdmi_read 0x06 w) <? 0)
        || (fst (hdmi_read 0x3b (snd (hdmi_read 0x06 w))) <? 0)
     then 0
     else (4 * fst (hdmi_read 0x06 w)
           + (fst (hdmi_read 0x3b (snd (hdmi_read 0x06 w))) / 16) mod 4)
          * 250000,
     snd (hdmi_read 0x3b (snd (hdmi_read 0x06 w))))).
  { unfold adv7604_read_hdmi_pixelclock. rewrite !bind_run.
    destruct (read_byte_range i2c_hdmi 0x06 w) as [Ea|Ha];
      fold (hdmi_read 0x06 w) in *.
    { rewrite Ea. reflexivity. }
    destruct (read_byte_range i2c_hdmi 0x3b (snd (hdmi_read 0x06 w)))
      as [Eb|Hb]; fold (hdmi_read 0x3b (snd (hdmi_read 0x06 w))) in *.
    { rewrite Eb. rewrite orb_true_r. reflexivity. }
    destruct (Z.ltb_spec (fst (hdmi_read 0x06 w)) 0); [lia|].
    destruct (Z.ltb_spec (fst (hdmi_read 0x3b (snd (hdmi_read 0x06 w)))) 0);
      [lia|].
    cbn [orb]. unfold ret. f_equal.
    apply adv7604_pixelclock_bytes; assumption. }
  split; [exact Hrun|].
  rewrite Hrun. cbn [fst].
  destruct (read_byte_range i2c_hdmi 0x06 w) as [Ea|Ha];
    fold (hdmi_read 0x06 w) in *.
  { rewrite Ea. cbn. split; [lia|reflexivity]. }
  destruct (read_byte_range i2c_hdmi 0x3b (snd (hdmi_read 0x06 w)))
    as [Eb|Hb]; fold (hdmi_read 0x3b (snd (hdmi_read 0x06 w))) in *.
  { rewrite Eb. rewrite orb_true_r. split; [lia|reflexivity]. }
  destruct (_ || _); [split; [lia|reflexivity]|].
  pose proof (Z.mod_pos_bound
    (fst (hdmi_read 0x3b (snd (hdmi_read 0x06 w))) / 16) 4 ltac:(lia)).
  split; [lia|]. apply Z.mod_mul. lia.
Qed.

End PixelClock.

(** ** Setting a timing *)

Section SetTimings.

Context {K : kernel} {adapter : i2c_adapter}.

Lemma keeps_dev_find_and_set (prim_mode : Z) (t : v4l2_dv_timings) :
  forall l : list adv7604_video_standards,
    keeps_dev (find_and_set_predefined_video_timings prim_mode l t).
Proof.
  induction l as [|p rest IH]; cbn [find_and_set_predefined_video_timings].
  - apply keeps_dev_ret.
  - unfold io_write. drv_effects. exact IH.
Qed.

Lemma keeps_dev_configure_predefined (t : v4l2_dv_timings) :
  keeps_dev (configure_predefined_video_timings t).
Proof.
  unfold configure_predefined_video_timings, cp_write_and_or, cp_write,
    cp_read, io_write.
  drv_effects; apply keeps_dev_find_and_set.
Qed.

Lemma keeps_dev_configure_custom (b : v4l2_bt_timings) :
  keeps_dev (configure_custom_video_timings b).
Proof.
  unfold configure_custom_video_timings, cp_write_and_or, cp_write,
    cp_read, io_write.
  drv_effects.
Qed.

Lemma keeps_dev_set_rgb_quantization_range :
  keeps_dev set_rgb_quantization_range.
Proof.
  unfold set_rgb_quantization_range, io_write_and_or, io_read, io_write,
    hdmi_read.
  drv_effects.
Qed.

Lemma range_check_limit (state : adv7604_state) (t : v4l2_dv_timings) :
  ((negb (DIGITAL_INPUT state) && (pixelclock (bt t) >? 170000000))
   || (DIGITAL_INPUT state && (pixelclock (bt t) >? 225000000)))
  = (pixelclock (bt t) >? pixelclock_limit state).
Proof.
  unfold pixelclock_limit. destruct (DIGITAL_INPUT state); cbn.
  - reflexivity.
  - apply orb_false_r.
Qed.

(** The call on a timing within the limit, step by step. *)
Lemma s_dv_timings_run (w : world) (t : v4l2_dv_timings) :
  pixelclock (bt t) <= pixelclock_limit (dev w) ->
  let t' := adv7604_fill_optional_dv_timings_fields (dev w) t in
  fst (adv7604_s_dv_timings (Some t) w) = (0, Some t') /\
  dev (snd (adv7604_s_dv_timings (Some t) w)) = set_timings t' (dev w).
Proof.
  intros Hpc. cbv zeta. unfold adv7604_s_dv_timings.
  rewrite bind_run. unfold get_state; cbn [fst snd].
  rewrite range_check_limit.
  destruct (Z.gtb_spec (pixelclock (bt t)) (pixelclock_limit (dev w)));
    [lia|].
  rewrite !bind_run. cbn [ret fst snd]. split; [reflexivity|].
  rewrite keeps_dev_set_rgb_quantization_range.
  match goal with
  | |- dev (snd ((if ?c then _ else _) ?w0)) = _ =>
      assert (Hc : dev (snd ((if c then
                    configure_custom_video_timings
                      (bt (adv7604_fill_optional_dv_timings_fields (dev w) t))
                  else ret tt) w0)) = dev w0)
        by (destruct c; [apply keeps_dev_configure_custom|reflexivity]);
      rewrite Hc
  end.
  rewrite keeps_dev_configure_predefined.
  unfold cp_write_and_or, cp_read, cp_write.
  rewrite bind_run, keeps_dev_write, keeps_dev_read.
  reflexivity.
Qed.

(** X5.  A timing within the pixel clock limit is always accepted: the
    call returns 0 whatever the bus does, hands back the timing after the
    table look-up, and stores exactly that timing, so that
    [adv7604_g_dv_timings] returns it and [adv7604_g_mbus_fmt] reports its
    size; nothing else in the state changes. *)
Theorem s_dv_timings_stores_timing :
  forall (w : world) (t : v4l2_dv_timings) (fmt : v4l2_mbus_framefmt),
    pixelclock (bt t) <= pixelclock_limit (dev w) ->
    let t' := adv7604_fill_optional_dv_timings_fields (dev w) t in
    let w' := snd (adv7604_s_dv_timings (Some t) w) in
    fst (adv7604_s_dv_timings (Some t) w) = (0, Some t') /\
    dev w' = set_timings t' (dev w) /\
    adv7604_g_dv_timings w' = (0, t', w') /\
    fst (fst (adv7604_g_mbus_fmt fmt w')) = 0 /\
    fmt_width (snd (fst (adv7604_g_mbus_fmt fmt w'))) = width (bt t') /\
    fmt_height (snd (fst (adv7604_g_mbus_fmt fmt w'))) = height (bt t').
Proof.
  intros w t fmt Hpc. cbv zeta.
  destruct (s_dv_timings_run w t Hpc) as [Hrun Hdev].
  split; [exact Hrun|]. split; [exact Hdev|].
  unfold adv7604_g_dv_timings, adv7604_g_mbus_fmt.
  rewrite !bind_run. unfold get_state, ret; cbn [fst snd].
  rewrite Hdev. cbn [set_timings timings fmt_width fmt_height].
  repeat split.
Qed.

(** X6.  The pixel clock limit [adv7604_dv_timings_cap] advertises for the
    selected input is the one [adv7604_s_dv_timings] enforces: a timing
    is refused with -ERANGE exactly when its pixel clock exceeds the
    advertised maximum.  The query itself touches neither the state nor
    the bus and leaves the two minimum sizes as the caller passed them. *)
Theorem dv_timings_cap_matches_range_check :
  forall (w : world) (cap : v4l2_dv_timings_cap) (t : v4l2_dv_timings),
    let r := adv7604_dv_timings_cap cap w in
    let cap' := snd (fst r) in
    fst (fst r) = 0 /\ snd r = w /\
    max_pixelclock (cap_bt cap') = pixelclock_limit (dev w) /\
    min_width (cap_bt cap') = min_width (cap_bt cap) /\
    min_height (cap_bt cap') = min_height (cap_bt cap) /\
    (fst (fst (adv7604_s_dv_timings (Some t) w)) = - ERANGE <->
     pixelclock (bt t) > max_pixelclock (cap_bt cap')).
Proof.
  intros w cap t. cbv zeta.
  unfold adv7604_dv_timings_cap. rewrite bind_run.
  unfold get_state, ret; cbn [fst snd cap_bt max_pixelclock min_width
                               min_height].
  fold (pixelclock_limit (dev w)).
  repeat split.
  - intros Herr.
    destruct (Z_le_gt_dec (pixelclock (bt t)) (pixelclock_limit (dev w)))
      as [Hle|Hgt]; [|exact Hgt].
    destruct (s_dv_timings_run w t Hle) as [Hrun _].
    rewrite Hrun in Herr. discriminate Herr.
  - intros Hgt. unfold adv7604_s_dv_timings. rewrite bind_run.
    unfold get_state; cbn [fst snd]. rewrite range_check_limit.
    destruct (Z.gtb_spec (pixelclock (bt t)) (pixelclock_limit (dev w)));
      [reflexivity|lia].
Qed.

End SetTimings.

Lemma s_dv_timings_stores_timing_witness :
  fst (adv7604_s_dv_timings (K := plain_kernel) (adapter := dead_bus)
         (Some V4L2_DV_BT_CEA_1280X720P60) (boot ADV7604))
  = (0, Some V4L2_DV_BT_CEA_1280X720P60).
Proof.
  apply (s_dv_timings_stores_timing (K := plain_kernel)
           (adapter := dead_bus) (boot ADV7604) V4L2_DV_BT_CEA_1280X720P60
           {| fmt_width := 0; fmt_height := 0; code := 0; field := 0;
              colorspace := 0 |}).
  discriminate.
Defined.

(** ** Enumerating the supported timings *)

Lemma adv7604_timings_entries :
  forallb (fun t => nonzero (width (bt t)) && nonzero (height (bt t))
                    && (interlaced (bt t) =? V4L2_DV_PROGRESSIVE)
                    && (pixelclock (bt t) <=? 225000000))
    (firstn 57 adv7604_timings) = true /\
  nth 57 adv7604_timings zero_dv_timings = zero_dv_timings /\
  length adv7604_timings = 58%nat.
Proof. vm_compute. repeat split. Qed.

Lemma adv7604_timings_nth (i : Z) :
  0 <= i < 57 ->
  let t := nth (Z.to_nat i) adv7604_timings zero_dv_timings in
  In t adv7604_timings /\
  width (bt t) <> 0 /\ height (bt t) <> 0 /\
  interlaced (bt t) = V4L2_DV_PROGRESSIVE /\
  pixelclock (bt t) <= 225000000.
Proof.
  intros Hi. cbv zeta.
  destruct adv7604_timings_entries as (Hall & _ & Hlen).
  split; [apply nth_In; lia|].
  assert (Hin : In (nth (Z.to_nat i) adv7604_timings zero_dv_timings)
                   (firstn 57 adv7604_timings)).
  { rewrite <- (firstn_skipn 57 adv7604_timings) at 1.
    rewrite app_nth1 by (rewrite length_firstn; lia).
    apply nth_In. rewrite length_firstn. lia. }
  pose proof (proj1 (forallb_forall _ _) Hall _ Hin) as H.
  cbv beta in H. unfold nonzero in H.
  repeat (apply andb_prop in H; destruct H as [H ?]).
  repeat match goal with
         | E : negb (_ =? _) = true |- _ =>
             apply negb_true_iff, Z.eqb_neq in E
         | E : (_ =? _) = true |- _ => apply Z.eqb_eq in E
         | E : (_ <=? _) = true |- _ => apply Z.leb_le in E
         end.
  repeat split; assumption.
Qed.

Lemma adv7604_timings_index (t : v4l2_dv_timings) :
  In t adv7604_timings -> height (bt t) <> 0 ->
  exists i : Z,
    0 <= i < 57 /\ nth (Z.to_nat i) adv7604_timings zero_dv_timings = t.
Proof.
  intros Hin Hh.
  destruct adv7604_timings_entries as (_ & Hlast & Hlen).
  destruct (In_nth _ _ zero_dv_timings Hin) as (n & Hn & Hnth).
  exists (Z.of_nat n). rewrite Nat2Z.id. split; [|exact Hnth].
  assert (n <> 57%nat); [|lia].
  intros ->. rewrite Hlast in Hnth. subst t. apply Hh. reflexivity.
Qed.

Lemma enum_dv_timings_run (arg : v4l2_enum_dv_timings) :
  0 <= index arg < 57 ->
  adv7604_enum_dv_timings arg
  = (0, {| index := index arg;
           reserved := repeat 0 (length (reserved arg));
           enum_timings :=
             nth (Z.to_nat (index arg)) adv7604_timings zero_dv_timings |}).
Proof.
  intros Hi. destruct adv7604_timings_entries as (_ & _ & Hlen).
  unfold adv7604_enum_dv_timings. rewrite Hlen.
  destruct (Z.geb_spec (index arg) (Z.of_nat 58 - 1)); [lia|reflexivity].
Qed.

Section Enumeration.

Context {K : kernel} {adapter : i2c_adapter}.

(** X7.  The enumeration has exactly the 57 entries of the table before its
    terminator.  An index of 57 or more is refused with -EINVAL and the
    argument is left as it was; a smaller one yields, with status 0, the
    table entry at that index, which is a progressive timing with a
    non-zero size, keeps the index and zeroes the reserved words.  Every
    timing the STDI table scan can return is one of the enumerated
    ones. *)
Theorem enum_dv_timings_table :
  forall arg : v4l2_enum_dv_timings,
    (57 <= index arg -> adv7604_enum_dv_timings arg = (- EINVAL, arg)) /\
    (0 <= index arg < 57 ->
     let r := adv7604_enum_dv_timings arg in
     fst r = 0 /\ index (snd r) = index arg /\
     reserved (snd r) = repeat 0 (length (reserved arg)) /\
     enum_timings (snd r) =
       nth (Z.to_nat (index arg)) adv7604_timings zero_dv_timings /\
     In (enum_timings (snd r)) adv7604_timings /\
     width (bt (enum_timings (snd r))) <> 0 /\
     height (bt (enum_timings (snd r))) <> 0 /\
     interlaced (bt (enum_timings (snd r))) = V4L2_DV_PROGRESSIVE) /\
    (forall (hfreq : Z) (stdi : stdi_readback) (t : v4l2_dv_timings),
       stdi2dv_timings_scan adv7604_timings hfreq stdi = Some t ->
       exists i : Z,
         0 <= i < 57 /\
         adv7604_enum_dv_timings
           {| index := i; reserved := reserved arg;
              enum_timings := enum_timings arg |}
         = (0, {| index := i; reserved := repeat 0 (length (reserved arg));
                  enum_timings := t |})).
Proof.
  intros arg.
  destruct adv7604_timings_entries as (_ & _ & Hlen).
  split; [|split].
  - intros Hi. unfold adv7604_enum_dv_timings. rewrite Hlen.
    destruct (Z.geb_spec (index arg) (Z.of_nat 58 - 1)); [reflexivity|lia].
  - intros Hi. cbv zeta. unfold adv7604_enum_dv_timings. rewrite Hlen.
    destruct (Z.geb_spec (index arg) (Z.of_nat 58 - 1)); [lia|].
    cbn [fst snd index reserved enum_timings].
    destruct (adv7604_timings_nth (index arg) Hi) as (Hin & Hw & Hh & Hp & _).
    repeat split; assumption.
  - intros hfreq stdi t Hscan.
    apply stdi2dv_timings_scan_sound in Hscan.
    destruct Hscan as (Hin & Hh & _).
    destruct (adv7604_timings_index t Hin Hh) as (i & Hi & Hnth).
    exists i. split; [exact Hi|].
    unfold adv7604_enum_dv_timings. rewrite Hlen.
    cbn [index reserved enum_timings].
    destruct (Z.geb_spec i (Z.of_nat 58 - 1)); [lia|].
    rewrite Hnth. reflexivity.
Qed.

(** X8.  Every enumerated timing can be set while the HDMI input is
    selected: [adv7604_s_dv_timings] returns 0 for it.  The enumeration
    does not depend on the selected input, and on an analog input it
    contains a timing the range check refuses with -ERANGE. *)
Theorem enum_dv_timings_accepted_on_hdmi :
  forall (w : world) (arg : v4l2_enum_dv_timings),
    0 <= index arg < 57 ->
    let t := enum_timings (snd (adv7604_enum_dv_timings arg)) in
    (DIGITAL_INPUT (dev w) = true ->
     fst (fst (adv7604_s_dv_timings (Some t) w)) = 0) /\
    (DIGITAL_INPUT (dev w) = false ->
     exists arg' : v4l2_enum_dv_timings,
       0 <= index arg' < 57 /\
       fst (fst (adv7604_s_dv_timings
                   (Some (enum_timings (snd (adv7604_enum_dv_timings arg'))))
                   w)) = - ERANGE).
Proof.
  intros w arg Hi. cbv zeta. split.
  - intros Hdig.
    rewrite (enum_dv_timings_run arg Hi). cbn [snd enum_timings].
    destruct (adv7604_timings_nth (index arg) Hi) as (_ & _ & _ & _ & Hpc).
    match goal with
    | |- fst (fst (adv7604_s_dv_timings (Some ?t) w)) = 0 =>
        destruct (s_dv_timings_run w t) as [Hrun _]
    end.
    + unfold pixelclock_limit. rewrite Hdig. exact Hpc.
    + rewrite Hrun. reflexivity.
  - intros Hana.
    exists {| index := 46; reserved := []; enum_timings := zero_dv_timings |}.
    split; [cbn; lia|].
    unfold adv7604_s_dv_timings. rewrite bind_run.
    unfold get_state; cbn [fst snd]. rewrite Hana.
    reflexivity.
Qed.

End Enumeration.

Lemma enum_dv_timings_accepted_on_hdmi_witness :
  fst (fst (adv7604_s_dv_timings (K := plain_kernel) (adapter := dead_bus)
              (Some (enum_timings (snd (adv7604_enum_dv_timings
                 {| index := 41; reserved := [0; 0; 0];
                    enum_timings := zero_dv_timings |}))))
              (with_dev (set_mode ADV7604_MODE_HDMI
                           (adv7604_probe_state ADV7611))
                 (boot ADV7611)))) = 0.
Proof.
  apply (enum_dv_timings_accepted_on_hdmi (K := plain_kernel)
           (adapter := dead_bus)
           (with_dev (set_mode ADV7604_MODE_HDMI
                        (adv7604_probe_state ADV7611)) (boot ADV7611))
           {| index := 41; reserved := [0; 0; 0];
              enum_timings := zero_dv_timings |}).
  - cbn. lia.
  - reflexivity.
Defined.

(** ** Uploading and reading back the EDID *)

Lemma block_writes_app (new old : list event) :
  block_writes (new ++ old) = block_writes old ++ block_writes new.
Proof.
  unfold block_writes.
  set (f := fun (acc : list (i2c_client * Z * list Z)) (e : event) =>
              match e with
              | Xfer (SMBUS_WRITE_I2C_BLOCK_DATA c command block) =>
                  (c, command, block) :: acc
              | _ => acc
              end).
  assert (Hacc : forall l acc, fold_left f l acc = fold_left f l [] ++ acc).
  { induction l as [|e l IH]; intros acc; cbn [fold_left]; [reflexivity|].
    rewrite (IH (f acc e)), (IH (f [] e)).
    destruct e as [[| |c command block]| | |]; cbn [f];
      rewrite <- app_assoc; reflexivity. }
  rewrite fold_left_app, Hacc. reflexivity.
Qed.

Lemma block_writes_edid_block_xfers (val : list Z) :
  forall (k : nat) (i : Z),
    block_writes (edid_block_xfers val i k) =
      map (fun j => (i2c_edid, u8 (i + I2C_SMBUS_BLOCK_MAX * Z.of_nat j),
                     firstn (Z.to_nat I2C_SMBUS_BLOCK_MAX)
                       (skipn (Z.to_nat (i + I2C_SMBUS_BLOCK_MAX * Z.of_nat j))
                          val)))
          (seq 0 k).
Proof.
  induction k as [|k IH]; intros i; [reflexivity|].
  cbn [edid_block_xfers]. rewrite block_writes_app, IH.
  cbn [seq map]. rewrite <- seq_shift, map_map.
  unfold block_writes at 1, edid_block_xfer; cbn [fold_left app].
  f_equal.
  - repeat f_equal; lia.
  - apply map_ext. intros j.
    replace (i + I2C_SMBUS_BLOCK_MAX + I2C_SMBUS_BLOCK_MAX * Z.of_nat j)
      with (i + I2C_SMBUS_BLOCK_MAX * Z.of_nat (S j)) by lia.
    reflexivity.
Qed.

Lemma firstn_plus {A : Type} (a b : nat) :
  forall l : list A, firstn (a + b) l = firstn a l ++ firstn b (skipn a l).
Proof.
  induction a as [|a IH]; intros l; [reflexivity|].
  destruct l as [|x l]; cbn [Nat.add firstn skipn app].
  - rewrite firstn_nil. reflexivity.
  - rewrite IH. reflexivity.
Qed.

Lemma payload_chunks (val : list Z) :
  forall (k : nat) (i : nat),
    (i + 32 * k <= length val)%nat ->
    concat (map (fun j => firstn 32 (skipn (i + 32 * j) val)) (seq 0 k))
    = firstn (32 * k) (skipn i val).
Proof.
  induction k as [|k IH]; intros i Hlen.
  - rewrite Nat.mul_0_r. reflexivity.
  - cbn [seq map concat]. rewrite <- seq_shift, map_map.
    rewrite Nat.mul_0_r, Nat.add_0_r.
    replace (32 * S k)%nat with (32 + 32 * k)%nat by lia.
    rewrite (firstn_plus 32 (32 * k)). f_equal.
    rewrite skipn_skipn.
    rewrite <- (IH (32 + i)%nat) by lia.
    f_equal. apply map_ext. intros j. f_equal. f_equal. lia.
Qed.

Section EdidUpload.

Context {K : kernel} {adapter : i2c_adapter}.

Lemma edid_write_block_loop_stopped (fuel : nat) (i len : Z) (val : list Z)
    (err : Z) (w : world) :
  err <> 0 -> edid_write_block_loop fuel i len val err w = (err, w).
Proof.
  intros Herr. destruct fuel as [|fuel]; cbn [edid_write_block_loop];
    [reflexivity|].
  destruct (Z.eqb_spec err 0); [contradiction|reflexivity].
Qed.

(** The upload loop writes block after block and stops at the first
    failure, whose status it returns. *)
Lemma edid_write_block_loop_run (len : Z) (val : list Z) :
  forall (fuel : nat) (i : Z) (w : world),
    let r := edid_write_block_loop fuel i len val 0 w in
    exists k : nat,
      (k <= fuel)%nat /\
      dev (snd r) = dev w /\
      history (snd r) = edid_block_xfers val i k ++ history w /\
      (fst r <> 0 ->
       exists k' : nat,
         k = S k' /\
         fst r = xfer_status adapter
                   (edid_block_xfers val i k' ++ history w)
                   (edid_block_xfer val
                      (i + I2C_SMBUS_BLOCK_MAX * Z.of_nat k'))) /\
      (fst r = 0 ->
       k = fuel \/ len <= i + I2C_SMBUS_BLOCK_MAX * Z.of_nat k) /\
      (i + I2C_SMBUS_BLOCK_MAX * Z.of_nat k < len + I2C_SMBUS_BLOCK_MAX
       \/ k = O).
Proof.
  induction fuel as [|fuel IH]; intros i w; cbv zeta.
  - exists O. cbn. repeat split; try tauto; auto.
  - cbn [edid_write_block_loop]. cbn [Z.eqb andb].
    destruct (Z.ltb_spec i len) as [Hlt|Hge].
    + rewrite bind_run, adv_smbus_write_i2c_block_data_run.
      cbn [fst snd].
      replace (Z.min I2C_SMBUS_BLOCK_MAX I2C_SMBUS_BLOCK_MAX)
        with I2C_SMBUS_BLOCK_MAX by reflexivity.
      fold (edid_block_xfer val i).
      set (s := xfer_status adapter (history w) (edid_block_xfer val i)).
      destruct (Z.eq_dec s 0) as [Hs|Hs].
      * rewrite Hs.
        destruct (IH (i + I2C_SMBUS_BLOCK_MAX)
                    (log_event (Xfer (edid_block_xfer val i)) w))
          as (k & Hk & Hdev & Hhist & Hfail & Hok & Hbound).
        exists (S k). split; [lia|]. split; [exact Hdev|].
        split.
        { rewrite Hhist. cbn [edid_block_xfers log_event history].
          rewrite <- app_assoc. reflexivity. }
        split; [|split].
        { intros Hne. destruct (Hfail Hne) as (k' & -> & Hst).
          exists (S k'). split; [reflexivity|].
          rewrite Hst. cbn [edid_block_xfers log_event history].
          rewrite <- app_assoc. cbn [app].
          replace (i + I2C_SMBUS_BLOCK_MAX * Z.of_nat (S k'))
            with (i + I2C_SMBUS_BLOCK_MAX + I2C_SMBUS_BLOCK_MAX * Z.of_nat k')
            by lia.
          reflexivity. }
        { intros Hz. destruct (Hok Hz) as [->|Hl]; [left; reflexivity|].
          right. lia. }
        { left. destruct Hbound as [Hb| ->]; unfold I2C_SMBUS_BLOCK_MAX in *;
            lia. }
      * rewrite edid_write_block_loop_stopped by exact Hs.
        exists 1%nat. split; [lia|]. cbn [fst snd].
        split; [reflexivity|]. split; [reflexivity|].
        split; [|split].
        { intros _. exists O. split; [reflexivity|].
          cbn [edid_block_xfers app]. subst s.
          replace (i + I2C_SMBUS_BLOCK_MAX * Z.of_nat 0) with i by lia.
          reflexivity. }
        { intros Hz. contradiction. }
        { left. unfold I2C_SMBUS_BLOCK_MAX. lia. }
    + exists O. cbn [ret fst snd edid_block_xfers app].
      split; [lia|]. split; [reflexivity|]. split; [reflexivity|].
      split; [intros H; contradiction|].
      split; [intros _; right; lia|right; reflexivity].
Qed.

(** X9.  On a bus without faults the upload of 32 n bytes, n up to 8,
    succeeds and writes n blocks to the EDID map, in order of increasing
    offset 0, 32, 64, ..., each carrying the 32 bytes at its offset: put
    end to end, the blocks are the first 32 n bytes of the array. *)
Theorem edid_upload_complete :
  fault_free adapter ->
  forall (w : world) (val : list Z) (n : nat),
    (32 * n <= length val)%nat -> (n <= 8)%nat ->
    let r := edid_upload (32 * Z.of_nat n) val w in
    fst r = 0 /\ dev (snd r) = dev w /\
    exists blocks : list (i2c_client * Z * list Z),
      block_writes (history (snd r)) = block_writes (history w) ++ blocks /\
      blocks = map (fun j : nat => (i2c_edid, 32 * Z.of_nat j,
                                    firstn 32 (skipn (32 * j) val)))
                 (seq 0 n) /\
      payload blocks = firstn (32 * n) val.
Proof.
  intros Hok w val n Hlen Hn. cbv zeta.
  set (w1 := log_event
    (Xfer (SMBUS_WRITE_BYTE_DATA i2c_repeater
             (u8 (edid_ctrl_reg (info (dev w))))
             (u8 (Z.lor (Z.land
                (fst (rep_read (edid_ctrl_reg (info (dev w)))
                        (log_event (Notify ADV7604_HOTPLUG 0) w))) 0xf0)
                0x0))))
    (snd (rep_read (edid_ctrl_reg (info (dev w)))
            (log_event (Notify ADV7604_HOTPLUG 0) w)))).
  assert (Hup : edid_upload (32 * Z.of_nat n) val w =
    edid_write_block_loop
      (Z.to_nat ((32 * Z.of_nat n + I2C_SMBUS_BLOCK_MAX - 1)
                 / I2C_SMBUS_BLOCK_MAX))
      0 (32 * Z.of_nat n) val 0 w1).
  { unfold edid_upload, v4l2_subdev_notify, rep_write_and_or, rep_write.
    rewrite bind_run. unfold get_state; cbn [fst snd].
    rewrite bind_run. unfold emit; cbn [fst snd].
    rewrite bind_run, bind_run.
    rewrite write_byte_fault_free by exact Hok.
    reflexivity. }
  assert (Hw1 : history w1 =
    [Xfer (SMBUS_WRITE_BYTE_DATA i2c_repeater
             (u8 (edid_ctrl_reg (info (dev w))))
             (u8 (Z.lor (Z.land
                (fst (rep_read (edid_ctrl_reg (info (dev w)))
                        (log_event (Notify ADV7604_HOTPLUG 0) w))) 0xf0)
                0x0)));
     Xfer (SMBUS_READ_BYTE_DATA i2c_repeater
             (u8 (edid_ctrl_reg (info (dev w)))));
     Notify ADV7604_HOTPLUG 0] ++ history w /\ dev w1 = dev w).
  { subst w1. unfold rep_read. rewrite adv_smbus_read_byte_data_run.
    split; reflexivity. }
  destruct Hw1 as [Hw1 Hd1].
  rewrite Hup.
  destruct (edid_write_block_loop_run (32 * Z.of_nat n) val
              (Z.to_nat ((32 * Z.of_nat n + I2C_SMBUS_BLOCK_MAX - 1)
                         / I2C_SMBUS_BLOCK_MAX)) 0 w1)
    as (k & Hk & Hdev & Hhist & Hfail & Hdone & Hbound).
  set (r := edid_write_block_loop _ 0 (32 * Z.of_nat n) val 0 w1) in *.
  assert (Hfuel : Z.to_nat ((32 * Z.of_nat n + I2C_SMBUS_BLOCK_MAX - 1)
                            / I2C_SMBUS_BLOCK_MAX) = n).
  { unfold I2C_SMBUS_BLOCK_MAX.
    replace (32 * Z.of_nat n + 32 - 1) with (Z.of_nat n * 32 + 31) by lia.
    rewrite Z.div_add_l by lia. change (31 / 32) with 0. lia. }
  rewrite Hfuel in Hk, Hdone.
  assert (Hz : fst r = 0).
  { destruct (Z.eq_dec (fst r) 0) as [E|E]; [exact E|].
    destruct (Hfail E) as (k' & _ & Hst). rewrite Hok in Hst.
    contradiction. }
  assert (Hkn : k = n).
  { destruct (Hdone Hz) as [E|E]; [exact E|].
    unfold I2C_SMBUS_BLOCK_MAX in *. lia. }
  subst k.
  split; [exact Hz|]. split; [rewrite Hdev; exact Hd1|].
  eexists. split; [|split; [reflexivity|]].
  - rewrite Hhist. rewrite block_writes_app, Hw1, block_writes_app.
    change (block_writes [_; _; _]) with (@nil (i2c_client * Z * list Z)).
    rewrite app_nil_r. f_equal.
    rewrite block_writes_edid_block_xfers.
    apply map_ext_in. intros j Hj. apply in_seq in Hj.
    unfold I2C_SMBUS_BLOCK_MAX.
    replace (0 + 32 * Z.of_nat j) with (32 * Z.of_nat j) by lia.
    f_equal; [f_equal|].
    + unfold u8. apply Z.mod_small. lia.
    + f_equal. f_equal. lia.
  - unfold payload. rewrite map_map. cbn [snd].
    pose proof (payload_chunks val n 0 ltac:(lia)) as H.
    cbn [Nat.add skipn] in H. exact H.
Qed.


End EdidUpload.


Lemma edid_upload_complete_witness :
  fst (edid_upload (adapter := static_chip (fun _ _ => 0))
         (32 * Z.of_nat 4) (repeat 7 256) (boot ADV7611)) = 0.
Proof.
  apply (edid_upload_complete (adapter := static_chip (fun _ _ => 0))
           (fun _ _ => eq_refl) (boot ADV7611) (repeat 7 256) 4).
  - cbn. lia.
  - lia.
Defined.

(** ** Storing and reading back the EDID *)

Section EdidRoundTrip.

Context {K : kernel} {adapter : i2c_adapter}.





End EdidRoundTrip.


(** ** The hotplug line during an EDID update *)

Section Hotplug.

Context {K : kernel} {adapter : i2c_adapter}.




End Hotplug.

(** ** What a query does to the bus and to the state *)

Section QueryEffects.

Context {K : kernel} {adapter : i2c_adapter}.

Lemma emits_from_all {A : Type} (P : event -> Prop) (m : drv A) (w : world) :
  emits P m -> emits_from w P m.
Proof. intros H. exact (H w). Qed.

Lemma emits_from_bind {A B : Type} (P : event -> Prop)
    (m : drv A) (k : A -> drv B) (w : world) :
  emits_from w P m ->
  emits_from (snd (m w)) P (k (fst (m w))) ->
  emits_from w P (bind m k).
Proof.
  intros (e1 & H1 & F1) (e2 & H2 & F2). unfold emits_from.
  rewrite bind_run. exists (e2 ++ e1). split.
  - rewrite H2, H1, app_assoc. reflexivity.
  - apply Forall_app; split; assumption.
Qed.

Lemma emits_from_ret {A : Type} (P : event -> Prop) (a : A) (w : world) :
  emits_from w P (ret a).
Proof. exists []. split; [reflexivity|constructor]. Qed.

Section Reads.

Variable P : event -> Prop.

Hypothesis reads_ok :
  forall (c : i2c_client) (command : Z),
    P (Xfer (SMBUS_READ_BYTE_DATA c command)).

Lemma emits_any_read (c : i2c_client) (command : Z) :
  emits P (adv_smbus_read_byte_data c command).
Proof.
  intros w. rewrite adv_smbus_read_byte_data_run.
  eexists [_]. split; [reflexivity|]. repeat constructor. apply reads_ok.
Qed.

Ltac reads :=
  repeat first
    [ progress cbv zeta
    | apply emits_ret | apply emits_get_state
    | apply emits_any_read
    | apply emits_bind; [|intros ?]
    | match goal with
      | |- emits _ (if ?c then _ else _) => destruct c
      | |- emits _ (match ?x with _ => _ end) => destruct x
      end ].

Lemma emits_reads_no_signal : emits P no_signal.
Proof.
  unfold no_signal, no_power, no_lock_stdi, no_lock_sspd, no_lock_tmds,
    no_signal_tmds, io_read, cp_read.
  reads.
Qed.

Lemma emits_reads_no_power : emits P no_power.
Proof. unfold no_power, io_read. reads. Qed.

Lemma emits_reads_no_lock_cp : emits P no_lock_cp.
Proof. unfold no_lock_cp, io_read. reads. Qed.

Lemma emits_reads_read_stdi (stdi : stdi_readback) :
  emits P (read_stdi stdi).
Proof.
  unfold read_stdi, stdi_not_locked, no_lock_stdi, no_lock_sspd, cp_read16,
    io_read, cp_read, hdmi_read.
  reads.
Qed.

Lemma emits_reads_query_digital (interlaced : Z) :
  emits P (adv7604_query_dv_timings_digital interlaced).
Proof.
  unfold adv7604_query_dv_timings_digital, call_read_hdmi_pixelclock,
    adv7604_read_hdmi_pixelclock, adv7611_read_hdmi_pixelclock,
    hdmi_read16, hdmi_read.
  reads.
Qed.

Lemma emits_reads_query_found (t : v4l2_dv_timings) :
  emits P (adv7604_query_dv_timings_found t).
Proof.
  unfold adv7604_query_dv_timings_found.
  apply emits_bind; [apply emits_get_state|intros state].
  apply emits_bind; [apply emits_reads_no_signal|intros lost].
  reads.
Qed.

(** The analog branch with the restart spent adds nothing. *)
Lemma emits_reads_query_analog_spent
    (stdi : stdi_readback) (t : v4l2_dv_timings) (w : world) :
  restart_stdi_once (dev w) = false ->
  emits_from w P (adv7604_query_dv_timings_analog stdi t).
Proof.
  intros Hspent. exists []. split; [|constructor].
  unfold adv7604_query_dv_timings_analog. rewrite bind_run.
  unfold get_state; cbn [fst snd]. rewrite Hspent.
  repeat match goal with
         | |- context [if ?c then _ else _] => destruct c
         end; reflexivity.
Qed.

End Reads.

Lemma emits_restart_stdi : emits read_or_stdi_restart restart_stdi.
Proof.
  assert (Hw : forall value : Z,
            emits read_or_stdi_restart
              (adv_smbus_write_byte_data i2c_cp 0x86 value)).
  { intros value w. unfold adv_smbus_write_byte_data.
    destruct (adv_smbus_write_byte_data_loop_run 3 0 i2c_cp (u8 0x86)
                (u8 value) w) as (k & _ & Hrun & _); [lia|].
    rewrite Hrun. eexists. split; [reflexivity|].
    apply Forall_forall. intros e He. apply repeat_spec in He. subst e.
    split; reflexivity. }
  unfold restart_stdi, cp_write_and_or, cp_read, cp_write.
  repeat first
    [ apply emits_ret
    | apply emits_any_read; intros; exact I
    | apply Hw
    | apply emits_bind; [|intros ?] ].
Qed.

Lemma emits_query_analog (stdi : stdi_readback) (t : v4l2_dv_timings) :
  emits read_or_stdi_restart (adv7604_query_dv_timings_analog stdi t).
Proof.
  unfold adv7604_query_dv_timings_analog.
  apply emits_bind; [apply emits_get_state|intros state]. cbv zeta.
  repeat match goal with
         | |- emits _ (if ?c then _ else _) => destruct c
         end;
    repeat first
      [ apply emits_ret | apply emits_modify_state
      | apply emits_restart_stdi
      | apply emits_bind; [|intros ?] ].
Qed.

Lemma emits_query_dv_timings (t : option v4l2_dv_timings) :
  emits read_or_stdi_restart (adv7604_query_dv_timings t).
Proof.
  assert (Hr : forall (c : i2c_client) (command : Z),
            read_or_stdi_restart (Xfer (SMBUS_READ_BYTE_DATA c command)))
    by (intros; exact I).
  unfold adv7604_query_dv_timings.
  destruct t as [t|]; [|apply emits_ret].
  apply emits_bind; [apply emits_get_state|intros state].
  apply emits_bind; [apply emits_reads_no_signal; exact Hr|intros lost].
  destruct lost; [apply emits_ret|].
  apply emits_bind; [apply emits_reads_read_stdi; exact Hr|intros rs].
  destruct (nonzero (fst rs)); [apply emits_ret|]. cbv zeta.
  destruct (DIGITAL_INPUT state).
  - apply emits_bind; [apply emits_reads_query_digital; exact Hr|intros t1].
    apply emits_bind; [apply emits_reads_query_found; exact Hr|intros r].
    apply emits_ret.
  - apply emits_bind; [apply emits_query_analog|intros a].
    destruct a as [e|t1]; [apply emits_ret|].
    apply emits_bind; [apply emits_reads_query_found; exact Hr|intros r].
    apply emits_ret.
Qed.

(** A query that never reaches the restart only reads. *)
Lemma emits_query_dv_timings_reads
    (t : option v4l2_dv_timings) (w : world) :
  DIGITAL_INPUT (dev w) = true \/ restart_stdi_once (dev w) = false ->
  emits_from w is_read (adv7604_query_dv_timings t).
Proof.
  intros Hcase.
  assert (Hr : forall (c : i2c_client) (command : Z),
            is_read (Xfer (SMBUS_READ_BYTE_DATA c command)))
    by (intros; exact I).
  unfold adv7604_query_dv_timings.
  destruct t as [t|]; [|apply emits_from_ret].
  apply emits_from_bind; [apply emits_from_ret|].
  unfold get_state at 1 2; cbn [fst snd].
  apply emits_from_bind;
    [apply emits_from_all, emits_reads_no_signal; exact Hr|].
  destruct (fst (no_signal w)); [apply emits_from_ret|].
  apply emits_from_bind;
    [apply emits_from_all, emits_reads_read_stdi; exact Hr|].
  assert (Hd : dev (snd (read_stdi zero_stdi (snd (no_signal w)))) = dev w)
    by (rewrite keeps_dev_read_stdi; apply keeps_dev_no_signal).
  destruct (nonzero (fst (fst (read_stdi zero_stdi (snd (no_signal w))))));
    [apply emits_from_ret|]. cbv zeta.
  destruct (DIGITAL_INPUT (dev w)) eqn:Hdig.
  - apply emits_from_all.
    apply emits_bind; [apply emits_reads_query_digital; exact Hr|intros t1].
    apply emits_bind; [apply emits_reads_query_found; exact Hr|intros r].
    apply emits_ret.
  - destruct Hcase as [Hcase|Hcase]; [discriminate Hcase|].
    apply emits_from_bind.
    + apply emits_reads_query_analog_spent. rewrite Hd. exact Hcase.
    + destruct (fst (adv7604_query_dv_timings_analog _ _ _)) as [e|t1];
        [apply emits_from_ret|].
      apply emits_from_all.
      apply emits_bind; [apply emits_reads_query_found; exact Hr|intros r].
      apply emits_ret.
Qed.

Lemma keeps_dev_query_found (t : v4l2_dv_timings) :
  keeps_dev (adv7604_query_dv_timings_found t).
Proof.
  unfold adv7604_query_dv_timings_found.
  apply keeps_dev_bind; [apply keeps_dev_get_state|intros state].
  apply keeps_dev_bind; [apply keeps_dev_no_signal|intros lost].
  drv_effects.
Qed.

Lemma query_analog_state (stdi : stdi_readback) (t : v4l2_dv_timings)
    (w : world) :
  set_restart_stdi_once false
    (dev (snd (adv7604_query_dv_timings_analog stdi t w)))
  = set_restart_stdi_once false (dev w).
Proof.
  unfold adv7604_query_dv_timings_analog. rewrite bind_run.
  unfold get_state; cbn [fst snd].
  repeat match goal with
         | |- context [if ?c then _ else _] => destruct c
         end;
    rewrite ?bind_run; unfold modify_state, ret; cbn [fst snd dev with_dev];
    rewrite ?keeps_dev_restart_stdi; reflexivity.
Qed.

(** X13.  [adv7604_query_dv_timings] writes to one register only: every
    transfer it makes is a register read, except the writes of the STDI
    restart to CP register 0x86.  On the HDMI input, and on an analog
    input whose restart is spent, it only reads.  In the driver state it
    changes nothing but the flag that arms the restart, and on the HDMI
    input nothing at all. *)
Theorem query_dv_timings_effects :
  forall (t : option v4l2_dv_timings) (w : world),
    let r := adv7604_query_dv_timings t w in
    (exists evs : list event,
       history (snd r) = evs ++ history w /\
       Forall read_or_stdi_restart evs /\
       (DIGITAL_INPUT (dev w) = true \/ restart_stdi_once (dev w) = false ->
        Forall is_read evs)) /\
    set_restart_stdi_once false (dev (snd r))
      = set_restart_stdi_once false (dev w) /\
    (DIGITAL_INPUT (dev w) = true -> dev (snd r) = dev w).
Proof.
  intros t w. cbv zeta. split; [|split].
  - destruct (emits_query_dv_timings t w) as (evs & Hevs & Fevs).
    exists evs. split; [exact Hevs|]. split; [exact Fevs|].
    intros Hcase.
    destruct (emits_query_dv_timings_reads t w Hcase) as (evs' & Hevs' & F').
    rewrite Hevs in Hevs'. apply app_inv_tail in Hevs'. subst evs'.
    exact F'.
  - unfold adv7604_query_dv_timings.
    destruct t as [t|]; [|reflexivity].
    rewrite bind_run. unfold get_state at 1 2; cbn [fst snd].
    rewrite bind_run.
    assert (Hd1 : dev (snd (no_signal w)) = dev w)
      by apply keeps_dev_no_signal.
    destruct (fst (no_signal w)); [cbn [ret snd]; rewrite Hd1; reflexivity|].
    rewrite bind_run.
    assert (Hd2 : dev (snd (read_stdi zero_stdi (snd (no_signal w)))) = dev w)
      by (rewrite keeps_dev_read_stdi; exact Hd1).
    destruct (nonzero (fst (fst (read_stdi zero_stdi (snd (no_signal w))))));
      [cbn [ret snd]; rewrite Hd2; reflexivity|].
    cbv zeta. destruct (DIGITAL_INPUT (dev w)).
    + rewrite !bind_run. cbn [ret snd].
      rewrite keeps_dev_query_found, keeps_dev_query_digital, Hd2.
      reflexivity.
    + rewrite bind_run.
      match goal with
      | |- context [adv7604_query_dv_timings_analog ?s ?t0 ?w0] =>
          pose proof (query_analog_state s t0 w0) as Ha;
          destruct (adv7604_query_dv_timings_analog s t0 w0) as [[e|t1] w3]
      end; cbn [fst snd] in *.
      * cbn [ret snd]. rewrite Ha, Hd2. reflexivity.
      * rewrite !bind_run. cbn [ret snd].
        rewrite keeps_dev_query_found, Ha, Hd2. reflexivity.
  - intros Hdig. unfold adv7604_query_dv_timings.
    destruct t as [t|]; [|reflexivity].
    rewrite bind_run. unfold get_state at 1 2; cbn [fst snd].
    rewrite bind_run.
    assert (Hd1 : dev (snd (no_signal w)) = dev w)
      by apply keeps_dev_no_signal.
    destruct (fst (no_signal w)); [exact Hd1|].
    rewrite bind_run.
    assert (Hd2 : dev (snd (read_stdi zero_stdi (snd (no_signal w)))) = dev w)
      by (rewrite keeps_dev_read_stdi; exact Hd1).
    destruct (nonzero (fst (fst (read_stdi zero_stdi (snd (no_signal w))))));
      [exact Hd2|].
    cbv zeta. rewrite Hdig. rewrite !bind_run. cbn [ret snd].
    rewrite keeps_dev_query_found, keeps_dev_query_digital. exact Hd2.
Qed.

End QueryEffects.

Lemma query_dv_timings_effects_witness :
  Forall is_read
    (history (snd (query_on ntsc_chip
       (with_dev (set_mode ADV7604_MODE_HDMI (dev (boot ADV7611)))
          (boot ADV7611))))).
Proof.
  destruct (query_dv_timings_effects (K := plain_kernel)
              (adapter := ntsc_chip) (Some zero_dv_timings)
              (with_dev (set_mode ADV7604_MODE_HDMI (dev (boot ADV7611)))
                 (boot ADV7611)))
    as ((evs & Hevs & _ & Hreads) & _).
  unfold query_on. rewrite Hevs. cbn [history with_dev boot].
  rewrite app_nil_r. apply Hreads. left. reflexivity.
Defined.

(** ** Input status *)

Section InputStatus.

Context {K : kernel} {C : v4l2_ctrls} {adapter : i2c_adapter}.

Lemma keeps_dev_no_power : keeps_dev no_power.
Proof. unfold no_power, io_read. drv_effects. Qed.

Lemma keeps_dev_no_lock_cp : keeps_dev no_lock_cp.
Proof. unfold no_lock_cp, io_read. drv_effects. Qed.

(** The call, step by step. *)
Lemma g_input_status_run (w : world) :
  let p := no_power w in
  let s := no_signal (snd p) in
  let c := no_lock_cp (snd s) in
  adv7604_g_input_status w =
    (0,
     let status := Z.lor 0 (if fst p then V4L2_IN_ST_NO_POWER else 0) in
     let status := Z.lor status (if fst s then V4L2_IN_ST_NO_SIGNAL else 0) in
     if fst c then
       Z.lor status (if DIGITAL_INPUT (dev w) then V4L2_IN_ST_NO_SYNC
                     else V4L2_IN_ST_NO_H_LOCK)
     else status,
     snd c).
Proof.
  cbv zeta. unfold adv7604_g_input_status.
  rewrite bind_run. unfold get_state; cbn [fst snd].
  rewrite !bind_run. reflexivity.
Qed.

(** X14.  [adv7604_g_input_status] always returns 0, leaves the driver
    state alone and only reads registers.  The status word it hands back
    has the no-power flag exactly when the first read of IO register 0x0c
    shows bit 2 or bit 5, and the no-signal flag exactly when [no_signal]
    says so.  The third flag is no-sync on the HDMI input and no-h-lock
    on an analog one, never both, and it is set exactly when [no_lock_cp]
    reports a lost lock; on a chip without an analog front end it is never
    set.  No other bit is ever set. *)
Theorem g_input_status_flags :
  forall w : world,
    let r := adv7604_g_input_status w in
    let status := snd (fst r) in
    let p := no_power w in
    let s := no_signal (snd p) in
    let c := no_lock_cp (snd s) in
    fst (fst r) = 0 /\ dev (snd r) = dev w /\
    (exists evs : list event,
       history (snd r) = evs ++ history w /\ Forall is_read evs) /\
    (Z.land status V4L2_IN_ST_NO_POWER <> 0 <-> fst p = true) /\
    (Z.land status V4L2_IN_ST_NO_SIGNAL <> 0 <-> fst s = true) /\
    (Z.land status V4L2_IN_ST_NO_SYNC <> 0 <->
     fst c = true /\ DIGITAL_INPUT (dev w) = true) /\
    (Z.land status V4L2_IN_ST_NO_H_LOCK <> 0 <->
     fst c = true /\ DIGITAL_INPUT (dev w) = false) /\
    (has_afe (info (dev w)) = false ->
     Z.land status (Z.lor V4L2_IN_ST_NO_SYNC V4L2_IN_ST_NO_H_LOCK) = 0) /\
    Z.land status
      (Z.lnot (Z.lor (Z.lor V4L2_IN_ST_NO_POWER V4L2_IN_ST_NO_SIGNAL)
                 (Z.lor V4L2_IN_ST_NO_SYNC V4L2_IN_ST_NO_H_LOCK))) = 0.
Proof.
  intros w. cbv zeta. rewrite g_input_status_run. cbn [fst snd].
  assert (Hd1 : dev (snd (no_power w)) = dev w) by apply keeps_dev_no_power.
  assert (Hd2 : dev (snd (no_signal (snd (no_power w)))) = dev w)
    by (rewrite keeps_dev_no_signal; exact Hd1).
  split; [reflexivity|].
  split; [rewrite keeps_dev_no_lock_cp; exact Hd2|].
  split.
  { assert (Hr : forall (c : i2c_client) (command : Z),
              is_read (Xfer (SMBUS_READ_BYTE_DATA c command)))
      by (intros; exact I).
    destruct (emits_reads_no_power is_read Hr w) as (e1 & H1 & F1).
    destruct (emits_reads_no_signal is_read Hr (snd (no_power w)))
      as (e2 & H2 & F2).
    destruct (emits_reads_no_lock_cp is_read Hr
                (snd (no_signal (snd (no_power w)))))
      as (e3 & H3 & F3).
    exists (e3 ++ e2 ++ e1). split.
    - rewrite H3, H2, H1, <- !app_assoc. reflexivity.
    - apply Forall_app. split; [exact F3|].
      apply Forall_app. split; assumption. }
  assert (Hafe : has_afe (info (dev w)) = false ->
                 fst (no_lock_cp (snd (no_signal (snd (no_power w))))) = false).
  { intros Hno. unfold no_lock_cp. rewrite bind_run.
    unfold get_state, adv7604_has_afe; cbn [fst snd].
    rewrite Hd2, Hno. reflexivity. }
  destruct (fst (no_power w)), (fst (no_signal (snd (no_power w)))),
    (fst (no_lock_cp (snd (no_signal (snd (no_power w)))))),
    (DIGITAL_INPUT (dev w));
    repeat split; intros; try discriminate; try reflexivity;
    try (exfalso; match goal with H : _ <> _ |- _ => apply H; reflexivity end);
    try (match goal with H : _ /\ _ |- _ => destruct H; discriminate end);
    try (match goal with
         | H : ?x = false, H' : ?x = false -> true = false |- _ =>
             specialize (H' H); discriminate
         end).
Qed.

End InputStatus.

(** With every read failing, -EIO reads as a powered-down chip without
    signal. *)
Example g_input_status_dead_bus :
  fst (adv7604_g_input_status (adapter := dead_bus) (boot ADV7611))
  = (0, Z.lor V4L2_IN_ST_NO_POWER V4L2_IN_ST_NO_SIGNAL).
Proof. vm_compute. reflexivity. Qed.

(** ** Controls *)

Section Controls.

Context {K : kernel} {C : v4l2_ctrls} {adapter : i2c_adapter}.

Lemma write_byte_run (c : i2c_client) (command value : Z) (w : world) :
  exists k : nat,
    (1 <= k <= 3)%nat /\
    snd (adv_smbus_write_byte_data c command value w)
    = after_writes k c (u8 command) (u8 value) w.
Proof.
  unfold adv_smbus_write_byte_data.
  destruct (adv_smbus_write_byte_data_loop_run 3 0 c (u8 command) (u8 value) w)
    as (k & Hk & Hrun & _); [lia|].
  exists k. split; [exact Hk|]. rewrite Hrun. reflexivity.
Qed.

(** A control whose handler is one register write. *)
Lemma s_ctrl_one_write (c : i2c_client) (reg val : Z) (w : world) :
  exists k : nat,
    (1 <= k <= 3)%nat /\
    (adv_smbus_write_byte_data c reg val ;; ret 0)%drv w
    = (0, after_writes k c (u8 reg) (u8 val) w).
Proof.
  destruct (write_byte_run c reg val w) as (k & Hk & Hrun).
  exists k. split; [exact Hk|].
  rewrite bind_run. unfold ret. rewrite Hrun. reflexivity.
Qed.

(** X15.  [adv7604_s_ctrl] returns 0 or -EINVAL, and -EINVAL only without
    touching the state or the bus: for an id that is none of the eight
    controls, and for the analog sampling phase on a chip without an
    analog front end.  Brightness, contrast, saturation and hue are one
    write of the low byte of the value to CP register 0x3c, 0x3a, 0x3b and
    0x3d, attempted up to three times, and the sampling phase is the same
    on AFE register 0xc8; the call returns 0 even when every attempt
    fails.  The RGB range control stores the value as the quantization
    range before the range is programmed and changes nothing else in the
    state; no other control changes the state. *)
Theorem s_ctrl_outcomes :
  forall (w : world) (id val : Z),
    let r := adv7604_s_ctrl id val w in
    (fst r = 0 \/ fst r = - EINVAL) /\
    (fst r = - EINVAL -> snd r = w) /\
    (~ In id [V4L2_CID_BRIGHTNESS; V4L2_CID_CONTRAST; V4L2_CID_SATURATION;
              V4L2_CID_HUE; V4L2_CID_DV_RX_RGB_RANGE;
              V4L2_CID_ADV_RX_ANALOG_SAMPLING_PHASE;
              V4L2_CID_ADV_RX_FREE_RUN_COLOR_MANUAL;
              V4L2_CID_ADV_RX_FREE_RUN_COLOR] ->
     r = (- EINVAL, w)) /\
    (forall reg : Z,
       In (id, reg) [(V4L2_CID_BRIGHTNESS, 0x3c); (V4L2_CID_CONTRAST, 0x3a);
                     (V4L2_CID_SATURATION, 0x3b); (V4L2_CID_HUE, 0x3d)] ->
       exists k : nat,
         (1 <= k <= 3)%nat /\
         r = (0, after_writes k i2c_cp reg (u8 val) w)) /\
    (id = V4L2_CID_ADV_RX_ANALOG_SAMPLING_PHASE ->
     (has_afe (info (dev w)) = false -> r = (- EINVAL, w)) /\
     (has_afe (info (dev w)) = true ->
      exists k : nat,
        (1 <= k <= 3)%nat /\
        r = (0, after_writes k i2c_afe 0xc8 (u8 val) w))) /\
    (id = V4L2_CID_DV_RX_RGB_RANGE ->
     fst r = 0 /\ dev (snd r) = set_rgb_range (u32 val) (dev w)) /\
    (id <> V4L2_CID_DV_RX_RGB_RANGE -> dev (snd r) = dev w).
Proof.
  intros w id val. cbv zeta.
  unfold adv7604_s_ctrl. rewrite bind_run.
  unfold get_state; cbn [fst snd].
  destruct (Z.eqb_spec id V4L2_CID_BRIGHTNESS) as [->|H1].
  { destruct (s_ctrl_one_write i2c_cp 0x3c val w) as (k & Hk & Hrun).
    unfold cp_write. rewrite Hrun. cbn [fst snd].
    split; [left; reflexivity|]. split; [discriminate|].
    split; [intros Hn; exfalso; apply Hn; cbn; tauto|].
    split.
    { intros reg [E|[E|[E|[E|[]]]]]; inversion E; subst.
      exists k. split; [exact Hk|reflexivity]. }
    split; [discriminate|]. split; [discriminate|]. reflexivity. }
  destruct (Z.eqb_spec id V4L2_CID_CONTRAST) as [->|H2].
  { destruct (s_ctrl_one_write i2c_cp 0x3a val w) as (k & Hk & Hrun).
    unfold cp_write. rewrite Hrun. cbn [fst snd].
    split; [left; reflexivity|]. split; [discriminate|].
    split; [intros Hn; exfalso; apply Hn; cbn; tauto|].
    split.
    { intros reg [E|[E|[E|[E|[]]]]]; inversion E; subst.
      exists k. split; [exact Hk|reflexivity]. }
    split; [discriminate|]. split; [discriminate|]. reflexivity. }
  destruct (Z.eqb_spec id V4L2_CID_SATURATION) as [->|H3].
  { destruct (s_ctrl_one_write i2c_cp 0x3b val w) as (k & Hk & Hrun).
    unfold cp_write. rewrite Hrun. cbn [fst snd].
    split; [left; reflexivity|]. split; [discriminate|].
    split; [intros Hn; exfalso; apply Hn; cbn; tauto|].
    split.
    { intros reg [E|[E|[E|[E|[]]]]]; inversion E; subst.
      exists k. split; [exact Hk|reflexivity]. }
    split; [discriminate|]. split; [discriminate|]. reflexivity. }
  destruct (Z.eqb_spec id V4L2_CID_HUE) as [->|H4].
  { destruct (s_ctrl_one_write i2c_cp 0x3d val w) as (k & Hk & Hrun).
    unfold cp_write. rewrite Hrun. cbn [fst snd].
    split; [left; reflexivity|]. split; [discriminate|].
    split; [intros Hn; exfalso; apply Hn; cbn; tauto|].
    split.
    { intros reg [E|[E|[E|[E|[]]]]]; inversion E; subst.
      exists k. split; [exact Hk|reflexivity]. }
    split; [discriminate|]. split; [discriminate|]. reflexivity. }
  assert (Hpic : forall reg : Z,
    ~ In (id, reg) [(V4L2_CID_BRIGHTNESS, 0x3c); (V4L2_CID_CONTRAST, 0x3a);
                    (V4L2_CID_SATURATION, 0x3b); (V4L2_CID_HUE, 0x3d)]).
  { intros reg [E|[E|[E|[E|[]]]]]; inversion E; congruence. }
  destruct (Z.eqb_spec id V4L2_CID_DV_RX_RGB_RANGE) as [->|H5].
  { rewrite !bind_run. unfold modify_state, ret; cbn [fst snd].
    rewrite keeps_dev_set_rgb_quantization_range. cbn [dev with_dev].
    split; [left; reflexivity|]. split; [discriminate|].
    split; [intros Hn; exfalso; apply Hn; cbn; tauto|].
    split; [intros reg Hin; destruct (Hpic reg Hin)|].
    split; [discriminate|].
    split; [intros _; split; reflexivity|].
    intros Hn. contradiction. }
  destruct (Z.eqb_spec id V4L2_CID_ADV_RX_ANALOG_SAMPLING_PHASE) as [->|H6].
  { unfold adv7604_has_afe.
    destruct (has_afe (info (dev w))) eqn:Hafe; cbn [negb].
    - destruct (s_ctrl_one_write i2c_afe 0xc8 val w) as (k & Hk & Hrun).
      unfold afe_write. rewrite Hrun. cbn [fst snd].
      split; [left; reflexivity|]. split; [discriminate|].
      split; [intros Hn; exfalso; apply Hn; cbn; tauto|].
      split; [intros reg Hin; destruct (Hpic reg Hin)|].
      split.
      { intros _. split; [discriminate|].
        intros _. exists k. split; [exact Hk|reflexivity]. }
      split; [discriminate|]. reflexivity.
    - unfold ret; cbn [fst snd].
      split; [right; reflexivity|]. split; [reflexivity|].
      split; [intros Hn; exfalso; apply Hn; cbn; tauto|].
      split; [intros reg Hin; destruct (Hpic reg Hin)|].
      split; [intros _; split; [reflexivity|discriminate]|].
      split; [discriminate|]. reflexivity. }
  destruct (Z.eqb_spec id V4L2_CID_ADV_RX_FREE_RUN_COLOR_MANUAL) as [->|H7].
  { rewrite bind_run. unfold ret; cbn [fst snd].
    assert (Hd : dev (snd (cp_write_and_or 0xbf (u8 (Z.lnot 0x04))
                             (u8 (Z.shiftl val 2)) w)) = dev w).
    { unfold cp_write_and_or, cp_read, cp_write.
      rewrite bind_run, keeps_dev_write, keeps_dev_read. reflexivity. }
    split; [left; reflexivity|]. split; [discriminate|].
    split; [intros Hn; exfalso; apply Hn; cbn; tauto|].
    split; [intros reg Hin; destruct (Hpic reg Hin)|].
    split; [discriminate|]. split; [discriminate|].
    intros _. exact Hd. }
  destruct (Z.eqb_spec id V4L2_CID_ADV_RX_FREE_RUN_COLOR) as [->|H8].
  { rewrite !bind_run. unfold ret; cbn [fst snd].
    unfold cp_write. rewrite !keeps_dev_write.
    split; [left; reflexivity|]. split; [discriminate|].
    split; [intros Hn; exfalso; apply Hn; cbn; tauto|].
    split; [intros reg Hin; destruct (Hpic reg Hin)|].
    split; [discriminate|]. split; [discriminate|].
    reflexivity. }
  unfold ret; cbn [fst snd].
  split; [right; reflexivity|]. split; [reflexivity|].
  split; [reflexivity|].
  split; [intros reg Hin; destruct (Hpic reg Hin)|].
  split; [intros E; contradiction|].
  split; [intros E; contradiction|]. reflexivity.
Qed.

End Controls.

Lemma s_ctrl_outcomes_witness :
  adv7604_s_ctrl (adapter := dead_bus) 0 7 (boot ADV7604)
    = (- EINVAL, boot ADV7604) /\
  adv7604_s_ctrl (adapter := dead_bus)
    V4L2_CID_ADV_RX_ANALOG_SAMPLING_PHASE 7 (boot ADV7611)
    = (- EINVAL, boot ADV7611) /\
  exists k : nat,
    (1 <= k <= 3)%nat /\
    adv7604_s_ctrl (adapter := dead_bus) V4L2_CID_BRIGHTNESS 0x180
      (boot ADV7604)
    = (0, after_writes k i2c_cp 0x3c 0x80 (boot ADV7604)).
Proof.
  split; [|split].
  - destruct (s_ctrl_outcomes (adapter := dead_bus) (boot ADV7604) 0 7)
      as (_ & _ & H & _).
    apply H. intros Hin. cbn [In] in Hin.
    repeat (destruct Hin as [Hin|Hin]; [discriminate Hin|]). exact Hin.
  - destruct (s_ctrl_outcomes (adapter := dead_bus) (boot ADV7611)
                V4L2_CID_ADV_RX_ANALOG_SAMPLING_PHASE 7)
      as (_ & _ & _ & _ & H & _).
    apply (H eq_refl). reflexivity.
  - destruct (s_ctrl_outcomes (adapter := dead_bus) (boot ADV7604)
                V4L2_CID_BRIGHTNESS 0x180)
      as (_ & _ & _ & H & _).
    apply (H 0x3c). left. reflexivity.
Defined.

(** ** The interrupt handler *)

Section Interrupts.

Context {K : kernel} {adapter : i2c_adapter}.

(** With a cable detection mask of 0 no 5 V interrupt is ever seen. *)
Lemma isr_without_cable_detect
    (C C' : v4l2_ctrls) (w : world) (status : Z) (handled : option bool) :
  cable_det_mask (info (dev w)) = 0 ->
  adv7604_isr (C := C') status handled w
  = adv7604_isr (C := C) status handled w.
Proof.
  intros Hmask. unfold adv7604_isr.
  rewrite !bind_run. unfold get_state; cbn [fst snd].
  rewrite ?bind_run. rewrite Hmask, !Z.land_0_r.
  change (nonzero (u8 0)) with false. reflexivity.
Qed.

(** X16.  [adv7604_isr] always returns 0.  It never clears [*handled]: a
    null pointer stays null, and a flag that is true on entry is true on
    exit.  Where the cable detection mask of the variant is 0, as it is
    for the ADV7604, the 5 V interrupt is never taken: the control
    framework is not called, so the outcome is the same under any two of
    them. *)
Theorem isr_handled_flag :
  forall (C : v4l2_ctrls) (w : world) (status : Z) (handled : option bool),
    let r := adv7604_isr (C := C) status handled w in
    fst (fst r) = 0 /\
    (handled = None -> snd (fst r) = None) /\
    (forall b : bool, handled = Some b ->
       exists b' : bool, snd (fst r) = Some b' /\ (b = true -> b' = true)) /\
    (cable_det_mask (info (dev w)) = 0 ->
     forall C' : v4l2_ctrls,
       adv7604_isr (C := C') status handled w = r).
Proof.
  intros C w status handled. cbv zeta.
  split; [|split; [|split]];
    [| | |intros Hmask C'; apply isr_without_cable_detect; exact Hmask].
  all: unfold adv7604_isr; rewrite bind_run;
    unfold get_state; cbn [fst snd]; rewrite !bind_run.
  all: repeat match goal with
         | |- context [if ?c then _ else _] =>
             match c with
             | nonzero _ => destruct c eqn:?
             | orb _ _ => destruct c eqn:?
             | DIGITAL_INPUT _ => destruct c eqn:?
             end; rewrite ?bind_run; cbn [ret fst snd]
         end.
  all: first [ reflexivity
             | intros ->; reflexivity
             | intros b ->; eexists; split; [reflexivity|auto] ].
Qed.

End Interrupts.

Lemma isr_handled_flag_witness :
  snd (fst (adv7604_isr (C := quiet_ctrls)
              (adapter := static_chip (fun _ _ => 0)) 0 None
              (boot ADV7604))) = None /\
  adv7604_isr (C := {| v4l2_ctrl_s_ctrl := fun _ _ => ret (- EINVAL) |})
    (adapter := static_chip (fun _ _ => 0xff)) 0 (Some false) (boot ADV7604)
  = adv7604_isr (C := quiet_ctrls)
      (adapter := static_chip (fun _ _ => 0xff)) 0 (Some false)
      (boot ADV7604).
Proof.
  split.
  - apply (isr_handled_flag quiet_ctrls (boot ADV7604) 0 None). reflexivity.
  - apply (isr_handled_flag quiet_ctrls (boot ADV7604) 0 (Some false)).
    reflexivity.
Defined.

(** ** The clients an ADV7611 does not have *)

Section AbsentClients.

Context {adapter : i2c_adapter}.

Lemma xfer_ok_present (c : i2c_client) :
  always_present c = true -> xfer_ok on_present_client c.
Proof. intros H x Hx. cbn. rewrite Hx. exact H. Qed.

Ltac present :=
  repeat first
    [ progress cbv zeta
    | apply emits_ret | apply emits_get_state | apply emits_modify_state
    | apply emits_read; apply xfer_ok_present; reflexivity
    | apply emits_write; apply xfer_ok_present; reflexivity
    | apply emits_bind; [|intros ?]
    | match goal with
      | |- emits _ (if ?c then _ else _) => destruct c
      | |- emits _ (match ?x with _ => _ end) => destruct x
      end ].

Ltac page_cases Hmask :=
  repeat match goal with
         | |- context [if ?page =? ?p then _ else _] =>
             let E := fresh "E" in
             destruct (Z.eqb_spec page p) as [E|E];
             [ first [ solve [apply emits_from_all; present]
                     | rewrite E in Hmask; vm_compute in Hmask;
                       discriminate Hmask ]
             | ]
         end.

Lemma read_reg_present (reg : Z) (w : world) :
  info (dev w) = adv7604_chip_info_tbl ADV7611 ->
  emits_from w on_present_client (adv7604_read_reg reg).
Proof.
  intros Hinfo. unfold adv7604_read_reg.
  apply emits_from_bind; [apply emits_from_ret|].
  unfold get_state; cbn [fst snd]. rewrite Hinfo. cbv zeta.
  set (page := Z.shiftr reg 8).
  destruct (negb (nonzero (Z.land (BIT page)
              (page_mask (adv7604_chip_info_tbl ADV7611))))) eqn:Hmask;
    [apply emits_from_ret|].
  unfold io_read, avlink_read, cec_read, infoframe_read, esdp_read, dpp_read,
    afe_read, rep_read, edid_read, hdmi_read, test_read, cp_read, vdp_read.
  page_cases Hmask.
  apply emits_from_ret.
Qed.

Lemma write_reg_present (reg val : Z) (w : world) :
  info (dev w) = adv7604_chip_info_tbl ADV7611 ->
  emits_from w on_present_client (adv7604_write_reg reg val).
Proof.
  intros Hinfo. unfold adv7604_write_reg.
  apply emits_from_bind; [apply emits_from_ret|].
  unfold get_state; cbn [fst snd]. rewrite Hinfo. cbv zeta.
  set (page := Z.shiftr reg 8).
  destruct (negb (nonzero (Z.land (BIT page)
              (page_mask (adv7604_chip_info_tbl ADV7611))))) eqn:Hmask;
    [apply emits_from_ret|].
  unfold io_write, avlink_write, cec_write, infoframe_write, esdp_write,
    dpp_write, afe_write, rep_write, edid_write, hdmi_write, test_write,
    cp_write, vdp_write.
  page_cases Hmask.
  apply emits_from_ret.
Qed.

Lemma write_reg_seq_present :
  forall (l : list adv7604_reg_seq) (w : world),
    info (dev w) = adv7604_chip_info_tbl ADV7611 ->
    emits_from w on_present_client (adv7604_write_reg_seq l).
Proof.
  induction l as [|r rest IH]; intros w Hinfo; cbn [adv7604_write_reg_seq].
  - apply emits_from_ret.
  - apply emits_from_bind; [apply write_reg_present; exact Hinfo|].
    apply IH. rewrite keeps_dev_write_reg. exact Hinfo.
Qed.

Lemma emits_present_set_termination (i : adv7604_chip_info) (enable : bool) :
  emits on_present_client (call_set_termination i enable).
Proof.
  unfold call_set_termination, adv7604_set_termination,
    adv7611_set_termination, hdmi_write.
  present.
Qed.

Lemma emits_present_disable_input : emits on_present_client disable_input.
Proof.
  unfold disable_input, io_write, hdmi_write.
  present. apply emits_present_set_termination.
Qed.

Lemma emits_present_enable_input : emits on_present_client enable_input.
Proof.
  unfold enable_input, io_write, hdmi_write.
  present; apply emits_present_set_termination.
Qed.

Lemma select_input_present (w : world) :
  info (dev w) = adv7604_chip_info_tbl ADV7611 ->
  emits_from w on_present_client select_input.
Proof.
  intros Hinfo. unfold select_input.
  apply emits_from_bind; [apply emits_from_ret|].
  unfold get_state; cbn [fst snd].
  destruct ((mode (dev w) =? ADV7604_MODE_COMP)
            || (mode (dev w) =? ADV7604_MODE_GR)).
  - apply emits_from_bind; [apply write_reg_seq_present; exact Hinfo|].
    apply emits_from_all. unfold afe_write. present.
  - destruct (mode (dev w) =? ADV7604_MODE_HDMI); [|apply emits_from_ret].
    apply emits_from_bind; [apply write_reg_seq_present; exact Hinfo|].
    apply emits_from_all. unfold afe_write, cp_write. present.
Qed.

(** X17.  On an ADV7611 the five clients that [adv7604_probe] does not
    create (AVLINK, ESDP, DPP, TEST and VDP) are never used: whatever the
    address, the generic register read and write only make transfers to
    clients that exist, and so do a preset sequence of any content and a
    routing request for any input. *)
Theorem absent_clients_untouched :
  forall w : world,
    info (dev w) = adv7604_chip_info_tbl ADV7611 ->
    (forall reg : Z, emits_from w on_present_client (adv7604_read_reg reg)) /\
    (forall reg val : Z,
       emits_from w on_present_client (adv7604_write_reg reg val)) /\
    (forall l : list adv7604_reg_seq,
       emits_from w on_present_client (adv7604_write_reg_seq l)) /\
    (forall input output config : Z,
       emits_from w on_present_client
         (adv7604_s_routing input output config)).
Proof.
  intros w Hinfo.
  split; [intros reg; apply read_reg_present; exact Hinfo|].
  split; [intros reg val; apply write_reg_present; exact Hinfo|].
  split; [intros l; apply write_reg_seq_present; exact Hinfo|].
  intros input output config. unfold adv7604_s_routing.
  apply emits_from_bind; [apply emits_from_ret|].
  unfold get_state; cbn [fst snd].
  destruct (negb (adv7604_has_afe (dev w))
            && negb (input =? ADV7604_MODE_HDMI)); [apply emits_from_ret|].
  apply emits_from_bind;
    [apply emits_from_all, emits_modify_state|].
  unfold modify_state at 1; cbn [fst snd].
  apply emits_from_bind;
    [apply emits_from_all, emits_present_disable_input|].
  apply emits_from_bind.
  - apply select_input_present.
    rewrite keeps_dev_disable_input. exact Hinfo.
  - apply emits_from_all.
    apply emits_bind; [apply emits_present_enable_input|intros _].
    apply emits_ret.
Qed.

End AbsentClients.

Lemma absent_clients_untouched_witness :
  emits_from (boot ADV7611) on_present_client
    (adv7604_write_reg_seq (adapter := dead_bus)
       [{| reg := 0x4ff; val := 1 |}; {| reg := 0xb86; val := 2 |}]) /\
  emits_from (boot ADV7611) on_present_client
    (adv7604_s_routing (adapter := dead_bus) ADV7604_MODE_HDMI 0 0).
Proof.
  destruct (absent_clients_untouched (adapter := dead_bus) (boot ADV7611)
              eq_refl) as (_ & _ & Hseq & Hroute).
  split; [apply Hseq|apply Hroute].
Defined.
